(** * Graph building, serialisation, parsing and ontology validation

    A shallow embedding of the graph core of the document pipeline:

    - [src/lambda/rdf-generator/index.py]: [generate_rdf_graph],
      [extract_entities_simple], [serialize_turtle], [serialize_ntriples],
      [format_uri], [format_uri_full], [escape_literal];
    - [src/lambda/ontology-validator/index.py]: [parse_turtle_simple],
      [validate_against_ontology], [fetch_ontology_model] and the status
      computation of [handler].

    and of the code around it:

    - [src/lambda/rdf-generator/index.py]: [serialize_rdf] and [handler],
      with the requests sent to the object store;
    - [src/lambda/ontology-validator/index.py]: [execute_sparql_query],
      [parse_sparql_results], [fetch_ontology_model] over the answers of the
      schema endpoint, the validator over dictionary rows, and [handler];
    - [src/lambda/document-parser/index.py]: [extract_document_id] and
      [create_text_chunks];
    - [src/lambda/upload-handler/index.py]: the object key of an upload.

    Conventions of the embedding.

    - A Python [str] is a list of characters.  Characters are the code points
      below 256 ([ascii]); the character classes used by [str.strip],
      [str.split], [int], [urllib.parse.quote] and the [re] module are the
      ones Python has on that range.
    - A Python [dict] is an insertion-ordered association list ([odict]):
      iteration order is the order of first insertion, as in Python.
    - Code that can raise returns a [result]; the only exception the modelled
      functions raise on well-typed input is the [ValueError] of [int].  The
      handlers add the exceptions of their services and, over dictionary
      rows, the [KeyError] of a missing key.
    - The object store and the schema endpoint are explicit: what a call
      answers is an argument, what a handler sends is part of its result.
    - A [while] loop takes a bound on its rounds and returns [None] when the
      bound is reached.
    - The build-time clock [datetime.utcnow().isoformat()] is an explicit
      argument [now] of the builder. *)

From Stdlib Require Import String Ascii ZArith NArith Lia Bool Arith.
From Stdlib Require Import DecimalString List.
Import ListNotations.

Open Scope string_scope.
Open Scope list_scope.
Open Scope nat_scope.

(** ** Python strings *)

Module PyStr.

Definition str := list ascii.

(** String literals of the source are written as Rocq string literals. *)
Coercion list_ascii_of_string : string >-> list.

Definition dquote : ascii := "034"%char.
Definition backslash : ascii := "092"%char.
Definition newline : ascii := "010"%char.
Definition carriage_return : ascii := "013"%char.
Definition tab : ascii := "009"%char.
Definition space : ascii := "032"%char.

Definition code (c : ascii) : N := N_of_ascii c.

Definition in_range (lo hi : N) (c : ascii) : bool :=
  ((lo <=? code c) && (code c <=? hi))%N.

(** [str.isspace] on one character: 0x09-0x0D, 0x1C-0x20, 0x85, 0xA0. *)
Definition is_space (c : ascii) : bool :=
  in_range 9 13 c || in_range 28 32 c || (code c =? 133)%N || (code c =? 160)%N.

Definition is_upper (c : ascii) : bool := in_range 65 90 c.   (* [A-Z] *)
Definition is_lower (c : ascii) : bool := in_range 97 122 c.  (* [a-z] *)
Definition is_digit (c : ascii) : bool := in_range 48 57 c.   (* [0-9] *)

(** The [\w] class of [re] on a [str] pattern: alphanumeric (alphabetic,
    decimal, digit or numeric) characters and the underscore. *)
Definition is_word (c : ascii) : bool :=
  is_upper c || is_lower c || is_digit c || (code c =? 95)%N
  || (code c =? 170)%N || (code c =? 178)%N || (code c =? 179)%N
  || (code c =? 181)%N || (code c =? 185)%N || (code c =? 186)%N
  || in_range 188 190 c || in_range 192 214 c || in_range 216 246 c
  || in_range 248 255 c.

Fixpoint str_eqb (a b : str) : bool :=
  match a, b with
  | [], [] => true
  | x :: a', y :: b' => Ascii.eqb x y && str_eqb a' b'
  | _, _ => false
  end.

Definition mem_char (c : ascii) (cs : str) : bool := existsb (Ascii.eqb c) cs.

Definition mem_str (s : str) (l : list str) : bool := existsb (str_eqb s) l.

(** [s.startswith(p)] *)
Fixpoint startswith (p s : str) : bool :=
  match p, s with
  | [], _ => true
  | x :: p', y :: s' => Ascii.eqb x y && startswith p' s'
  | _ :: _, [] => false
  end.

Fixpoint dropwhile (f : ascii -> bool) (s : str) : str :=
  match s with
  | [] => []
  | c :: s' => if f c then dropwhile f s' else s
  end.

Definition lstrip_by (f : ascii -> bool) (s : str) : str := dropwhile f s.
Definition rstrip_by (f : ascii -> bool) (s : str) : str :=
  rev (dropwhile f (rev s)).
Definition strip_by (f : ascii -> bool) (s : str) : str :=
  rstrip_by f (lstrip_by f s).

(** [s.strip()], [s.strip(chars)], [s.rstrip(chars)] *)
Definition strip (s : str) : str := strip_by is_space s.
Definition strip_chars (cs s : str) : str := strip_by (fun c => mem_char c cs) s.
Definition rstrip_chars (cs s : str) : str := rstrip_by (fun c => mem_char c cs) s.

(** [s.split(sep)] for a one-character separator: always at least one
    piece, empty pieces kept. *)
Fixpoint split_char (sep : ascii) (s : str) : list str :=
  match s with
  | [] => [[]]
  | c :: s' =>
      if Ascii.eqb c sep then [] :: split_char sep s'
      else match split_char sep s' with
           | w :: ws => (c :: w) :: ws
           | [] => [[c]]
           end
  end.

(** [s.split()]: maximal runs of non-whitespace characters. *)
Fixpoint split_ws (s : str) : list str :=
  match s with
  | [] => []
  | c :: s' =>
      if is_space c then split_ws s'
      else match s' with
           | [] => [[c]]
           | d :: _ =>
               if is_space d then [c] :: split_ws s'
               else match split_ws s' with
                    | w :: ws => (c :: w) :: ws
                    | [] => [[c]]
                    end
           end
  end.

(** [sep.join(l)] *)
Fixpoint join (sep : str) (l : list str) : str :=
  match l with
  | [] => []
  | [w] => w
  | w :: ws => w ++ sep ++ join sep ws
  end.

(** [s.replace(c, r)] for a one-character pattern [c]. *)
Definition replace_char (c : ascii) (r : str) (s : str) : str :=
  flat_map (fun x => if Ascii.eqb x c then r else [x]) s.

(** [s.replace(p, r)] for a non-empty pattern [p]: occurrences are found
    left to right and do not overlap; [skip] counts the characters of the
    current occurrence still to be passed over. *)
Fixpoint replace_from (p r : str) (skip : nat) (s : str) : str :=
  match s with
  | [] => []
  | c :: s' =>
      match skip with
      | S k => replace_from p r k s'
      | O =>
          if startswith p s then r ++ replace_from p r (length p - 1) s'
          else c :: replace_from p r 0 s'
      end
  end.

Definition replace (p r s : str) : str := replace_from p r 0 s.

(** [str(n)] and [f"{n}"] for integers. *)
Definition str_of_Z (z : Z) : str := NilZero.string_of_int (Z.to_int z).
Definition str_of_nat (n : nat) : str := NilZero.string_of_uint (Nat.to_uint n).

(** [int(s)] for a [str]: surrounding whitespace, an optional sign, then
    decimal digits, single underscores allowed between digits.  [None] stands
    for the [ValueError] Python raises on anything else.  The whitespace
    [int] accepts is narrower than that of [str.strip]: the separators
    0x1C-0x1F are not part of it.

    CPython also refuses a literal with more than 4300 digits (the default
    of [sys.set_int_max_str_digits]): once the sign is passed it counts the
    digits of the longest run of digits and underscores, and when that run is
    well formed (no underscore first, last, or next to another) and has more
    than 4300 digits it raises, whatever follows the run. *)
Definition is_int_space (c : ascii) : bool :=
  in_range 9 13 c || (code c =? 32)%N || (code c =? 133)%N || (code c =? 160)%N.

Definition digit_value (c : ascii) : Z := Z.of_N (code c) - 48.

Fixpoint int_digits (acc : option Z) (s : str) : option Z :=
  match s with
  | [] => acc
  | c :: s' =>
      if is_digit c then
        int_digits (Some (10 * match acc with Some a => a | None => 0 end
                          + digit_value c)%Z) s'
      else if Ascii.eqb c "_" then
        match acc, s' with
        | Some _, d :: _ => if is_digit d then int_digits acc s' else None
        | _, _ => None
        end
      else None
  end.

(** What follows the leading whitespace and the sign. *)
Definition int_body (s : str) : str :=
  match strip_by is_int_space s with
  | c :: ds => if Ascii.eqb c "-" || Ascii.eqb c "+" then ds else c :: ds
  | [] => []
  end.

(** The longest run of digits and underscores at the start of [s]. *)
Fixpoint int_run (s : str) : str :=
  match s with
  | [] => []
  | c :: s' => if is_digit c || Ascii.eqb c "_" then c :: int_run s' else []
  end.

(** No underscore first, last, or next to another. *)
Fixpoint underscores_single (after_digit : bool) (run : str) : bool :=
  match run with
  | [] => after_digit
  | c :: run' =>
      if Ascii.eqb c "_" then after_digit && underscores_single false run'
      else underscores_single true run'
  end.

Definition int_max_str_digits : nat := 4300.

Definition digit_count (s : str) : nat := length (filter is_digit (int_run s)).

Definition exceeds_int_limit (s : str) : bool :=
  let body := int_body s in
  underscores_single false (int_run body)
  && (int_max_str_digits <? digit_count body).

Definition py_int (s : str) : option Z :=
  if exceeds_int_limit s then None
  else
    match strip_by is_int_space s with
    | c :: ds =>
        if Ascii.eqb c "-" then option_map Z.opp (int_digits None ds)
        else if Ascii.eqb c "+" then int_digits None ds
        else int_digits None (c :: ds)
    | [] => None
    end.

(** [repr(s)] for a [str]: between single quotes, or between double quotes
    when [s] holds a single quote and no double quote; the quote in use and
    the backslash are escaped, tab, line feed and carriage return are written
    [\t], [\n], [\r], and every other character that is not printable as
    [\xNN] with lower-case hexadecimal digits.  Below 256 the printable
    characters are 0x20-0x7E and 0xA1-0xFF without 0xAD. *)
Definition squote : ascii := "039"%char.

Definition is_printable (c : ascii) : bool :=
  in_range 32 126 c || (in_range 161 255 c && negb (code c =? 173)%N).

Definition hex_lower (n : N) : ascii :=
  if (n <? 10)%N then ascii_of_N (48 + n) else ascii_of_N (87 + n).

Definition repr_char (quote c : ascii) : str :=
  if Ascii.eqb c quote || Ascii.eqb c backslash then [backslash; c]
  else if Ascii.eqb c tab then [backslash; "t"%char]
  else if Ascii.eqb c newline then [backslash; "n"%char]
  else if Ascii.eqb c carriage_return then [backslash; "r"%char]
  else if is_printable c then [c]
  else [backslash; "x"%char; hex_lower (code c / 16); hex_lower (code c mod 16)].

Definition py_repr (s : str) : str :=
  let quote :=
    if mem_char squote s && negb (mem_char dquote s) then dquote else squote in
  quote :: flat_map (repr_char quote) s ++ [quote].

(** [str(e)] for the [ValueError] [int(s)] raises: the digit limit names
    the number of digits, every other refusal shows the first 200 characters
    of [repr(s)]. *)
Definition int_error (s : str) : str :=
  if exceeds_int_limit s then
    "Exceeds the limit (" ++ str_of_nat int_max_str_digits
    ++ " digits) for integer string conversion: value has "
    ++ str_of_nat (digit_count (int_body s))
    ++ " digits; use sys.set_int_max_str_digits() to increase the limit"
  else "invalid literal for int() with base 10: " ++ firstn 200 (py_repr s).

(** [urllib.parse.quote(s)] with its defaults ([safe='/'], UTF-8): letters,
    digits and [_.-~/] are kept, every other byte of the UTF-8 encoding
    becomes [%XX] with upper-case hexadecimal digits. *)
Definition is_quote_safe (c : ascii) : bool :=
  is_upper c || is_lower c || is_digit c
  || mem_char c (list_ascii_of_string "_.-~/").

Definition hex_digit (n : N) : ascii :=
  if (n <? 10)%N then ascii_of_N (48 + n) else ascii_of_N (55 + n).

Definition percent_byte (b : N) : str :=
  ["%"%char; hex_digit (b / 16); hex_digit (b mod 16)].

Definition utf8_bytes (c : ascii) : list N :=
  let n := code c in
  if (n <? 128)%N then [n]
  else [(192 + n / 64)%N; (128 + n mod 64)%N].

Definition quote_char (c : ascii) : str :=
  if (code c <? 128)%N && is_quote_safe c then [c]
  else flat_map percent_byte (utf8_bytes c).

Definition quote (s : str) : str := flat_map quote_char s.

End PyStr.

Import PyStr.

(** ** Python dictionaries with string keys

    Iteration follows the order of first insertion; assigning to a key that
    is present keeps its position. *)

Module ODict.

Section Defs.
Context {V : Type}.

Definition odict : Type := list (str * V).

Definition empty : odict := [].

(** [d.get(k)] *)
Fixpoint get (k : str) (d : odict) : option V :=
  match d with
  | [] => None
  | (k', v) :: d' => if str_eqb k k' then Some v else get k d'
  end.

(** [k in d] *)
Definition mem (k : str) (d : odict) : bool :=
  match get k d with Some _ => true | None => false end.

(** [d[k] = v] *)
Fixpoint set (k : str) (v : V) (d : odict) : odict :=
  match d with
  | [] => [(k, v)]
  | (k', v') :: d' =>
      if str_eqb k k' then (k', v) :: d' else (k', v') :: set k v d'
  end.

(** [d.get(k, dflt)] *)
Definition get_default (k : str) (dflt : V) (d : odict) : V :=
  match get k d with Some v => v | None => dflt end.

Definition keys (d : odict) : list str := map fst d.
End Defs.

Arguments odict V : clear implicits.

End ODict.

(** ** The graph builder and serialiser ([rdf-generator]) *)

Module RdfGenerator.

Definition NAMESPACE_BASE : str := "http://graph-rag.example.com/".
Definition NAMESPACE_DOC : str := NAMESPACE_BASE ++ "document/".
Definition NAMESPACE_ENTITY : str := NAMESPACE_BASE ++ "entity/".
Definition NAMESPACE_ONTO : str := NAMESPACE_BASE ++ "ontology/".

(** A triple dictionary [{'subject': .., 'predicate': .., 'object': ..}]. *)
Record Triple : Type := mkTriple {
  subject : str;
  predicate : str;
  object : str
}.

(** A chunk dictionary with the keys [chunkId], [text], [startPosition] and
    [length]; every one is read with [chunk.get(key, default)], so each may
    be absent. *)
Record Chunk : Type := mkChunk {
  chunkId : option Z;
  chunk_text : option str;
  startPosition : option Z;
  chunk_length : option Z
}.

(** The metadata mapping, restricted to the keys the builder reads. *)
Record Metadata : Type := mkMetadata {
  keywords : option str;
  documentType : option str;
  author : option str
}.

(** Truth value of [metadata.get(key)]: absent and empty are both false. *)
Definition truthy (v : option str) : bool :=
  match v with
  | Some (_ :: _) => true
  | _ => false
  end.

Definition get_str (v : option str) : str :=
  match v with Some s => s | None => [] end.

Definition get_int (v : option Z) : Z :=
  match v with Some z => z | None => 0%Z end.

(** A quoted literal ["..."], optionally followed by a datatype tag. *)
Definition quoted (s : str) : str := dquote :: s ++ [dquote].
Definition typed (s : str) (ty : str) : str := quoted s ++ "^^" ++ ty.

Definition escape_literal (text : str) : str :=
  replace_char tab (backslash :: "t")
    (replace_char carriage_return (backslash :: "r")
      (replace_char newline (backslash :: "n")
        (replace_char dquote [backslash; dquote]
          (replace_char backslash [backslash; backslash] text)))).

(** [re.findall(r'\b[A-Z][a-z]+\b', text)].

    [word_boundary prev next] is [\b] between two neighbouring positions
    ([None] is the start or the end of the text).  [match_here] tries the
    pattern at the head of [s]: one upper-case letter, then the lower-case
    run, longest first and backing off one letter at a time, until [\b]
    holds after it.  [findall_from] tries every position from left to right
    and resumes after a match. *)
Definition word_at (c : option ascii) : bool :=
  match c with Some x => is_word x | None => false end.

Definition word_boundary (prev next : option ascii) : bool :=
  negb (Bool.eqb (word_at prev) (word_at next)).

Fixpoint takewhile (f : ascii -> bool) (s : str) : str :=
  match s with
  | [] => []
  | c :: s' => if f c then c :: takewhile f s' else []
  end.

(** The longest [k <= n] with [1 <= k] such that the first [k] letters of
    the run [lows] are followed by a word boundary. *)
Fixpoint backtrack (first : ascii) (lows rest : str) (n : nat) : option str :=
  match n with
  | O => None
  | S k =>
      let taken := firstn n lows in
      let after := skipn n lows ++ rest in
      if word_boundary (Some (last taken first)) (hd_error after)
      then Some (first :: taken)
      else backtrack first lows rest k
  end.

Definition match_here (prev : option ascii) (s : str) : option str :=
  match s with
  | [] => None
  | c :: s' =>
      if word_boundary prev (Some c) && is_upper c then
        let lows := takewhile is_lower s' in
        backtrack c lows (dropwhile is_lower s') (length lows)
      else None
  end.

Fixpoint findall_from (prev : option ascii) (skip : nat) (s : str) : list str :=
  match s with
  | [] => []
  | c :: s' =>
      match skip with
      | S k => findall_from (Some c) k s'
      | O =>
          match match_here prev s with
          | Some w => w :: findall_from (Some c) (length w - 1) s'
          | None => findall_from (Some c) 0 s'
          end
      end
  end.

Definition findall_capitalized (text : str) : list str :=
  findall_from None 0 text.

(** The loop of [extract_entities_simple]: [entities] and [seen] are the
    two accumulators, [break] leaves the remaining words unread. *)
Fixpoint extract_loop (words : list str) (entities : list (str * str))
    (seen : list str) : list (str * str) :=
  match words with
  | [] => entities
  | word :: rest =>
      if negb (mem_str word seen) && (3 <? length word) then
        let entities' := entities ++ [(word, "Entity" : str)] in
        let seen' := word :: seen in
        if 5 <=? length entities' then entities'
        else extract_loop rest entities' seen'
      else extract_loop rest entities seen
  end.

Definition extract_entities_simple (text : str) : list (str * str) :=
  extract_loop (findall_capitalized text) [] [].

(** The three triples appended for one keyword of the metadata. *)
Definition keyword_triples (doc_uri keyword : str) : list Triple :=
  let keyword := strip keyword in
  let keyword_uri := NAMESPACE_ENTITY ++ quote keyword in
  [ mkTriple keyword_uri "rdf:type" (NAMESPACE_ONTO ++ "Keyword");
    mkTriple keyword_uri (NAMESPACE_ONTO ++ "hasValue")
             (quoted (escape_literal keyword));
    mkTriple doc_uri (NAMESPACE_ONTO ++ "hasKeyword") keyword_uri ].

(** The three triples appended for one extracted entity of a chunk. *)
Definition entity_triples (chunk_uri : str) (entity : str * str) : list Triple :=
  let (entity_text, entity_type) := entity in
  let entity_uri := NAMESPACE_ENTITY ++ quote entity_text in
  [ mkTriple entity_uri "rdf:type" (NAMESPACE_ONTO ++ entity_type);
    mkTriple entity_uri (NAMESPACE_ONTO ++ "hasValue")
             (quoted (escape_literal entity_text));
    mkTriple chunk_uri (NAMESPACE_ONTO ++ "mentions") entity_uri ].

(** The body of the loop over [chunks]: six triples of the chunk node, then
    the loop over its entities. *)
Definition chunk_step (doc_uri : str) (triples : list Triple) (chunk : Chunk)
    : list Triple :=
  let chunk_id := get_int (chunkId chunk) in
  let chunk_text := get_str (chunk_text chunk) in
  let chunk_uri := doc_uri ++ "/chunk/" ++ str_of_Z chunk_id in
  let triples := triples ++
    [ mkTriple chunk_uri "rdf:type" (NAMESPACE_ONTO ++ "TextChunk");
      mkTriple chunk_uri (NAMESPACE_ONTO ++ "hasChunkId")
               (typed (str_of_Z chunk_id) "xsd:integer");
      mkTriple chunk_uri (NAMESPACE_ONTO ++ "hasText")
               (quoted (escape_literal (firstn 500 chunk_text)));
      mkTriple chunk_uri (NAMESPACE_ONTO ++ "hasStartPosition")
               (typed (str_of_Z (get_int (startPosition chunk))) "xsd:integer");
      mkTriple chunk_uri (NAMESPACE_ONTO ++ "hasLength")
               (typed (str_of_Z (get_int (chunk_length chunk))) "xsd:integer");
      mkTriple doc_uri (NAMESPACE_ONTO ++ "hasChunk") chunk_uri ] in
  fold_left (fun triples entity => triples ++ entity_triples chunk_uri entity)
            (extract_entities_simple chunk_text) triples.

(** [generate_rdf_graph]; [now] is [datetime.utcnow().isoformat()].  The
    list [triples] is threaded through the blocks in source order. *)
Definition generate_rdf_graph (now : str) (document_id text_content : str)
    (chunks : list Chunk) (metadata : Metadata) (file_name : str)
    : list Triple :=
  let doc_uri := NAMESPACE_DOC ++ document_id in
  let triples :=
    [ mkTriple doc_uri "rdf:type" (NAMESPACE_ONTO ++ "Document");
      mkTriple doc_uri (NAMESPACE_ONTO ++ "hasId") (quoted document_id);
      mkTriple doc_uri (NAMESPACE_ONTO ++ "hasFileName")
               (quoted (escape_literal file_name));
      mkTriple doc_uri (NAMESPACE_ONTO ++ "hasTextLength")
               (typed (str_of_nat (length text_content)) "xsd:integer");
      mkTriple doc_uri (NAMESPACE_ONTO ++ "createdAt")
               (typed now "xsd:dateTime") ] in
  let triples :=
    if truthy (keywords metadata) then
      fold_left (fun triples keyword => triples ++ keyword_triples doc_uri keyword)
                (split_char "," (get_str (keywords metadata))) triples
    else triples in
  let triples :=
    if truthy (documentType metadata) then
      triples ++
      [ mkTriple doc_uri (NAMESPACE_ONTO ++ "hasType")
                 (quoted (escape_literal (get_str (documentType metadata)))) ]
    else triples in
  let triples :=
    if truthy (author metadata) then
      let author_uri := NAMESPACE_ENTITY ++ quote (get_str (author metadata)) in
      triples ++
      [ mkTriple author_uri "rdf:type" (NAMESPACE_ONTO ++ "Author");
        mkTriple author_uri (NAMESPACE_ONTO ++ "hasName")
                 (quoted (escape_literal (get_str (author metadata))));
        mkTriple doc_uri (NAMESPACE_ONTO ++ "hasAuthor") author_uri ]
    else triples in
  fold_left (chunk_step doc_uri) chunks triples.

(** [format_uri]: abbreviate a URI with a known prefix. *)
Definition format_uri (uri : str) : str :=
  if startswith "rdf:" uri || startswith "xsd:" uri then uri
  else if startswith NAMESPACE_DOC uri then replace NAMESPACE_DOC "doc:" uri
  else if startswith NAMESPACE_ENTITY uri then replace NAMESPACE_ENTITY "entity:" uri
  else if startswith NAMESPACE_ONTO uri then replace NAMESPACE_ONTO "onto:" uri
  else "<" ++ uri ++ ">".

(** [format_uri_full]: expand a prefixed name to a bracketed full URI. *)
Definition format_uri_full (uri : str) : str :=
  if startswith "rdf:" uri then
    "<http://www.w3.org/1999/02/22-rdf-syntax-ns#" ++ skipn 4 uri ++ ">"
  else if startswith "xsd:" uri then
    "<http://www.w3.org/2001/XMLSchema#" ++ skipn 4 uri ++ ">"
  else if startswith "doc:" uri then "<" ++ NAMESPACE_DOC ++ skipn 4 uri ++ ">"
  else if startswith "entity:" uri then
    "<" ++ NAMESPACE_ENTITY ++ skipn 7 uri ++ ">"
  else if startswith "onto:" uri then "<" ++ NAMESPACE_ONTO ++ skipn 5 uri ++ ">"
  else "<" ++ uri ++ ">".

(** One line of [serialize_ntriples]. *)
Definition ntriples_line (triple : Triple) : str :=
  let subject := "<" ++ subject triple ++ ">" in
  let predicate :=
    if negb (startswith "<" (predicate triple))
    then format_uri_full (predicate triple) else predicate triple in
  let obj :=
    if negb (startswith [dquote] (object triple))
       && negb (startswith "<" (object triple))
    then "<" ++ object triple ++ ">" else object triple in
  subject ++ " " ++ predicate ++ " " ++ obj ++ " .".

Definition serialize_ntriples (triples : list Triple) : str :=
  join [newline]
       (fold_left (fun lines triple => lines ++ [ntriples_line triple])
                  triples []).

(** [serialize_turtle]: the prefix header, then one block per subject in
    first-seen order. *)
Definition group_by_subject (triples : list Triple) : ODict.odict (list Triple) :=
  fold_left
    (fun subject_triples triple =>
       let subject := subject triple in
       let subject_triples :=
         if negb (ODict.mem subject subject_triples)
         then ODict.set subject [] subject_triples else subject_triples in
       ODict.set subject
         (ODict.get_default subject [] subject_triples ++ [triple])
         subject_triples)
    triples ODict.empty.

Definition turtle_object (obj : str) : str :=
  if startswith [dquote] obj then obj
  else if startswith NAMESPACE_BASE obj then "<" ++ obj ++ ">"
  else format_uri obj.

(** The line of the [i]-th triple of a block of [n] triples. *)
Definition turtle_property_line (n i : nat) (triple : Triple) : str :=
  let predicate := format_uri (predicate triple) in
  let obj_formatted := turtle_object (object triple) in
  if i <? n - 1 then "    " ++ predicate ++ " " ++ obj_formatted ++ " ;"
  else "    " ++ predicate ++ " " ++ obj_formatted ++ " .".

Definition turtle_block (lines : list str) (entry : str * list Triple)
    : list str :=
  let (subject, subject_triple_list) := entry in
  let n := length subject_triple_list in
  let lines := lines ++ ["<" ++ subject ++ ">"] in
  let lines :=
    fold_left (fun lines it => lines ++ [turtle_property_line n (fst it) (snd it)])
              (combine (seq 0 n) subject_triple_list) lines in
  lines ++ [[]].

Definition turtle_header : list str :=
  [ "@prefix rdf: <http://www.w3.org/1999/02/22-rdf-syntax-ns#> ." : str;
    "@prefix xsd: <http://www.w3.org/2001/XMLSchema#> ." : str;
    "@prefix doc: <" ++ NAMESPACE_DOC ++ "> .";
    "@prefix entity: <" ++ NAMESPACE_ENTITY ++ "> .";
    "@prefix onto: <" ++ NAMESPACE_ONTO ++ "> .";
    [] ].

(** The list [lines] of [serialize_turtle] before it is joined. *)
Definition turtle_lines (triples : list Triple) : list str :=
  fold_left turtle_block (group_by_subject triples) turtle_header.

Definition serialize_turtle (triples : list Triple) : str :=
  join [newline] (turtle_lines triples).

End RdfGenerator.

(** ** Exceptions *)

Inductive exn : Type :=
| ValueError (msg : str)
| Exception (msg : str).

Inductive result (A : Type) : Type :=
| Ok (a : A)
| Raise (e : exn).

Arguments Ok {A} a.
Arguments Raise {A} e.

Definition bind {A B : Type} (m : result A) (k : A -> result B) : result B :=
  match m with
  | Ok a => k a
  | Raise e => Raise e
  end.

Notation "x <- m ;; k" := (bind m (fun x => k))
  (at level 61, m at next level, right associativity).

(** A [for] loop whose body may raise: the first exception ends the loop. *)
Fixpoint for_each {A S : Type} (body : S -> A -> result S) (l : list A) (st : S)
    : result S :=
  match l with
  | [] => Ok st
  | a :: l' => st' <- body st a ;; for_each body l' st'
  end.

(** ** The parser and the validator ([ontology-validator]) *)

Module OntologyValidator.

Definition ONTOLOGY_URI : str := "http://graph-rag.example.com/ontology".
Definition RDF_TYPE : str := "http://www.w3.org/1999/02/22-rdf-syntax-ns#type".

(** A parsed triple [(subject, predicate, object)]. *)
Definition Tuple : Type := (str * str * str)%type.

(** The loop body of [parse_turtle_simple].  The state is the list [triples]
    and the variable [current_subject], which the source initialises to
    [None] and never assigns again. *)
Definition parse_line (st : list Tuple * option str) (line : str)
    : list Tuple * option str :=
  let (triples, current_subject) := st in
  let line := strip line in
  if match line with [] => true | _ => false end
     || startswith "#" line || startswith "@" line
  then st
  else
    let parts := split_ws line in
    if 3 <=? length parts then
      match parts with
      | p0 :: p1 :: rest =>
          if startswith "<" p0 && startswith "<" p1 then
            let subject := strip_chars "<>" p0 in
            let predicate := strip_chars "<>" p1 in
            let object_val := rstrip_chars " ." (join " " rest) in
            let object_val := strip_chars ("<>" ++ [dquote]) object_val in
            (triples ++ [(subject, predicate, object_val)], current_subject)
          else st
      | _ => st
      end
    else st.

Definition parse_turtle_simple (rdf_content : str) : list Tuple :=
  fst (fold_left parse_line (split_char newline rdf_content) ([], None)).

(** *** The schema model *)

(** A row of the classes query: [class], optional [subClassOf]. *)
Record ClassDef : Type := mkClassDef {
  cls_class : str;
  cls_subClassOf : option str
}.

(** A row of the properties query: [property], optional [domain], [range]. *)
Record PropertyDef : Type := mkPropertyDef {
  prop_property : str;
  prop_domain : option str;
  prop_range : option str
}.

(** A row of the restrictions query: [class], [property],
    [restrictionType], [value]. *)
Record Restriction : Type := mkRestriction {
  restr_class : str;
  restr_property : str;
  restr_restrictionType : str;
  restr_value : str
}.

Record OntologyModel : Type := mkModel {
  classes : list ClassDef;
  properties : list PropertyDef;
  restrictions : list Restriction
}.

Definition empty_model : OntologyModel := mkModel [] [] [].

(** [fetch_ontology_model]: the three queries run in order; any exception
    is caught and the empty model returned. *)
Definition fetch_ontology_model
    (classes_query : result (list ClassDef))
    (properties_query : result (list PropertyDef))
    (restrictions_query : result (list Restriction)) : OntologyModel :=
  match
    (classes <- classes_query ;;
     properties <- properties_query ;;
     restrictions <- restrictions_query ;;
     Ok (mkModel classes properties restrictions))
  with
  | Ok model => model
  | Raise _ => empty_model
  end.

(** *** Instance records *)

Record InstanceData : Type := mkInstance {
  types : list str;
  inst_properties : ODict.odict (list str)
}.

Definition new_instance : InstanceData := mkInstance [] ODict.empty.

(** One iteration of the grouping loop. *)
Definition ensure_instance (s : str) (instances : ODict.odict InstanceData)
    : ODict.odict InstanceData :=
  if negb (ODict.mem s instances) then ODict.set s new_instance instances
  else instances.

Definition add_triple (instances : ODict.odict InstanceData) (t : Tuple)
    : ODict.odict InstanceData :=
  let '(s, p, o) := t in
  if str_eqb p RDF_TYPE then
    let instances := ensure_instance s instances in
    let data := ODict.get_default s new_instance instances in
    ODict.set s (mkInstance (types data ++ [o]) (inst_properties data)) instances
  else
    let instances := ensure_instance s instances in
    let data := ODict.get_default s new_instance instances in
    let props := inst_properties data in
    let props :=
      if negb (ODict.mem p props) then ODict.set p [] props else props in
    let props := ODict.set p (ODict.get_default p [] props ++ [o]) props in
    ODict.set s (mkInstance (types data) props) instances.

Definition build_instances (triples : list Tuple) : ODict.odict InstanceData :=
  fold_left add_triple triples ODict.empty.

(** *** Issues *)

Inductive Issue : Type :=
| UndefinedClass (instance class message : str)
| DomainMismatch (instance property expected_domain : str)
                 (actual_types : list str) (message : str)
| CardinalityViolation (instance property : str) (expected : Z) (actual : nat)
                       (message : str)
| MinCardinalityViolation (instance property : str) (min_expected : Z)
                          (actual : nat) (message : str).

(** The ['type'] entry of an issue. *)
Definition issue_type (i : Issue) : str :=
  match i with
  | UndefinedClass _ _ _ => "undefined_class"
  | DomainMismatch _ _ _ _ _ => "domain_mismatch"
  | CardinalityViolation _ _ _ _ _ => "cardinality_violation"
  | MinCardinalityViolation _ _ _ _ _ => "min_cardinality_violation"
  end.

Definition issue_instance (i : Issue) : str :=
  match i with
  | UndefinedClass s _ _ | DomainMismatch s _ _ _ _
  | CardinalityViolation s _ _ _ _ | MinCardinalityViolation s _ _ _ _ => s
  end.

(** The ['property'] entry; an [undefined_class] issue has none. *)
Definition issue_property (i : Issue) : option str :=
  match i with
  | UndefinedClass _ _ _ => None
  | DomainMismatch _ p _ _ _ | CardinalityViolation _ p _ _ _
  | MinCardinalityViolation _ p _ _ _ => Some p
  end.

Record ValidationResult : Type := mkResult {
  violations : list Issue;
  warnings : list Issue;
  checks_performed : list str;
  instances_validated : nat;
  triples_validated : nat
}.

(** *** Check 1: class membership *)

Definition defined_classes (ontology_model : OntologyModel) : list str :=
  map cls_class (classes ontology_model).

Definition class_membership_type (defined : list str) (instance_uri : str)
    (warnings : list Issue) (class_uri : str) : list Issue :=
  if startswith "http://graph-rag.example.com/ontology#" class_uri then
    if negb (mem_str class_uri defined)
       && match defined with [] => false | _ => true end
    then
      warnings ++
      [ UndefinedClass instance_uri class_uri
          ("Instance " ++ instance_uri ++ " has type " ++ class_uri
           ++ " which is not defined in ontology") ]
    else warnings
  else warnings.

Definition check_class_membership (ontology_model : OntologyModel)
    (instances : ODict.odict InstanceData) (warnings : list Issue)
    : list Issue :=
  let defined := defined_classes ontology_model in
  fold_left
    (fun warnings entry =>
       fold_left (class_membership_type defined (fst entry))
                 (types (snd entry)) warnings)
    instances warnings.

(** *** Check 2: property domains *)

Definition property_definitions (ontology_model : OntologyModel)
    : ODict.odict PropertyDef :=
  fold_left (fun defs p => ODict.set (prop_property p) p defs)
            (properties ontology_model) ODict.empty.

Definition domain_property (defs : ODict.odict PropertyDef)
    (instance_uri : str) (instance_data : InstanceData)
    (warnings : list Issue) (entry : str * list str) : list Issue :=
  let (prop_uri, values) := entry in
  match ODict.get prop_uri defs with
  | Some prop_def =>
      if RdfGenerator.truthy (prop_domain prop_def) then
        let expected_domain := RdfGenerator.get_str (prop_domain prop_def) in
        if negb (mem_str expected_domain (types instance_data)) then
          warnings ++
          [ DomainMismatch instance_uri prop_uri expected_domain
              (types instance_data)
              ("Property " ++ prop_uri ++ " expects domain " ++ expected_domain) ]
        else warnings
      else warnings
  | None => warnings
  end.

Definition check_property_domains (ontology_model : OntologyModel)
    (instances : ODict.odict InstanceData) (warnings : list Issue)
    : list Issue :=
  let defs := property_definitions ontology_model in
  fold_left
    (fun warnings entry =>
       fold_left (domain_property defs (fst entry) (snd entry))
                 (inst_properties (snd entry)) warnings)
    instances warnings.

(** *** Check 3: cardinality constraints *)

Definition restrictions_by_class (ontology_model : OntologyModel)
    : ODict.odict (list Restriction) :=
  fold_left
    (fun by_class restriction =>
       let class_uri := restr_class restriction in
       let by_class :=
         if negb (ODict.mem class_uri by_class)
         then ODict.set class_uri [] by_class else by_class in
       ODict.set class_uri
         (ODict.get_default class_uri [] by_class ++ [restriction]) by_class)
    (restrictions ontology_model) ODict.empty.

Definition prop_count (instance_data : InstanceData) (prop_uri : str) : nat :=
  length (ODict.get_default prop_uri [] (inst_properties instance_data)).

(** The body of the innermost loop; [int(value)] may raise. *)
Definition cardinality_restriction (instance_uri : str)
    (instance_data : InstanceData) (violations : list Issue)
    (restriction : Restriction) : result (list Issue) :=
  let prop_uri := restr_property restriction in
  let restriction_type := restr_restrictionType restriction in
  let value := restr_value restriction in
  if str_eqb restriction_type "cardinality" && str_eqb value "1" then
    let prop_count := prop_count instance_data prop_uri in
    if negb (prop_count =? 1) then
      Ok (violations ++
          [ CardinalityViolation instance_uri prop_uri 1 prop_count
              ("Property " ++ prop_uri ++ " must have exactly 1 value, has "
               ++ str_of_nat prop_count) ])
    else Ok violations
  else if str_eqb restriction_type "minCardinality" then
    match py_int value with
    | None => Raise (ValueError (int_error value))
    | Some min_card =>
        let prop_count := prop_count instance_data prop_uri in
        if (Z.of_nat prop_count <? min_card)%Z then
          Ok (violations ++
              [ MinCardinalityViolation instance_uri prop_uri min_card prop_count
                  ("Property " ++ prop_uri ++ " must have at least "
                   ++ str_of_Z min_card ++ " values, has "
                   ++ str_of_nat prop_count) ])
        else Ok violations
    end
  else Ok violations.

Definition cardinality_type (by_class : ODict.odict (list Restriction))
    (instance_uri : str) (instance_data : InstanceData)
    (violations : list Issue) (class_uri : str) : result (list Issue) :=
  match ODict.get class_uri by_class with
  | Some class_restrictions =>
      for_each (cardinality_restriction instance_uri instance_data)
               class_restrictions violations
  | None => Ok violations
  end.

Definition check_cardinality (ontology_model : OntologyModel)
    (instances : ODict.odict InstanceData) (violations : list Issue)
    : result (list Issue) :=
  let by_class := restrictions_by_class ontology_model in
  for_each
    (fun violations entry =>
       for_each (cardinality_type by_class (fst entry) (snd entry))
                (types (snd entry)) violations)
    instances violations.

(** *** [validate_against_ontology] *)

Definition validate_against_ontology (triples : list Tuple)
    (ontology_model : OntologyModel) : result ValidationResult :=
  let violations := [] in
  let warnings := [] in
  let checks_performed := [] in
  let instances := build_instances triples in
  let checks_performed := checks_performed ++ ["class_membership" : str] in
  let warnings := check_class_membership ontology_model instances warnings in
  let checks_performed := checks_performed ++ ["property_domains_ranges" : str] in
  let warnings := check_property_domains ontology_model instances warnings in
  let checks_performed := checks_performed ++ ["cardinality_constraints" : str] in
  violations <- check_cardinality ontology_model instances violations ;;
  Ok (mkResult violations warnings checks_performed
               (length instances) (length triples)).

(** *** The outcome computed by [handler] *)

Inductive Status : Type := PASSED | WARNING | FAILED | ERROR.

(** The dictionary [handler] returns: the result of a completed validation,
    or the error result of the [except] branch (status [ERROR], no issue
    lists). *)
Inductive HandlerResult : Type :=
| Completed (status : Status) (violations warnings : list Issue)
            (validationChecks : list str) (success : bool)
| Errored (error : exn).

Definition validationStatus (r : HandlerResult) : Status :=
  match r with
  | Completed status _ _ _ _ => status
  | Errored _ => ERROR
  end.

Definition success (r : HandlerResult) : bool :=
  match r with
  | Completed _ _ _ _ success => success
  | Errored _ => false
  end.

Definition status_of (validation_results : ValidationResult) : Status :=
  let has_errors := 0 <? length (violations validation_results) in
  let has_warnings := 0 <? length (warnings validation_results) in
  if has_errors then FAILED
  else if has_warnings then WARNING
  else PASSED.

Definition status_eqb (a b : Status) : bool :=
  match a, b with
  | PASSED, PASSED | WARNING, WARNING | FAILED, FAILED | ERROR, ERROR => true
  | _, _ => false
  end.

(** The result dictionary built at the end of the [try] block. *)
Definition completed_result (validation_results : ValidationResult)
    : HandlerResult :=
  let status := status_of validation_results in
  Completed status (violations validation_results)
    (warnings validation_results)
    (checks_performed validation_results)
    (negb (status_eqb status FAILED)).

(** The part of [handler] after the graph text has been read: parse, fetch
    the schema, validate, derive the status.  An exception anywhere in the
    [try] block yields the error result. *)
Definition handler (rdf_content : result str) (ontology_model : OntologyModel)
    : HandlerResult :=
  match
    (content <- rdf_content ;;
     let triples := parse_turtle_simple content in
     validation_results <- validate_against_ontology triples ontology_model ;;
     Ok (completed_result validation_results))
  with
  | Ok r => r
  | Raise e => Errored e
  end.

End OntologyValidator.

(** ** The state passed between the pipeline stages, and the object store *)

(** [str(e)] for the exceptions of the model. *)
Definition exn_str (e : exn) : str :=
  match e with
  | ValueError msg | Exception msg => msg
  end.

(** [row[key]] on a dictionary: a missing key raises [KeyError(key)], whose
    [str] is the key between single quotes.  The handlers catch [Exception]
    and read nothing but [str(e)], so the exception is kept as its text. *)
Definition KeyError (key : str) : exn := Exception ("'" ++ key ++ "'").

Definition getitem {V : Type} (d : ODict.odict V) (key : str) : result V :=
  match ODict.get key d with
  | Some v => Ok v
  | None => Raise (KeyError key)
  end.

(** The [event] dictionary of the graph stages, restricted to the keys
    the two handlers read or write; a key that is absent is [None].  Every
    other key of the event is passed through unchanged by [{**event, ...}]
    and is not represented. *)
Module Event.

Record t : Type := mk {
  documentId : option str;
  textContent : option str;
  chunks : option (list RdfGenerator.Chunk);
  metadata : option RdfGenerator.Metadata;
  fileName : option str;
  rdfS3Key : option str;
  rdfBucket : option str;
  tripleCount : option nat;
  rdfFormat : option str;
  ontologyVersion : option str;
  success : option bool;
  error : option str;
  stage : option str
}.

End Event.

(** The object store.  A call of [s3_client.put_object] is recorded as the
    request it sends; [get_object] on a store that has received the requests
    [puts] (oldest first) answers with the body stored last under the bucket
    and key, and raises when there is none. *)
Module S3.

Record PutObject : Type := mkPutObject {
  Bucket : str;
  Key : str;
  Body : str;
  ContentType : str;
  Metadata : ODict.odict str
}.

Definition stored_at (bucket key : str) (request : PutObject) : bool :=
  str_eqb (Bucket request) bucket && str_eqb (Key request) key.

Definition get_object (puts : list PutObject) (bucket key : str) : result str :=
  match find (stored_at bucket key) (rev puts) with
  | Some request => Ok (Body request)
  | None => Raise (Exception ("NoSuchKey" : str))
  end.

End S3.

(** ** The handler of [rdf-generator] *)

Module RdfGeneratorLambda.

Import RdfGenerator.

(** [serialize_rdf]: two formats are known, any other raises. *)
Definition serialize_rdf (triples : list Triple) (format : str) : result str :=
  if str_eqb format "turtle" then Ok (serialize_turtle triples)
  else if str_eqb format "n-triples" then Ok (serialize_ntriples triples)
  else Raise (ValueError ("Unsupported RDF format: " ++ format)).

Section Environment.

(** The environment variables, the clock read by [generate_rdf_graph], and
    the answer of the object store to a [put_object] request. *)
Variables BUCKET_NAME ONTOLOGY_SCHEMA_VERSION RDF_FORMAT : str.
Variable now : str.
Variable put_object : S3.PutObject -> result unit.

(** The [try] block of [handler]: the result dictionary or the exception,
    with the [put_object] requests sent on the way. *)
Definition handler_try (event : Event.t)
    : result Event.t * list S3.PutObject :=
  let document_id := Event.documentId event in
  let text_content :=
    match Event.textContent event with Some s => s | None => [] end in
  let chunks :=
    match Event.chunks event with Some l => l | None => [] end in
  let metadata :=
    match Event.metadata event with
    | Some m => m
    | None => mkMetadata None None None
    end in
  let file_name :=
    match Event.fileName event with Some s => s | None => "unknown" : str end in
  if negb (truthy document_id) then
    (Raise (ValueError ("documentId is required" : str)), [])
  else
    let document_id := get_str document_id in
    let rdf_graph :=
      generate_rdf_graph now document_id text_content chunks metadata
                         file_name in
    match serialize_rdf rdf_graph RDF_FORMAT with
    | Raise e => (Raise e, [])
    | Ok rdf_content =>
        let triple_count := length rdf_graph in
        let staging_key := "neptune-staging/" ++ document_id ++ "/data.ttl" in
        let request :=
          S3.mkPutObject BUCKET_NAME staging_key rdf_content "text/turtle"
            [ ("document-id" : str, document_id);
              ("triple-count" : str, str_of_nat triple_count);
              ("format" : str, RDF_FORMAT);
              ("schema-version" : str, ONTOLOGY_SCHEMA_VERSION) ] in
        match put_object request with
        | Raise e => (Raise e, [request])
        | Ok _ =>
            (Ok (Event.mk (Event.documentId event) (Event.textContent event)
                   (Event.chunks event) (Event.metadata event)
                   (Event.fileName event)
                   (Some staging_key) (Some BUCKET_NAME) (Some triple_count)
                   (Some RDF_FORMAT) (Some ONTOLOGY_SCHEMA_VERSION)
                   (Some true) (Event.error event) (Event.stage event)),
             [request])
        end
    end.

(** [handler]: the returned dictionary and the requests sent to the
    store. *)
Definition handler (event : Event.t) : Event.t * list S3.PutObject :=
  match handler_try event with
  | (Ok result, puts) => (result, puts)
  | (Raise e, puts) =>
      (Event.mk (Event.documentId event) (Event.textContent event)
         (Event.chunks event) (Event.metadata event) (Event.fileName event)
         (Event.rdfS3Key event) (Event.rdfBucket event)
         (Event.tripleCount event) (Event.rdfFormat event)
         (Event.ontologyVersion event)
         (Some false) (Some (exn_str e)) (Some ("rdf-generation" : str)),
       puts)
  end.

End Environment.

End RdfGeneratorLambda.

(** ** The schema queries and the handler of [ontology-validator]

    The functions of [OntologyValidator] read the schema as typed rows.
    Here the rows are the dictionaries [parse_sparql_results] returns, read
    with [row[key]] as the source does, so that a row without a key raises
    where the source raises. *)

Module OntologyValidatorLambda.

Import OntologyValidator.

(** A row of a query result: variable name to value. *)
Definition Row : Type := ODict.odict str.

(** A SPARQL JSON results document as [parse_sparql_results] reads it: an
    optional ['results'] object with an optional ['bindings'] list; a binding
    maps a variable to the object of an RDF term, whose entries are strings
    (['type'], ['value'], ['datatype'], ['xml:lang']). *)
Definition Term : Type := ODict.odict str.
Definition Binding : Type := ODict.odict Term.

Record ResultsObject : Type := mkResultsObject {
  bindings : option (list Binding)
}.

Record SparqlResults : Type := mkSparqlResults {
  results : option ResultsObject
}.

(** An HTTP response: the status, and [json.loads(response.data.decode('utf-8'))],
    which raises when the body is not a JSON document. *)
Record Response : Type := mkResponse {
  status : Z;
  data : result SparqlResults
}.

Definition parse_binding (binding : Binding) : Row :=
  fold_left
    (fun (parsed : Row) (entry : str * Term) =>
       let (var, value) := entry in
       ODict.set var (ODict.get_default "value" [] value) parsed)
    binding ODict.empty.

Definition parse_sparql_results (results : SparqlResults) : list Row :=
  match results with
  | mkSparqlResults None => []
  | mkSparqlResults (Some (mkResultsObject None)) => []
  | mkSparqlResults (Some (mkResultsObject (Some binding_list))) =>
      fold_left (fun bindings binding => bindings ++ [parse_binding binding])
                binding_list []
  end.

Definition execute_sparql_query (http_request : str -> str -> result Response)
    (endpoint query : str) : result SparqlResults :=
  response <- http_request endpoint query ;;
  if negb (status response =? 200)%Z then
    Raise (Exception ("SPARQL query failed with status "
                      ++ str_of_Z (status response)))
  else data response.

Definition classes_query : str :=
  "
        PREFIX owl: <http://www.w3.org/2002/07/owl#>
        PREFIX rdfs: <http://www.w3.org/2000/01/rdf-schema#>
        
        SELECT ?class ?subClassOf
        WHERE {
            ?class a owl:Class .
            OPTIONAL { ?class rdfs:subClassOf ?subClassOf }
        }
        ".

Definition properties_query : str :=
  "
        PREFIX owl: <http://www.w3.org/2002/07/owl#>
        PREFIX rdfs: <http://www.w3.org/2000/01/rdf-schema#>
        
        SELECT ?property ?domain ?range
        WHERE {
            {
                ?property a owl:ObjectProperty .
                OPTIONAL { ?property rdfs:domain ?domain }
                OPTIONAL { ?property rdfs:range ?range }
            }
            UNION
            {
                ?property a owl:DatatypeProperty .
                OPTIONAL { ?property rdfs:domain ?domain }
                OPTIONAL { ?property rdfs:range ?range }
            }
        }
        ".

Definition restrictions_query : str :=
  "
        PREFIX owl: <http://www.w3.org/2002/07/owl#>
        PREFIX rdfs: <http://www.w3.org/2000/01/rdf-schema#>
        
        SELECT ?class ?property ?restrictionType ?value
        WHERE {
            ?class rdfs:subClassOf ?restriction .
            ?restriction a owl:Restriction .
            ?restriction owl:onProperty ?property .
            {
                ?restriction owl:cardinality ?value .
                BIND("
  ++ [dquote] ++ "cardinality"
  ++ [dquote] ++ " AS ?restrictionType)
            }
            UNION
            {
                ?restriction owl:minCardinality ?value .
                BIND("
  ++ [dquote] ++ "minCardinality"
  ++ [dquote] ++ " AS ?restrictionType)
            }
            UNION
            {
                ?restriction owl:maxCardinality ?value .
                BIND("
  ++ [dquote] ++ "maxCardinality"
  ++ [dquote] ++ " AS ?restrictionType)
            }
            UNION
            {
                ?restriction owl:allValuesFrom ?value .
                BIND("
  ++ [dquote] ++ "allValuesFrom"
  ++ [dquote] ++ " AS ?restrictionType)
            }
            UNION
            {
                ?restriction owl:someValuesFrom ?value .
                BIND("
  ++ [dquote] ++ "someValuesFrom"
  ++ [dquote] ++ " AS ?restrictionType)
            }
        }
        ".

(** The model dictionary [fetch_ontology_model] returns. *)
Record Model : Type := mkModel {
  classes : list Row;
  properties : list Row;
  restrictions : list Row
}.

Definition fetch_ontology_model (NEPTUNE_ENDPOINT NEPTUNE_PORT : str)
    (http_request : str -> str -> result Response) : Model :=
  match
    (let sparql_endpoint :=
       "https://" ++ NEPTUNE_ENDPOINT ++ ":" ++ NEPTUNE_PORT ++ "/sparql" in
     classes_result <-
       execute_sparql_query http_request sparql_endpoint classes_query ;;
     let classes := parse_sparql_results classes_result in
     properties_result <-
       execute_sparql_query http_request sparql_endpoint properties_query ;;
     let properties := parse_sparql_results properties_result in
     restrictions_result <-
       execute_sparql_query http_request sparql_endpoint restrictions_query ;;
     let restrictions := parse_sparql_results restrictions_result in
     Ok (mkModel classes properties restrictions))
  with
  | Ok model => model
  | Raise _ => mkModel [] [] []
  end.

(** *** Check 1: class membership *)

(** The set comprehension [{c['class'] for c in ...}]; only membership and
    emptiness are asked of it. *)
Definition defined_classes (ontology_model : Model) : result (list str) :=
  for_each (fun defined c => class <- getitem c "class" ;; Ok (defined ++ [class]))
           (classes ontology_model) [].

Definition check_class_membership (ontology_model : Model)
    (instances : ODict.odict InstanceData) (warnings : list Issue)
    : result (list Issue) :=
  defined <- defined_classes ontology_model ;;
  Ok (fold_left
        (fun warnings entry =>
           fold_left (class_membership_type defined (fst entry))
                     (types (snd entry)) warnings)
        instances warnings).

(** *** Check 2: property domains *)

Definition property_definitions (ontology_model : Model)
    : result (ODict.odict Row) :=
  for_each (fun defs p => property <- getitem p "property" ;;
                          Ok (ODict.set property p defs))
           (properties ontology_model) ODict.empty.

Definition domain_property (defs : ODict.odict Row)
    (instance_uri : str) (instance_data : InstanceData)
    (warnings : list Issue) (entry : str * list str) : list Issue :=
  let (prop_uri, values) := entry in
  match ODict.get prop_uri defs with
  | Some prop_def =>
      let expected_domain := ODict.get "domain" prop_def in
      if RdfGenerator.truthy expected_domain then
        let expected_domain := RdfGenerator.get_str expected_domain in
        if negb (mem_str expected_domain (types instance_data)) then
          warnings ++
          [ DomainMismatch instance_uri prop_uri expected_domain
              (types instance_data)
              ("Property " ++ prop_uri ++ " expects domain " ++ expected_domain) ]
        else warnings
      else warnings
  | None => warnings
  end.

Definition check_property_domains (ontology_model : Model)
    (instances : ODict.odict InstanceData) (warnings : list Issue)
    : result (list Issue) :=
  defs <- property_definitions ontology_model ;;
  Ok (fold_left
        (fun warnings entry =>
           fold_left (domain_property defs (fst entry) (snd entry))
                     (inst_properties (snd entry)) warnings)
        instances warnings).

(** *** Check 3: cardinality constraints *)

Definition restrictions_by_class (ontology_model : Model)
    : result (ODict.odict (list Row)) :=
  for_each
    (fun by_class restriction =>
       class_uri <- getitem restriction "class" ;;
       let by_class :=
         if negb (ODict.mem class_uri by_class)
         then ODict.set class_uri [] by_class else by_class in
       Ok (ODict.set class_uri
             (ODict.get_default class_uri [] by_class ++ [restriction])
             by_class))
    (restrictions ontology_model) ODict.empty.

Definition cardinality_restriction (instance_uri : str)
    (instance_data : InstanceData) (violations : list Issue)
    (restriction : Row) : result (list Issue) :=
  prop_uri <- getitem restriction "property" ;;
  restriction_type <- getitem restriction "restrictionType" ;;
  value <- getitem restriction "value" ;;
  if str_eqb restriction_type "cardinality" && str_eqb value "1" then
    let prop_count := prop_count instance_data prop_uri in
    if negb (prop_count =? 1) then
      Ok (violations ++
          [ CardinalityViolation instance_uri prop_uri 1 prop_count
              ("Property " ++ prop_uri ++ " must have exactly 1 value, has "
               ++ str_of_nat prop_count) ])
    else Ok violations
  else if str_eqb restriction_type "minCardinality" then
    match py_int value with
    | None => Raise (ValueError (int_error value))
    | Some min_card =>
        let prop_count := prop_count instance_data prop_uri in
        if (Z.of_nat prop_count <? min_card)%Z then
          Ok (violations ++
              [ MinCardinalityViolation instance_uri prop_uri min_card prop_count
                  ("Property " ++ prop_uri ++ " must have at least "
                   ++ str_of_Z min_card ++ " values, has "
                   ++ str_of_nat prop_count) ])
        else Ok violations
    end
  else Ok violations.

Definition cardinality_type (by_class : ODict.odict (list Row))
    (instance_uri : str) (instance_data : InstanceData)
    (violations : list Issue) (class_uri : str) : result (list Issue) :=
  match ODict.get class_uri by_class with
  | Some class_restrictions =>
      for_each (cardinality_restriction instance_uri instance_data)
               class_restrictions violations
  | None => Ok violations
  end.

Definition check_cardinality (ontology_model : Model)
    (instances : ODict.odict InstanceData) (violations : list Issue)
    : result (list Issue) :=
  by_class <- restrictions_by_class ontology_model ;;
  for_each
    (fun violations entry =>
       for_each (cardinality_type by_class (fst entry) (snd entry))
                (types (snd entry)) violations)
    instances violations.

(** *** [validate_against_ontology] on the rows *)

Definition validate_against_ontology (triples : list Tuple)
    (ontology_model : Model) : result ValidationResult :=
  let violations := [] in
  let warnings := [] in
  let checks_performed := [] in
  let instances := build_instances triples in
  let checks_performed := checks_performed ++ ["class_membership" : str] in
  warnings <- check_class_membership ontology_model instances warnings ;;
  let checks_performed := checks_performed ++ ["property_domains_ranges" : str] in
  warnings <- check_property_domains ontology_model instances warnings ;;
  let checks_performed := checks_performed ++ ["cardinality_constraints" : str] in
  violations <- check_cardinality ontology_model instances violations ;;
  Ok (mkResult violations warnings checks_performed
               (length instances) (length triples)).

(** *** [handler] *)

Section Endpoints.

(** The environment variables, and the answers of the object store and of
    the schema endpoint. *)
Variables BUCKET_NAME NEPTUNE_ENDPOINT NEPTUNE_PORT : str.
Variable get_object : str -> str -> result str.
Variable http_request : str -> str -> result Response.

Definition handler (event : Event.t) : HandlerResult :=
  match
    (let document_id := Event.documentId event in
     let rdf_s3_key := Event.rdfS3Key event in
     let rdf_bucket :=
       match Event.rdfBucket event with Some b => b | None => BUCKET_NAME end in
     if negb (RdfGenerator.truthy document_id)
        || negb (RdfGenerator.truthy rdf_s3_key)
     then Raise (ValueError ("documentId and rdfS3Key are required" : str))
     else
       rdf_content <- get_object rdf_bucket (RdfGenerator.get_str rdf_s3_key) ;;
       let triples := parse_turtle_simple rdf_content in
       let ontology_model :=
         fetch_ontology_model NEPTUNE_ENDPOINT NEPTUNE_PORT http_request in
       validation_results <- validate_against_ontology triples ontology_model ;;
       Ok (completed_result validation_results))
  with
  | Ok r => r
  | Raise e => Errored e
  end.

End Endpoints.

End OntologyValidatorLambda.

(** ** The object key of an upload ([upload-handler]) *)

Module UploadHandler.

(** The key [handle_direct_upload] and [handle_presigned_url_request] store
    a document under: [f"documents/{document_id}/{file_name}"], where
    [document_id] is [str(uuid.uuid4())]. *)
Definition s3_key (document_id file_name : str) : str :=
  "documents/" ++ document_id ++ "/" ++ file_name.

End UploadHandler.

(** ** Keys and chunks ([document-parser]) *)

Module DocumentParser.

(** [extract_document_id]; on a [str] nothing in the [try] block raises. *)
Definition extract_document_id (s3_key : str) : str :=
  let parts := split_char "/" s3_key in
  if (2 <=? length parts) && str_eqb (nth 0 parts []) "documents"
  then nth 1 parts []
  else "unknown".

(** [key.split('/')[-1]], the file name [handler] derives from the key. *)
Definition file_name_of (key : str) : str := last (split_char "/" key) [].

(** [re.sub(r'\s+', ' ', text)]: every maximal run of whitespace becomes one
    space; [in_run] tells that the previous character was whitespace. *)
Fixpoint sub_whitespace (in_run : bool) (text : str) : str :=
  match text with
  | [] => []
  | c :: rest =>
      if is_space c then
        if in_run then sub_whitespace true rest
        else space :: sub_whitespace true rest
      else c :: sub_whitespace false rest
  end.

(** A slice bound as Python adjusts it: a negative bound counts from the
    end, and both are clamped to [0, len]. *)
Definition adjust (len i : Z) : Z :=
  (if i <? 0 then Z.max 0 (len + i) else Z.min i len)%Z.

(** [s[start:end]] *)
Definition slice (s : str) (start end_ : Z) : str :=
  let len := Z.of_nat (length s) in
  let a := adjust len start in
  let b := adjust len end_ in
  if (a <? b)%Z then firstn (Z.to_nat (b - a)) (skipn (Z.to_nat a) s) else [].

(** The highest of the positions [a + k], ..., [a] at which [sub] occurs
    in [s], or [-1]. *)
Fixpoint rfind_down (sub s : str) (a k : nat) : Z :=
  if startswith sub (skipn (a + k) s) then Z.of_nat (a + k)
  else match k with
       | O => (-1)%Z
       | S k' => rfind_down sub s a k'
       end.

(** [s.rfind(sub, start, end)]: the highest index of an occurrence of [sub]
    lying within [s[start:end]], or [-1]. *)
Definition rfind (sub s : str) (start end_ : Z) : Z :=
  let len := Z.of_nat (length s) in
  let a := adjust len start in
  let b := adjust len end_ in
  let n := Z.of_nat (length sub) in
  if (a + n <=? b)%Z then rfind_down sub s (Z.to_nat a) (Z.to_nat (b - n - a))
  else (-1)%Z.

(** A chunk dictionary of [create_text_chunks]. *)
Record TextChunk : Type := mkTextChunk {
  chunkId : Z;
  chunk_text : str;
  startPosition : Z;
  endPosition : Z;
  chunk_length : Z
}.

(** The loop over the sentence endings: the first one found in the window
    moves [end] behind its first character. *)
Fixpoint sentence_boundary (puncts : list str) (text : str) (start end_ : Z)
    : Z :=
  match puncts with
  | [] => end_
  | punct :: rest =>
      let last_punct := rfind punct text start end_ in
      if negb (last_punct =? -1)%Z then (last_punct + 1)%Z
      else sentence_boundary rest text start end_
  end.

(** The value of [end] when the chunk is cut. *)
Definition chunk_end (text : str) (chunk_size start : Z) : Z :=
  let len := Z.of_nat (length text) in
  let end_ := Z.min (start + chunk_size) len in
  if (end_ <? len)%Z then
    sentence_boundary [ ". " : str; ["."%char; newline]; "! " : str;
                        ["?"%char; newline] ]
                      text start end_
  else end_.

(** The [while] loop.  [None] tells that [fuel] iterations did not end
    it. *)
Fixpoint chunk_loop (fuel : nat) (text : str) (chunk_size overlap : Z)
    (start chunk_id : Z) (chunks : list TextChunk) : option (list TextChunk) :=
  let len := Z.of_nat (length text) in
  if negb (start <? len)%Z then Some chunks
  else
    match fuel with
    | O => None
    | S fuel' =>
        let end_ := chunk_end text chunk_size start in
        let chunk_text := strip (slice text start end_) in
        let '(chunks, chunk_id) :=
          match chunk_text with
          | _ :: _ =>
              (chunks ++ [ mkTextChunk chunk_id chunk_text start end_
                             (Z.of_nat (length chunk_text)) ],
               (chunk_id + 1)%Z)
          | [] => (chunks, chunk_id)
          end in
        let start := if (end_ <? len)%Z then (end_ - overlap)%Z else len in
        chunk_loop fuel' text chunk_size overlap start chunk_id chunks
    end.

Definition create_text_chunks (fuel : nat) (text : str)
    (chunk_size overlap : Z) : option (list TextChunk) :=
  let text := strip (sub_whitespace false text) in
  let len := Z.of_nat (length text) in
  if (len <=? chunk_size)%Z then Some [mkTextChunk 0 text 0 len len]
  else chunk_loop fuel text chunk_size overlap 0 0 [].

End DocumentParser.

(** ** Vocabulary of the statements

    Definitions the source does not have but the statements about it need:
    the blocks of the builder's output, the keyword tokens, and views of a
    triple list by subject and predicate. *)

Module Views.

Import RdfGenerator OntologyValidator.

(** The document URI and the tokens the keyword loop runs over (none when
    the keyword field is absent or empty). *)
Definition doc_uri_of (document_id : str) : str := NAMESPACE_DOC ++ document_id.

Definition keyword_tokens (metadata : Metadata) : list str :=
  if truthy (keywords metadata)
  then split_char "," (get_str (keywords metadata)) else [].

Definition without_keywords (metadata : Metadata) : Metadata :=
  mkMetadata None (documentType metadata) (author metadata).

(** The first block of the builder: the five triples of the document node. *)
Definition document_triples (now document_id text_content file_name : str)
    : list Triple :=
  let doc_uri := doc_uri_of document_id in
  [ mkTriple doc_uri "rdf:type" (NAMESPACE_ONTO ++ "Document");
    mkTriple doc_uri (NAMESPACE_ONTO ++ "hasId") (quoted document_id);
    mkTriple doc_uri (NAMESPACE_ONTO ++ "hasFileName")
             (quoted (escape_literal file_name));
    mkTriple doc_uri (NAMESPACE_ONTO ++ "hasTextLength")
             (typed (str_of_nat (length text_content)) "xsd:integer");
    mkTriple doc_uri (NAMESPACE_ONTO ++ "createdAt") (typed now "xsd:dateTime") ].

(** Everything the builder appends after the keyword block. *)
Definition after_keywords (document_id : str) (chunks : list Chunk)
    (metadata : Metadata) : list Triple :=
  let doc_uri := doc_uri_of document_id in
  (if truthy (documentType metadata) then
     [ mkTriple doc_uri (NAMESPACE_ONTO ++ "hasType")
                (quoted (escape_literal (get_str (documentType metadata)))) ]
   else [])
  ++ (if truthy (author metadata) then
        let author_uri := NAMESPACE_ENTITY ++ quote (get_str (author metadata)) in
        [ mkTriple author_uri "rdf:type" (NAMESPACE_ONTO ++ "Author");
          mkTriple author_uri (NAMESPACE_ONTO ++ "hasName")
                   (quoted (escape_literal (get_str (author metadata))));
          mkTriple doc_uri (NAMESPACE_ONTO ++ "hasAuthor") author_uri ]
      else [])
  ++ flat_map (fun chunk => chunk_step doc_uri [] chunk) chunks.

(** *** Triples by subject and predicate *)

Definition subject_of (t : Tuple) : str := fst (fst t).
Definition predicate_of (t : Tuple) : str := snd (fst t).
Definition object_of (t : Tuple) : str := snd t.

(** The classes [s] is declared to have, one per type triple, in order. *)
Definition types_of (s : str) (triples : list Tuple) : list str :=
  map object_of
      (filter (fun t => str_eqb (subject_of t) s
                        && str_eqb (predicate_of t) RDF_TYPE) triples).

(** The values [s] carries for property [p], one per triple, in order.  A
    type triple declares a type and is not a property value. *)
Definition values_of (s p : str) (triples : list Tuple) : list str :=
  if str_eqb p RDF_TYPE then []
  else map object_of
           (filter (fun t => str_eqb (subject_of t) s
                             && str_eqb (predicate_of t) p) triples).

(** The record of [s] in the instance dictionary; a subject without
    triples has the empty record. *)
Definition data_of (instances : ODict.odict InstanceData) (s : str)
    : InstanceData :=
  ODict.get_default s new_instance instances.

(** *** Restrictions *)

(** Every [minCardinality] value of the schema is an integer literal, so
    that no [int(value)] raises. *)
Definition value_parses (r : Restriction) : bool :=
  negb (str_eqb (restr_restrictionType r) "minCardinality")
  || match py_int (restr_value r) with Some _ => true | None => false end.

Definition minimums_parse (ontology_model : OntologyModel) : bool :=
  forallb value_parses (restrictions ontology_model).

(** The classes the instances of [triples] are declared to have, one per
    type triple. *)
Definition declared_classes (triples : list Tuple) : list str :=
  map object_of
      (filter (fun t => str_eqb (predicate_of t) RDF_TYPE) triples).

(** The restrictions the cardinality check comes to on [triples]: the ones
    listed for a class that some instance is declared to have. *)
Definition reached (triples : list Tuple) (r : Restriction) : bool :=
  mem_str (restr_class r) (declared_classes triples).

(** [int] accepts the value of every [minCardinality] restriction the check
    comes to. *)
Definition reached_minimums_parse (triples : list Tuple)
    (ontology_model : OntologyModel) : bool :=
  forallb (fun r => negb (reached triples r) || value_parses r)
          (restrictions ontology_model).

(** [r] is an exact-cardinality restriction with value [1] on [p]. *)
Definition is_cardinality_one_on (p : str) (r : Restriction) : bool :=
  str_eqb (restr_restrictionType r) "cardinality"
  && str_eqb (restr_value r) "1"
  && str_eqb (restr_property r) p.

(** The restrictions the schema lists for class [c], in order. *)
Definition restrictions_of (c : str) (ontology_model : OntologyModel)
    : list Restriction :=
  filter (fun r => str_eqb (restr_class r) c) (restrictions ontology_model).

(** The number of pairs of a type occurrence of [s] and a cardinality-one
    restriction on [p] listed for that type. *)
Definition cardinality_one_pairs (s p : str) (triples : list Tuple)
    (ontology_model : OntologyModel) : nat :=
  list_sum
    (map (fun c => length (filter (is_cardinality_one_on p)
                                  (restrictions_of c ontology_model)))
         (types_of s triples)).

(** The issues of one [kind] about instance [s] and property [p]. *)
Definition issue_about (kind s p : str) (i : Issue) : bool :=
  str_eqb (issue_type i) kind
  && str_eqb (issue_instance i) s
  && match issue_property i with
     | Some q => str_eqb q p
     | None => false
     end.

(** What one restriction adds to [violations] for an instance, when its
    value is well formed. *)
Definition restriction_issues (instance_uri : str) (instance_data : InstanceData)
    (r : Restriction) : list Issue :=
  match cardinality_restriction instance_uri instance_data [] r with
  | Ok issues => issues
  | Raise _ => []
  end.

(** The violations one instance record contributes: for each of its type
    occurrences, for each restriction listed for that type. *)
Definition instance_issues (ontology_model : OntologyModel)
    (entry : str * InstanceData) : list Issue :=
  flat_map (fun c => flat_map (restriction_issues (fst entry) (snd entry))
                              (restrictions_of c ontology_model))
           (types (snd entry)).

(** A triple that, if it is a type declaration, names a class under the
    builder's ontology namespace. *)
Definition typed_under_onto (t : Triple) : Prop :=
  predicate t = ("rdf:type" : str) ->
  exists name : str, object t = NAMESPACE_ONTO ++ name.

(** Every type declaration among [triples] names a class that a type
    triple of [graph] names. *)
Definition types_come_from (graph : list Triple) (triples : list Tuple) : Prop :=
  forall s o : str, In (s, RDF_TYPE, o) triples ->
    exists t : Triple,
      In t graph /\ predicate t = ("rdf:type" : str) /\ object t = o.

(** *** Lines of a serialised graph *)

Definition blank_or_skipped (stripped : str) : bool :=
  match stripped with
  | [] => true
  | c :: _ => Ascii.eqb c "#" || Ascii.eqb c "@"
  end.

(** The triple a single line stands for, if any: the line is trimmed; a
    blank line, a comment and a directive stand for nothing; otherwise the
    line needs at least three whitespace-separated tokens, the first two
    beginning with an opening angle bracket, and the remaining tokens,
    joined by single spaces, give the object. *)
Definition recognised_line (line : str) : option Tuple :=
  let stripped := strip line in
  if blank_or_skipped stripped then None
  else
    match split_ws stripped with
    | subj :: pred :: ((_ :: _) as rest) =>
        if startswith "<" subj && startswith "<" pred then
          Some (strip_chars "<>" subj, strip_chars "<>" pred,
                strip_chars ("<>" ++ [dquote])
                            (rstrip_chars " ." (join " " rest)))
        else None
    | _ => None
    end.

Definition line_triples (line : str) : list Tuple :=
  match recognised_line line with
  | Some t => [t]
  | None => []
  end.

(** A token enclosed in angle brackets. *)
Definition bracketed (token : str) : bool :=
  startswith "<" token && startswith ">" (rev token).

Definition no_space (s : str) : bool := forallb (fun c => negb (is_space c)) s.
Definition no_newline (s : str) : bool :=
  forallb (fun c => negb (Ascii.eqb c newline)) s.

(** A triple whose fully-qualified line is one line of tokens: no
    whitespace in subject and predicate, no line break in the object. *)
Definition line_safe (t : Triple) : bool :=
  no_space (subject t) && no_space (predicate t) && no_newline (object t).

(** Predicate and object as [serialize_ntriples] writes them. *)
Definition nt_predicate (p : str) : str :=
  if negb (startswith "<" p) then format_uri_full p else p.

Definition nt_object (o : str) : str :=
  if negb (startswith [dquote] o) && negb (startswith "<" o)
  then "<" ++ o ++ ">" else o.

(** What comes back of a triple that went through the fully-qualified
    form: the subject without outer angle brackets, the predicate as a full
    URI, the object as written with runs of whitespace collapsed, trailing
    periods and spaces dropped, and outer angle brackets and double quotes
    stripped. *)
Definition nt_image (t : Triple) : Tuple :=
  ( strip_chars "<>" (subject t),
    strip_chars "<>" (nt_predicate (predicate t)),
    strip_chars ("<>" ++ [dquote])
      (rstrip_chars " ." (join " " (split_ws (nt_object (object t))))) ).

(** [s] neither begins nor ends with an angle bracket or a double quote:
    the characters the parser strips from both ends of an object. *)
Definition bare (s : str) : bool :=
  match s, rev s with
  | c :: _, d :: _ =>
      negb (mem_char c ("<>" ++ [dquote])) && negb (mem_char d ("<>" ++ [dquote]))
  | _, _ => true
  end.

(** *** Literal escaping *)

(** The five rules of [escape_literal], character by character. *)
Definition escape_char (c : ascii) : str :=
  if Ascii.eqb c backslash then [backslash; backslash]
  else if Ascii.eqb c dquote then [backslash; dquote]
  else if Ascii.eqb c newline then backslash :: "n"
  else if Ascii.eqb c carriage_return then backslash :: "r"
  else if Ascii.eqb c tab then backslash :: "t"
  else [c].

(** The inverse of the five rules.  The source has no unescaping function;
    this one states what undoing [escape_literal] means. *)
Definition unescape_char (c : ascii) : ascii :=
  if Ascii.eqb c "n" then newline
  else if Ascii.eqb c "r" then carriage_return
  else if Ascii.eqb c "t" then tab
  else c.

Fixpoint unescape_literal (s : str) : str :=
  match s with
  | [] => []
  | c :: rest =>
      if Ascii.eqb c backslash then
        match rest with
        | d :: rest' => unescape_char d :: unescape_literal rest'
        | [] => [c]
        end
      else c :: unescape_literal rest
  end.

(** A line that stands for no triple and holds no line break. *)
Definition silent_line (line : str) : Prop :=
  line_triples line = [] /\ no_newline line = true.

(** A triple whose lines in the compact form are silent: its subject line,
    and its property line wherever it stands in its block. *)
Definition silent_triple (t : Triple) : Prop :=
  silent_line ("<" ++ subject t ++ ">")
  /\ forall n i : nat, silent_line (turtle_property_line n i t).

(** *** Words in a text *)

(** One upper-case letter followed by one or more lower-case letters. *)
Definition is_capitalized (w : str) : bool :=
  match w with
  | c :: (_ :: _) as lows => is_upper c && forallb is_lower lows
  | _ => false
  end.

Definition longer_than_3 (w : str) : bool := 3 <? length w.

(** The last character of [s], or [prev] (the character before [s], if
    any) when [s] is empty. *)
Definition last_char (prev : option ascii) (s : str) : option ascii :=
  fold_left (fun _ c => Some c) s prev.

(** [w] occurs in [s] as a whole word: the characters next to it, if any,
    are not word characters.  [prev] is the character before [s]. *)
Definition delimited (prev : option ascii) (s w : str) (pre post : str) : Prop :=
  s = pre ++ w ++ post
  /\ word_at (last_char prev pre) = false
  /\ word_at (hd_error post) = false.

(** [ws] are capitalized words occurring in [s] one after the other, from
    left to right, as whole words. *)
Inductive Occurs : option ascii -> str -> list str -> Prop :=
| Occurs_nil (prev : option ascii) (s : str) : Occurs prev s []
| Occurs_cons (prev : option ascii) (s w pre post : str) (ws : list str) :
    delimited prev s w pre post ->
    is_capitalized w = true ->
    Occurs (last_char prev (pre ++ w)) post ws ->
    Occurs prev s (w :: ws).

(** First occurrences only, in order; [seen] lists what is already out. *)
Fixpoint dedup (seen : list str) (l : list str) : list str :=
  match l with
  | [] => []
  | w :: r =>
      if mem_str w seen then dedup seen r else w :: dedup (w :: seen) r
  end.

End Views.

(** ** Example inputs *)

Module Examples.

Import RdfGenerator OntologyValidator.

Definition now0 : str := "2024-01-01T00:00:00".
Definition text0 : str := "Hello Acme Corp today".
Definition chunk0 : Chunk :=
  mkChunk (Some 0%Z) (Some text0) (Some 0%Z) (Some 22%Z).

(** The metadata of the end-to-end example, and one with a trailing comma. *)
Definition metadata_two_keywords : Metadata :=
  mkMetadata (Some ("alpha, beta" : str)) None None.
Definition metadata_trailing_comma : Metadata :=
  mkMetadata (Some ("alpha," : str)) None None.

Definition graph_of (metadata : Metadata) : list Triple :=
  generate_rdf_graph now0 "doc-1" text0 [chunk0] metadata "a.txt".

(** The same keyword written twice. *)
Definition metadata_repeated_keyword : Metadata :=
  mkMetadata (Some ("alpha,alpha" : str)) None None.

(** The triples the validator reads when a graph is staged in the
    fully-qualified form. *)
Definition staged (metadata : Metadata) : list Tuple :=
  parse_turtle_simple (serialize_ntriples (graph_of metadata)).

Definition Keyword_class : str := NAMESPACE_ONTO ++ "Keyword".
Definition hasValue_property : str := NAMESPACE_ONTO ++ "hasValue".
Definition hasName_property : str := NAMESPACE_ONTO ++ "hasName".
Definition alpha_node : str := NAMESPACE_ENTITY ++ "alpha".

(** Schemas with one restriction on the values of a keyword: exactly one,
    at least two, and at least two next to a restriction whose value is the
    empty string (what [parse_sparql_results] stores for a binding without
    a value). *)
Definition metadata_none : Metadata := mkMetadata None None None.

(** A line whose first two tokens open an angle bracket and do not close
    it. *)
Definition line_unclosed : str := "<a <b c .".

(** Two triples of one subject whose predicates are outside the known
    namespaces: the compact form writes them as bracketed URIs. *)
Definition graph_foreign_predicates : list Triple :=
  [ mkTriple (NAMESPACE_DOC ++ "d") "http://other.example/p"
             (NAMESPACE_ENTITY ++ "x");
    mkTriple (NAMESPACE_DOC ++ "d") "http://other.example/q"
             (NAMESPACE_ENTITY ++ "y") ].

Definition schema_exactly_one : OntologyModel :=
  mkModel [mkClassDef Keyword_class None] []
    [mkRestriction Keyword_class hasValue_property "cardinality" "1"].

Definition at_least_two : Restriction :=
  mkRestriction Keyword_class hasValue_property "minCardinality" "2".

Definition schema_at_least_two : OntologyModel :=
  mkModel [mkClassDef Keyword_class None] [] [at_least_two].

Definition schema_unreadable_minimum : OntologyModel :=
  mkModel [mkClassDef Keyword_class None] []
    [ at_least_two;
      mkRestriction Keyword_class hasName_property "minCardinality" [] ].

(** A minimum of 4301 digits, and a minimum that is not a number for a
    class no keyword graph declares. *)
Definition schema_long_minimum : OntologyModel :=
  mkModel [mkClassDef Keyword_class None] []
    [ mkRestriction Keyword_class hasValue_property "minCardinality"
        (repeat "1"%char 4301) ].

Definition schema_unreached_minimum : OntologyModel :=
  mkModel [mkClassDef Keyword_class None] []
    [ mkRestriction Keyword_class hasValue_property "cardinality" "1";
      mkRestriction (NAMESPACE_ONTO ++ "Invoice") hasName_property
        "minCardinality" "many" ].

(** A schema that wants exactly one name for a keyword; the builder gives a
    keyword node a value and no name. *)
Definition schema_exactly_one_name : OntologyModel :=
  mkModel [mkClassDef Keyword_class None] []
    [mkRestriction Keyword_class hasName_property "cardinality" "1"].

(** A document identifier with spaces, written so that the first line of
    the fully-qualified form reads as a type declaration of a class under
    the prefix of the class check; the graph the builder makes of it, and
    what is read back. *)
Definition Report_hash_class : str :=
  "http://graph-rag.example.com/ontology#Report".

Definition spaced_id : str :=
  "d> <http://www.w3.org/1999/02/22-rdf-syntax-ns#type> <"
  ++ Report_hash_class.

Definition graph_spaced : list Triple :=
  generate_rdf_graph now0 spaced_id text0 [chunk0] metadata_none "a.txt".

Definition staged_spaced : list Tuple :=
  parse_turtle_simple (serialize_ntriples graph_spaced).

End Examples.

(** ** Vocabulary of the further properties *)

Module PipelineViews.

Import RdfGenerator OntologyValidator Views.

(** [true] when [p] occurs in [s]. *)
Fixpoint occurs_in (p s : str) : bool :=
  startswith p s
  || match s with
     | [] => false
     | _ :: s' => occurs_in p s'
     end.

Definition is_empty {A : Type} (l : list A) : bool :=
  match l with [] => true | _ => false end.

(** *** Blocks of the compact form *)

(** The distinct subjects of a graph in the order of their first triple,
    the triples of one subject in their order, and the lines of a block:
    the subject line, one property line per triple, an empty line. *)
Definition subjects (triples : list Triple) : list str :=
  dedup [] (map subject triples).

Definition block_of (k : str) (triples : list Triple) : list Triple :=
  filter (fun t => str_eqb (subject t) k) triples.

Definition block_lines (k : str) (l : list Triple) : list str :=
  ["<" ++ k ++ ">"]
  ++ map (fun it => turtle_property_line (length l) (fst it) (snd it))
         (combine (seq 0 (length l)) l)
  ++ [[]].

(** *** The size of a graph *)

Definition chunk_triple_count (chunk : Chunk) : nat :=
  6 + 3 * length (extract_entities_simple (get_str (chunk_text chunk))).

Definition graph_size (chunks : list Chunk) (metadata : Metadata) : nat :=
  5 + 3 * length (keyword_tokens metadata)
  + (if truthy (documentType metadata) then 1 else 0)
  + (if truthy (author metadata) then 3 else 0)
  + list_sum (map chunk_triple_count chunks).

(** *** Restrictions and warnings *)

(** The restrictions the cardinality check acts on: exact cardinality with
    the value ['1'], and minimum cardinality. *)
Definition enforced (r : Restriction) : bool :=
  (str_eqb (restr_restrictionType r) "cardinality"
   && str_eqb (restr_value r) "1")
  || str_eqb (restr_restrictionType r) "minCardinality".

Definition none_enforced (ontology_model : OntologyModel) : bool :=
  forallb (fun r => negb (enforced r)) (restrictions ontology_model).

(** The last row the schema lists for property [p]. *)
Definition last_definition (p : str) (ontology_model : OntologyModel)
    : option PropertyDef :=
  find (fun q => str_eqb (prop_property q) p) (rev (properties ontology_model)).

(** What one property entry and one type occurrence add to [warnings]. *)
Definition domain_issues (defs : ODict.odict PropertyDef) (instance_uri : str)
    (instance_data : InstanceData) (entry : str * list str) : list Issue :=
  domain_property defs instance_uri instance_data [] entry.

Definition class_issues (defined : list str) (instance_uri class_uri : str)
    : list Issue :=
  class_membership_type defined instance_uri [] class_uri.

(** [s] carries a value for [p], the last row for [p] declares a domain,
    and [s] is not declared to have it. *)
Definition domain_mismatch (s p : str) (triples : list Tuple)
    (ontology_model : OntologyModel) : bool :=
  negb (is_empty (values_of s p triples))
  && match last_definition p ontology_model with
     | Some prop_def =>
         truthy (prop_domain prop_def)
         && negb (mem_str (get_str (prop_domain prop_def)) (types_of s triples))
     | None => false
     end.

(** [c] is under the prefix the class check looks for, the schema lists at
    least one class, and [c] is not among them. *)
Definition undefined_class (c : str) (ontology_model : OntologyModel) : bool :=
  startswith "http://graph-rag.example.com/ontology#" c
  && negb (is_empty (classes ontology_model))
  && negb (mem_str c (defined_classes ontology_model)).

Definition undefined_class_about (s c : str) (i : Issue) : bool :=
  match i with
  | UndefinedClass s' c' _ => str_eqb s' s && str_eqb c' c
  | _ => false
  end.

(** *** Events *)

(** The graph [handler] builds for an event, and the key it stores it
    under. *)
Definition event_graph (now : str) (event : Event.t) : list Triple :=
  generate_rdf_graph now
    (get_str (Event.documentId event))
    (match Event.textContent event with Some s => s | None => [] end)
    (match Event.chunks event with Some l => l | None => [] end)
    (match Event.metadata event with
     | Some m => m
     | None => mkMetadata None None None
     end)
    (match Event.fileName event with Some s => s | None => "unknown" : str end).

Definition staging_key (event : Event.t) : str :=
  "neptune-staging/" ++ get_str (Event.documentId event) ++ "/data.ttl".

Definition has_keys (event : Event.t) : bool :=
  truthy (Event.documentId event) && truthy (Event.rdfS3Key event).

Definition event_bucket (BUCKET_NAME : str) (event : Event.t) : str :=
  match Event.rdfBucket event with Some b => b | None => BUCKET_NAME end.

(** *** Rows and typed rows *)

(** The typed row a dictionary row stands for when it has the keys the
    validator reads. *)
Definition class_of_row (row : OntologyValidatorLambda.Row) : ClassDef :=
  mkClassDef (ODict.get_default "class" [] row) (ODict.get "subClassOf" row).

Definition property_of_row (row : OntologyValidatorLambda.Row) : PropertyDef :=
  mkPropertyDef (ODict.get_default "property" [] row)
                (ODict.get "domain" row) (ODict.get "range" row).

Definition restriction_of_row (row : OntologyValidatorLambda.Row)
    : Restriction :=
  mkRestriction (ODict.get_default "class" [] row)
                (ODict.get_default "property" [] row)
                (ODict.get_default "restrictionType" [] row)
                (ODict.get_default "value" [] row).

Definition model_of_rows (m : OntologyValidatorLambda.Model) : OntologyModel :=
  mkModel
    (map class_of_row (OntologyValidatorLambda.classes m))
    (map property_of_row (OntologyValidatorLambda.properties m))
    (map restriction_of_row (OntologyValidatorLambda.restrictions m)).

Definition complete_restriction (row : OntologyValidatorLambda.Row) : bool :=
  ODict.mem "class" row && ODict.mem "property" row
  && ODict.mem "restrictionType" row && ODict.mem "value" row.

(** Every row has the keys the validator reads with [row[key]]. *)
Definition complete_rows (m : OntologyValidatorLambda.Model) : bool :=
  forallb (ODict.mem "class") (OntologyValidatorLambda.classes m)
  && forallb (ODict.mem "property") (OntologyValidatorLambda.properties m)
  && forallb complete_restriction (OntologyValidatorLambda.restrictions m).

Definition map_values {V W : Type} (f : V -> W) (d : ODict.odict V)
    : ODict.odict W :=
  map (fun e => (fst e, f (snd e))) d.

(** The two dictionaries the validator builds from complete rows. *)
Definition row_definitions (rows : list OntologyValidatorLambda.Row)
    (init : ODict.odict OntologyValidatorLambda.Row)
    : ODict.odict OntologyValidatorLambda.Row :=
  fold_left (fun defs p => ODict.set (ODict.get_default "property" [] p) p defs)
            rows init.

Definition row_groups (rows : list OntologyValidatorLambda.Row)
    (init : ODict.odict (list OntologyValidatorLambda.Row))
    : ODict.odict (list OntologyValidatorLambda.Row) :=
  fold_left
    (fun by_class restriction =>
       let class_uri := ODict.get_default "class" [] restriction in
       let by_class :=
         if negb (ODict.mem class_uri by_class)
         then ODict.set class_uri [] by_class else by_class in
       ODict.set class_uri
         (ODict.get_default class_uri [] by_class ++ [restriction]) by_class)
    rows init.

(** The ['value'] of a term, the empty string when it has none. *)
Definition term_value (term : OntologyValidatorLambda.Term) : str :=
  ODict.get_default "value" [] term.

(** *** The schema endpoint *)

Definition sparql_endpoint (NEPTUNE_ENDPOINT NEPTUNE_PORT : str) : str :=
  "https://" ++ NEPTUNE_ENDPOINT ++ ":" ++ NEPTUNE_PORT ++ "/sparql".

(** The query is not answered with rows: the request raises, the status is
    not 200, or the body is not a JSON document. *)
Definition query_fails
    (http_request : str -> str -> result OntologyValidatorLambda.Response)
    (endpoint query : str) : bool :=
  match OntologyValidatorLambda.execute_sparql_query http_request endpoint query
  with
  | Ok _ => false
  | Raise _ => true
  end.

Definition schema_unavailable (NEPTUNE_ENDPOINT NEPTUNE_PORT : str)
    (http_request : str -> str -> result OntologyValidatorLambda.Response)
    : bool :=
  let endpoint := sparql_endpoint NEPTUNE_ENDPOINT NEPTUNE_PORT in
  query_fails http_request endpoint OntologyValidatorLambda.classes_query
  || query_fails http_request endpoint OntologyValidatorLambda.properties_query
  || query_fails http_request endpoint
       OntologyValidatorLambda.restrictions_query.

(** *** Chunks of a text *)

(** A character of a cleaned text: not whitespace, or the space. *)
Definition plain (c : ascii) : bool := negb (is_space c) || Ascii.eqb c space.

(** Neither of the sentence endings that can occur in a cleaned text
    occurs. *)
Definition no_sentence_end (text : str) : bool :=
  negb (occurs_in ". " text) && negb (occurs_in "! " text).

(** The text [create_text_chunks] cuts. *)
Definition cleaned (text : str) : str :=
  strip (DocumentParser.sub_whitespace false text).

(** The identifiers count from zero, and every [length] is the length of
    the chunk's text. *)
Definition numbered (chunks : list DocumentParser.TextChunk) : Prop :=
  map DocumentParser.chunkId chunks = map Z.of_nat (seq 0 (length chunks))
  /\ Forall (fun c => DocumentParser.chunk_length c
                      = Z.of_nat (length (DocumentParser.chunk_text c)))
            chunks.

End PipelineViews.

(** ** Example inputs of the further properties *)

Module PipelineExamples.

Import RdfGenerator OntologyValidator Examples.

(** A schema whose only restriction is a maximum. *)
Definition schema_at_most_zero : OntologyModel :=
  mkModel [mkClassDef Keyword_class None] []
    [mkRestriction Keyword_class hasValue_property "maxCardinality" "0"].

(** A schema that gives the value property the domain [Author]. *)
Definition Author_class : str := NAMESPACE_ONTO ++ "Author".

Definition schema_value_of_author : OntologyModel :=
  mkModel [] [mkPropertyDef hasValue_property (Some Author_class) None] [].

(** One instance of a class under the prefix of the class check, and a
    schema that lists another class. *)
Definition Report_class : str := "http://graph-rag.example.com/ontology#Report".
Definition Memo_class : str := "http://graph-rag.example.com/ontology#Memo".

Definition report_triples : list Tuple :=
  [ ("http://graph-rag.example.com/document/d" : str, RDF_TYPE, Report_class) ].

Definition schema_memo : OntologyModel :=
  mkModel [mkClassDef Memo_class None] [] [].

(** An event with the keys of the example graph. *)
Definition event0 : Event.t :=
  Event.mk (Some ("doc-1" : str)) (Some text0) (Some [chunk0])
           (Some metadata_two_keywords) (Some ("a.txt" : str))
           None None None None None None None None.

(** A store that accepts every request, and an endpoint that answers every
    query with status 503. *)
Definition put_accepted (request : S3.PutObject) : result unit := Ok tt.

Definition http_unavailable (endpoint query : str)
    : result OntologyValidatorLambda.Response :=
  Ok (OntologyValidatorLambda.mkResponse 503
        (Raise (ValueError ("Expecting value" : str)))).

(** An endpoint that answers every query with one row that has every key
    the validator reads. *)
Definition http_rows (endpoint query : str)
    : result OntologyValidatorLambda.Response :=
  Ok (OntologyValidatorLambda.mkResponse 200
        (Ok (OntologyValidatorLambda.mkSparqlResults
               (Some (OntologyValidatorLambda.mkResultsObject
                        (Some [ [ ("class" : str,
                                   [ ("type" : str, "uri" : str);
                                     ("value" : str, Keyword_class) ]);
                                  ("property" : str,
                                   [ ("type" : str, "uri" : str);
                                     ("value" : str, hasValue_property) ]);
                                  ("restrictionType" : str,
                                   [ ("type" : str, "literal" : str);
                                     ("value" : str, "minCardinality" : str) ]);
                                  ("value" : str,
                                   [ ("type" : str, "literal" : str);
                                     ("value" : str, "2" : str) ]) ] ])))))).

(** Rows with every key. *)
Definition rows_complete : OntologyValidatorLambda.Model :=
  OntologyValidatorLambda.mkModel
    [ [ ("class" : str, Keyword_class) ] ]
    [ [ ("property" : str, hasValue_property); ("domain" : str, Keyword_class) ] ]
    [ [ ("class" : str, Keyword_class); ("property" : str, hasValue_property);
        ("restrictionType" : str, "cardinality" : str); ("value" : str, "1" : str) ] ].

(** An event that names a staged object, and a store that answers every
    read with the example graph in the fully-qualified form. *)
Definition event_staged : Event.t :=
  Event.mk (Some ("doc-1" : str)) None None None None
           (Some ("neptune-staging/doc-1/data.ttl" : str)) None
           None None None None None None.

Definition get_staged (bucket key : str) : result str :=
  Ok (serialize_ntriples (graph_of metadata_two_keywords)).

(** The value a call returned, for calls that are known to return. *)
Definition returned (r : result ValidationResult) : ValidationResult :=
  match r with
  | Ok res => res
  | Raise _ => mkResult [] [] [] 0 0
  end.

Definition chunks_of (r : option (list DocumentParser.TextChunk))
    : list DocumentParser.TextChunk :=
  match r with
  | Some chunks => chunks
  | None => []
  end.

(** A text whose first sentence ends at position 99 and whose rest holds
    no sentence ending, and a text without any. *)
Definition long_text : str :=
  repeat "a"%char 99 ++ ". " ++ repeat "b"%char 1000.

Definition plain_text : str := repeat "a"%char 2500.

End PipelineExamples.

(** * Properties *)

(** ** Strings and loops *)

Module PyStrFacts.

Lemma str_eqb_refl (a : str) : str_eqb a a = true.
Proof.
  induction a as [|c a IH]; simpl; [reflexivity|].
  now rewrite Ascii.eqb_refl, IH.
Qed.

Lemma str_eqb_eq (a b : str) : str_eqb a b = true <-> a = b.
Proof.
  split; [|intros ->; apply str_eqb_refl].
  revert b; induction a as [|c a IH]; intros [|d b]; simpl; try discriminate; auto.
  rewrite andb_true_iff, Ascii.eqb_eq. intros [-> H]. now rewrite (IH _ H).
Qed.

Lemma str_eqb_neq (a b : str) : str_eqb a b = false <-> a <> b.
Proof.
  rewrite <- str_eqb_eq. destruct (str_eqb a b); split; congruence.
Qed.

Lemma str_eqb_sym (a b : str) : str_eqb a b = str_eqb b a.
Proof.
  destruct (str_eqb a b) eqn:E.
  - apply str_eqb_eq in E. subst. now rewrite str_eqb_refl.
  - symmetry. apply str_eqb_neq. apply str_eqb_neq in E. congruence.
Qed.

Lemma mem_str_In (s : str) (l : list str) : mem_str s l = true <-> In s l.
Proof.
  unfold mem_str. rewrite existsb_exists. split.
  - intros (x & Hx & E). apply str_eqb_eq in E. now subst.
  - intros H. exists s. split; [assumption | apply str_eqb_refl].
Qed.

Lemma mem_char_In (c : ascii) (cs : str) : mem_char c cs = true <-> In c cs.
Proof.
  unfold mem_char. rewrite existsb_exists. split.
  - intros (x & Hx & E). apply Ascii.eqb_eq in E. now subst.
  - intros H. exists c. split; [assumption | apply Ascii.eqb_refl].
Qed.

(** A loop that only appends to its accumulator. *)
Lemma fold_left_append {A B : Type} (f : A -> list B) (l : list A) (init : list B) :
  fold_left (fun acc a => acc ++ f a) l init = init ++ flat_map f l.
Proof.
  revert init; induction l as [|a l IH]; intros init; simpl.
  - now rewrite app_nil_r.
  - rewrite IH. now rewrite app_assoc.
Qed.

Lemma fold_left_ext_in {A S : Type} (f g : S -> A -> S) (l : list A) (st : S) :
  (forall st a, In a l -> f st a = g st a) ->
  fold_left f l st = fold_left g l st.
Proof.
  revert st; induction l as [|a l IH]; intros st H; simpl; [reflexivity|].
  rewrite H by now left. apply IH. intros; apply H; now right.
Qed.

Lemma split_char_nonempty (sep : ascii) (s : str) : split_char sep s <> [].
Proof.
  destruct s as [|c s]; simpl; [discriminate|].
  destruct (Ascii.eqb c sep); [discriminate|].
  destruct (split_char sep s); discriminate.
Qed.

(** *** Stripping *)

Lemma dropwhile_all (f : ascii -> bool) (a x : str) :
  forallb f a = true -> dropwhile f (a ++ x) = dropwhile f x.
Proof.
  induction a as [|c a IH]; simpl; [reflexivity|].
  rewrite andb_true_iff. intros [-> H]. now apply IH.
Qed.

Lemma dropwhile_stop (f : ascii -> bool) (c : ascii) (s : str) :
  f c = false -> dropwhile f (c :: s) = c :: s.
Proof. simpl. now intros ->. Qed.

Lemma rstrip_by_all (f : ascii -> bool) (x b : str) :
  forallb f b = true -> rstrip_by f (x ++ b) = rstrip_by f x.
Proof.
  intros H. unfold rstrip_by. rewrite rev_app_distr, dropwhile_all;
    [reflexivity|].
  rewrite forallb_forall in *. intros c Hc. apply H. now apply in_rev.
Qed.

Lemma rstrip_by_last (f : ascii -> bool) (x : str) (d : ascii) :
  f d = false -> rstrip_by f (x ++ [d]) = x ++ [d].
Proof.
  intros H. unfold rstrip_by. rewrite rev_app_distr. cbn [rev app].
  rewrite dropwhile_stop by assumption.
  cbn [rev]. now rewrite rev_involutive.
Qed.

Lemma rstrip_by_nil (f : ascii -> bool) : rstrip_by f [] = [].
Proof. reflexivity. Qed.

Lemma rstrip_by_cons (f : ascii -> bool) (c : ascii) (s : str) :
  f c = false -> rstrip_by f (c :: s) = c :: rstrip_by f s.
Proof.
  intros H. induction s as [|d s IH] using rev_ind.
  - exact (rstrip_by_last f [] c H).
  - destruct (f d) eqn:E.
    + change (c :: s ++ [d]) with ((c :: s) ++ [d]).
      rewrite !rstrip_by_all by (simpl; now rewrite E). exact IH.
    + change (c :: s ++ [d]) with ((c :: s) ++ [d]).
      now rewrite !rstrip_by_last.
Qed.

(** Stripping leaves a string alone when neither end is in the class. *)
Lemma strip_by_clean (f : ascii -> bool) (c d : ascii) (x : str) :
  f c = false -> f d = false ->
  strip_by f (c :: x ++ [d]) = c :: x ++ [d].
Proof.
  intros Hc Hd. unfold strip_by, lstrip_by.
  rewrite dropwhile_stop by assumption.
  change (c :: x ++ [d]) with ((c :: x) ++ [d]). now apply rstrip_by_last.
Qed.

(** *** Splitting *)

Lemma split_char_app (sep : ascii) (a b : str) :
  split_char sep (a ++ sep :: b) = split_char sep a ++ split_char sep b.
Proof.
  induction a as [|c a IH]; cbn [app split_char].
  - now rewrite Ascii.eqb_refl.
  - destruct (Ascii.eqb c sep); [now rewrite IH|].
    rewrite IH. destruct (split_char sep a) eqn:E; [|reflexivity].
    now destruct (split_char_nonempty sep a).
Qed.

Lemma split_char_none (sep : ascii) (s : str) :
  forallb (fun c => negb (Ascii.eqb c sep)) s = true ->
  split_char sep s = [s].
Proof.
  induction s as [|c s IH]; cbn [forallb split_char]; [reflexivity|].
  rewrite andb_true_iff, negb_true_iff. intros [-> H]. now rewrite IH.
Qed.

Lemma split_ws_head (c : ascii) (s : str) :
  is_space c = false ->
  exists (w : str) (ws : list str), split_ws (c :: s) = (c :: w) :: ws.
Proof.
  intros H. cbn [split_ws]. rewrite H.
  destruct s as [|d s]; [now exists [], []|].
  destruct (is_space d); [now eexists [], _|].
  destruct (split_ws (d :: s)) as [|w ws]; [now exists [], [] | now exists w, ws].
Qed.

Lemma split_ws_app (a b : str) (sp : ascii) :
  is_space sp = true ->
  split_ws (a ++ sp :: b) = split_ws a ++ split_ws b.
Proof.
  intros Hsp. induction a as [|c a IH]; [cbn; now rewrite Hsp|].
  cbn [app]. cbn [split_ws]. destruct (is_space c) eqn:Ec; [exact IH|].
  destruct a as [|d a].
  - cbn [app]. rewrite Hsp. cbn [split_ws] in IH |- *.
    rewrite Hsp in *. reflexivity.
  - cbn [app] in *. destruct (is_space d) eqn:Ed.
    + now rewrite IH.
    + rewrite IH.
      destruct (split_ws_head d a Ed) as (w & ws & ->). reflexivity.
Qed.

(** A non-empty string without whitespace is one token. *)
Lemma split_ws_token (c : ascii) (s : str) :
  forallb (fun x => negb (is_space x)) (c :: s) = true ->
  split_ws (c :: s) = [c :: s].
Proof.
  revert c; induction s as [|d s IH]; intros c; cbn [forallb].
  - rewrite andb_true_r, negb_true_iff. cbn [split_ws]. now intros ->.
  - rewrite andb_true_iff, negb_true_iff. intros [Hc H].
    cbn [split_ws]. rewrite Hc.
    assert (Hd : is_space d = false).
    { cbn [forallb] in H. apply andb_true_iff in H.
      now rewrite <- negb_true_iff. }
    rewrite Hd. specialize (IH d H). cbn [split_ws] in IH. rewrite Hd in IH.
    now rewrite IH.
Qed.

(** Tokens hold no whitespace. *)
Lemma split_ws_tokens (s : str) :
  Forall (fun w => w <> [] /\ forallb (fun x => negb (is_space x)) w = true)
         (split_ws s).
Proof.
  induction s as [|c s IH]; cbn [split_ws]; [constructor|].
  destruct (is_space c) eqn:Ec; [exact IH|].
  destruct s as [|d s].
  - repeat constructor; [discriminate | cbn; now rewrite Ec].
  - destruct (is_space d) eqn:Ed.
    + constructor; [|exact IH]. split; [discriminate | cbn; now rewrite Ec].
    + destruct (split_ws (d :: s)) as [|w ws].
      * repeat constructor; [discriminate | cbn; now rewrite Ec].
      * inversion IH as [|? ? [Hne Hw] Hws]; subst.
        constructor; [|assumption].
        split; [discriminate | cbn [forallb]; now rewrite Ec, Hw].
Qed.

Lemma join_snoc (sep : str) (ws : list str) (w x : str) :
  join sep ((w :: ws) ++ [x]) = join sep (w :: ws) ++ sep ++ x.
Proof.
  revert w; induction ws as [|v ws IH]; intros w; [reflexivity|].
  change (join sep ((w :: v :: ws) ++ [x]))
    with (w ++ sep ++ join sep ((v :: ws) ++ [x])).
  rewrite IH. cbn [join]. now rewrite <- !app_assoc.
Qed.

End PyStrFacts.

Import PyStrFacts.

(** ** The builder *)

Module BuilderFacts.

Import RdfGenerator Views.

Lemma chunk_step_append (doc_uri : str) (triples : list Triple) (chunk : Chunk) :
  chunk_step doc_uri triples chunk = triples ++ chunk_step doc_uri [] chunk.
Proof.
  unfold chunk_step. rewrite !fold_left_append. simpl.
  now rewrite <- app_assoc.
Qed.

Lemma fold_chunk_step (doc_uri : str) (chunks : list Chunk) (triples : list Triple) :
  fold_left (chunk_step doc_uri) chunks triples
  = triples ++ flat_map (fun chunk => chunk_step doc_uri [] chunk) chunks.
Proof.
  revert triples; induction chunks as [|c chunks IH]; intros triples; simpl.
  - now rewrite app_nil_r.
  - rewrite IH, chunk_step_append. now rewrite <- app_assoc.
Qed.

(** The builder's output is the document block, the keyword block and the
    rest, in this order. *)
Lemma generate_rdf_graph_blocks (now document_id text_content : str)
    (chunks : list Chunk) (metadata : Metadata) (file_name : str) :
  generate_rdf_graph now document_id text_content chunks metadata file_name
  = document_triples now document_id text_content file_name
    ++ flat_map (keyword_triples (doc_uri_of document_id)) (keyword_tokens metadata)
    ++ after_keywords document_id chunks metadata.
Proof.
  unfold generate_rdf_graph, keyword_tokens, after_keywords, document_triples,
    doc_uri_of.
  rewrite fold_chunk_step.
  destruct (truthy (keywords metadata)); [rewrite fold_left_append|];
    destruct (truthy (documentType metadata));
    destruct (truthy (author metadata)); simpl;
    repeat rewrite <- app_assoc; simpl; try reflexivity.
Qed.

Lemma keyword_tokens_without (metadata : Metadata) :
  keyword_tokens (without_keywords metadata) = [].
Proof. reflexivity. Qed.

Lemma after_keywords_without (document_id : str) (chunks : list Chunk)
    (metadata : Metadata) :
  after_keywords document_id chunks (without_keywords metadata)
  = after_keywords document_id chunks metadata.
Proof. reflexivity. Qed.

Lemma flat_map_length_const {A B : Type} (f : A -> list B) (n : nat) (l : list A) :
  (forall a, length (f a) = n) -> length (flat_map f l) = n * length l.
Proof.
  intros H. induction l as [|a l IH]; simpl; [lia|].
  rewrite length_app, H, IH. lia.
Qed.

End BuilderFacts.

(** ** Entity extraction *)

Module ExtractFacts.

Import RdfGenerator Views.

Lemma last_char_app (prev : option ascii) (a b : str) :
  last_char prev (a ++ b) = last_char (last_char prev a) b.
Proof. unfold last_char. apply fold_left_app. Qed.

Lemma last_char_cons (prev : option ascii) (c : ascii) (s : str) :
  last_char prev (c :: s) = last_char (Some c) s.
Proof. reflexivity. Qed.

Lemma last_default {A : Type} (a : A) (l : list A) (d1 d2 : A) :
  last (a :: l) d1 = last (a :: l) d2.
Proof.
  revert a; induction l as [|b l IH]; intros a; [reflexivity|].
  change (last (b :: l) d1 = last (b :: l) d2). apply IH.
Qed.

Lemma last_char_last (c : ascii) (s : str) :
  last_char (Some c) s = Some (last s c).
Proof.
  revert c; induction s as [|d s IH]; intros c; [reflexivity|].
  rewrite last_char_cons, IH. destruct s as [|a s]; [reflexivity|].
  f_equal. change (last (a :: s) d = last (a :: s) c). apply last_default.
Qed.

Lemma takewhile_dropwhile (f : ascii -> bool) (s : str) :
  takewhile f s ++ dropwhile f s = s.
Proof.
  induction s as [|c s IH]; simpl; [reflexivity|].
  destruct (f c); simpl; [now rewrite IH | reflexivity].
Qed.

Lemma takewhile_forallb (f : ascii -> bool) (s : str) :
  forallb f (takewhile f s) = true.
Proof.
  induction s as [|c s IH]; simpl; [reflexivity|].
  destruct (f c) eqn:E; simpl; [now rewrite E, IH | reflexivity].
Qed.

Lemma forallb_firstn {A : Type} (f : A -> bool) (n : nat) (l : list A) :
  forallb f l = true -> forallb f (firstn n l) = true.
Proof.
  revert n; induction l as [|a l IH]; intros [|n]; simpl; auto.
  rewrite !andb_true_iff. intros [Ha Hl]. auto.
Qed.

Lemma is_upper_word (c : ascii) : is_upper c = true -> is_word c = true.
Proof. unfold is_word. now intros ->. Qed.

Lemma is_lower_word (c : ascii) : is_lower c = true -> is_word c = true.
Proof. unfold is_word. intros ->. now rewrite orb_true_r. Qed.

Lemma word_boundary_after (c : ascii) (next : option ascii) :
  is_word c = true -> word_boundary (Some c) next = true ->
  word_at next = false.
Proof.
  unfold word_boundary; simpl. intros ->. now destruct (word_at next).
Qed.

Lemma word_boundary_before (prev : option ascii) (c : ascii) :
  is_word c = true -> word_boundary prev (Some c) = true ->
  word_at prev = false.
Proof.
  unfold word_boundary; simpl. intros ->. now destruct (word_at prev).
Qed.

(** What a successful [backtrack] returns: a non-empty prefix of the run,
    with a word boundary after it. *)
Lemma backtrack_sound (c : ascii) (lows rest : str) (n : nat) (w : str) :
  forallb is_lower lows = true ->
  n <= length lows ->
  backtrack c lows rest n = Some w ->
  exists taken after : str,
    w = c :: taken /\ lows ++ rest = taken ++ after
    /\ taken <> [] /\ forallb is_lower taken = true
    /\ word_boundary (Some (last taken c)) (hd_error after) = true.
Proof.
  intros Hl. induction n as [|n IH]; [discriminate|].
  intros Hn. cbn [backtrack].
  destruct (word_boundary _ _) eqn:Hb; [|apply IH; lia].
  intros [= <-].
  exists (firstn (S n) lows), (skipn (S n) lows ++ rest).
  repeat split.
  - now rewrite app_assoc, firstn_skipn.
  - destruct lows; [simpl in Hn; lia | discriminate].
  - now apply forallb_firstn.
  - exact Hb.
Qed.

(** What a successful match at the head of [s] returns. *)
Lemma match_here_sound (prev : option ascii) (s w : str) :
  match_here prev s = Some w ->
  exists post : str,
    s = w ++ post /\ is_capitalized w = true
    /\ word_at prev = false /\ word_at (hd_error post) = false.
Proof.
  destruct s as [|c s]; [discriminate|]. cbn [match_here].
  destruct (word_boundary prev (Some c) && is_upper c) eqn:E; [|discriminate].
  apply andb_true_iff in E. destruct E as [Hb Hu].
  intros H.
  apply backtrack_sound in H;
    [| apply takewhile_forallb | apply Nat.le_refl].
  destruct H as (taken & after & -> & Hs & Hne & Hlow & Hafter).
  rewrite takewhile_dropwhile in Hs.
  exists after. repeat split.
  - now rewrite Hs.
  - destruct taken as [|d taken]; [congruence|].
    cbn [is_capitalized]. now rewrite Hu, Hlow.
  - apply (word_boundary_before prev c); auto using is_upper_word.
  - apply (word_boundary_after (last taken c)); [|exact Hafter].
    destruct taken as [|d taken]; [congruence|].
    apply is_lower_word.
    assert (Hin : In (last (d :: taken) c) (d :: taken))
      by (apply (@exists_last _ (d :: taken)) in Hne;
          destruct Hne as (l' & a & ->); rewrite last_last;
          apply in_or_app; right; now left).
    rewrite forallb_forall in Hlow. now apply Hlow.
Qed.

(** Passing over the rest of a match. *)
Lemma findall_from_skip (prev : option ascii) (a b : str) :
  findall_from prev (length a) (a ++ b) = findall_from (last_char prev a) 0 b.
Proof.
  revert prev; induction a as [|c a IH]; intros prev; simpl.
  - destruct b; reflexivity.
  - now rewrite IH.
Qed.

Lemma findall_from_nil (prev : option ascii) (k : nat) :
  findall_from prev k [] = [].
Proof. reflexivity. Qed.

Lemma Occurs_shift (prev : option ascii) (c : ascii) (s : str) (ws : list str) :
  Occurs (Some c) s ws -> Occurs prev (c :: s) ws.
Proof.
  intros H. inversion H as [|? ? w pre post ws' (Hs & Hpre & Hpost) Hc Hrest];
    subst; [constructor|].
  apply (Occurs_cons prev _ w (c :: pre) post); auto.
  repeat split; auto.
Qed.

(** [findall_from] returns capitalized words that occur in the text from left
    to right, without overlap, each as a whole word. *)
Lemma findall_from_sound (n : nat) :
  forall (s : str) (prev : option ascii),
    length s <= n -> Occurs prev s (findall_from prev 0 s).
Proof.
  induction n as [|n IH]; intros [|c s] prev Hlen; try constructor;
    [simpl in Hlen; lia|].
  cbn [findall_from].
  destruct (match_here prev (c :: s)) as [w|] eqn:Hm.
  - destruct (match_here_sound _ _ _ Hm) as (post & Hs & Hcap & Hprev & Hpost).
    destruct w as [|c' taken]; [discriminate|].
    injection Hs as <- ->.
    replace (length (c :: taken) - 1) with (length taken) by (simpl; lia).
    rewrite findall_from_skip.
    apply (Occurs_cons prev _ (c :: taken) [] post); auto.
    + repeat split; auto.
    + apply IH. simpl in Hlen. rewrite length_app in Hlen. lia.
  - apply Occurs_shift, IH. simpl in Hlen; lia.
Qed.

Lemma Occurs_In (prev : option ascii) (s : str) (ws : list str) (w : str) :
  Occurs prev s ws -> In w ws ->
  is_capitalized w = true
  /\ exists pre post : str, delimited prev s w pre post.
Proof.
  induction 1 as [|prev s w0 pre post ws (Hs & Hpre & Hpost) Hc Hrest IH];
    [contradiction|].
  intros [<- | Hin].
  - split; [assumption|]. exists pre, post. repeat split; assumption.
  - destruct (IH Hin) as (Hcap & pre' & post' & Hs' & Hpre' & Hpost').
    split; [assumption|].
    exists (pre ++ w0 ++ pre'), post'. repeat split.
    + rewrite Hs, Hs'. now rewrite <- !app_assoc.
    + now rewrite app_assoc, last_char_app.
    + assumption.
Qed.

(** *** The loop of [extract_entities_simple] *)

Lemma extract_loop_spec (words : list str) (entities : list (str * str))
    (seen : list str) :
  length entities < 5 ->
  extract_loop words entities seen
  = entities
    ++ map (fun w => (w, "Entity" : str))
           (firstn (5 - length entities)
                   (dedup seen (filter longer_than_3 words))).
Proof.
  revert entities seen; induction words as [|w words IH];
    intros entities seen Hlen; cbn [extract_loop filter dedup].
  - now rewrite firstn_nil, app_nil_r.
  - unfold longer_than_3 at 1.
    destruct (3 <? length w) eqn:Hlong; cbn [negb andb].
    + cbn [dedup]. destruct (mem_str w seen) eqn:Hseen; cbn [negb andb].
      * now apply IH.
      * rewrite length_app. cbn [length].
        destruct (5 - length entities) as [|k] eqn:Hk; [lia|].
        cbn [firstn map].
        destruct (5 <=? length entities + 1) eqn:Hfull.
        -- apply Nat.leb_le in Hfull. assert (k = 0) by lia. subst k.
           now rewrite firstn_O.
        -- apply Nat.leb_gt in Hfull.
           rewrite IH by (rewrite length_app; simpl; lia).
           rewrite length_app. cbn [length].
           replace (5 - (length entities + 1)) with k by lia.
           now rewrite <- app_assoc.
    + rewrite andb_false_r. now apply IH.
Qed.

Lemma dedup_In (seen l : list str) (w : str) :
  In w (dedup seen l) -> In w l /\ ~ In w seen.
Proof.
  revert seen; induction l as [|x l IH]; intros seen; cbn [dedup];
    [contradiction|].
  destruct (mem_str x seen) eqn:E.
  - intros H. destruct (IH _ H). split; [now right | assumption].
  - intros [<- | H].
    + split; [now left|]. rewrite <- mem_str_In. congruence.
    + destruct (IH _ H) as [H1 H2]. split; [now right|].
      intros H3. apply H2. now right.
Qed.

Lemma dedup_NoDup (seen l : list str) : NoDup (dedup seen l).
Proof.
  revert seen; induction l as [|x l IH]; intros seen; cbn [dedup];
    [constructor|].
  destruct (mem_str x seen); [apply IH|].
  constructor; [|apply IH].
  intros H. apply dedup_In in H. destruct H as [_ H]. apply H. now left.
Qed.

Lemma firstn_NoDup {A : Type} (n : nat) (l : list A) :
  NoDup l -> NoDup (firstn n l).
Proof.
  intros H. rewrite <- (firstn_skipn n l) in H.
  now apply NoDup_app_remove_r in H.
Qed.

Lemma firstn_In {A : Type} (n : nat) (l : list A) (a : A) :
  In a (firstn n l) -> In a l.
Proof.
  intros H. rewrite <- (firstn_skipn n l). apply in_or_app. now left.
Qed.

End ExtractFacts.

(** ** Dictionaries *)

Module ODictFacts.

Section Facts.
Context {V : Type}.
Implicit Types (d : ODict.odict V) (k : str) (v : V).

Lemma get_set k k' v d :
  ODict.get k (ODict.set k' v d)
  = if str_eqb k k' then Some v else ODict.get k d.
Proof.
  induction d as [|[k0 v0] d IH]; simpl.
  - destruct (str_eqb k k'); reflexivity.
  - destruct (str_eqb k' k0) eqn:E; simpl.
    + apply str_eqb_eq in E. subst k0.
      destruct (str_eqb k k'); reflexivity.
    + rewrite IH. destruct (str_eqb k k0) eqn:E0; [|reflexivity].
      apply str_eqb_eq in E0. subst k0.
      rewrite str_eqb_sym in E. now rewrite E.
Qed.

Lemma mem_keys k d : ODict.mem k d = true <-> In k (ODict.keys d).
Proof.
  unfold ODict.mem. induction d as [|[k0 v0] d IH]; simpl.
  - split; [discriminate | contradiction].
  - destruct (str_eqb k k0) eqn:E.
    + apply str_eqb_eq in E. subst. split; auto.
    + rewrite IH. apply str_eqb_neq in E. split; [auto | intros [H|H]; congruence].
Qed.

Lemma keys_set k v d :
  ODict.keys (ODict.set k v d)
  = if ODict.mem k d then ODict.keys d else ODict.keys d ++ [k].
Proof.
  unfold ODict.mem. induction d as [|[k0 v0] d IH]; simpl; [reflexivity|].
  destruct (str_eqb k k0) eqn:E; simpl; [reflexivity|].
  rewrite IH. now destruct (ODict.get k d).
Qed.

Lemma NoDup_keys_set k v d :
  NoDup (ODict.keys d) -> NoDup (ODict.keys (ODict.set k v d)).
Proof.
  intros H. rewrite keys_set. destruct (ODict.mem k d) eqn:E; [assumption|].
  apply NoDup_app; [assumption | constructor; [easy | constructor] |].
  intros x Hx [<- | []]. apply mem_keys in Hx. congruence.
Qed.

Lemma In_get k v d :
  NoDup (ODict.keys d) -> In (k, v) d -> ODict.get k d = Some v.
Proof.
  induction d as [|[k0 v0] d IH]; simpl; [contradiction|].
  intros Hnd [[= -> ->] | Hin].
  - now rewrite str_eqb_refl.
  - inversion Hnd as [|? ? Hk0 Hnd']; subst.
    destruct (str_eqb k k0) eqn:E; [|now apply IH].
    apply str_eqb_eq in E. subst. exfalso. apply Hk0.
    change k0 with (fst (k0, v)). now apply in_map.
Qed.

Lemma get_In k v d : ODict.get k d = Some v -> In (k, v) d.
Proof.
  induction d as [|[k0 v0] d IH]; simpl; [discriminate|].
  destruct (str_eqb k k0) eqn:E.
  - apply str_eqb_eq in E. intros [= ->]. subst. now left.
  - intros H. right. now apply IH.
Qed.

(** A sum over the entries to which only the entry of [k] contributes. *)
Lemma sum_at_key k (h : V -> nat) d :
  NoDup (ODict.keys d) ->
  list_sum (map (fun e => if str_eqb (fst e) k then h (snd e) else 0) d)
  = match ODict.get k d with Some v => h v | None => 0 end.
Proof.
  induction d as [|[k0 v0] d IH]; simpl; [reflexivity|].
  intros Hnd. inversion Hnd as [|? ? Hk0 Hnd']; subst.
  rewrite (str_eqb_sym k k0). destruct (str_eqb k0 k) eqn:E.
  - apply str_eqb_eq in E. subst k0. rewrite IH by assumption.
    destruct (ODict.get k d) eqn:G; [|lia].
    exfalso. apply Hk0. apply get_In in G.
    change k with (fst (k, v)). now apply in_map.
  - now rewrite IH.
Qed.

End Facts.

End ODictFacts.

(** ** Instance records and restrictions by class *)

Module InstanceFacts.

Import OntologyValidator Views ODictFacts.

Lemma get_ensure_instance (k s : str) (instances : ODict.odict InstanceData) :
  ODict.get k (ensure_instance s instances)
  = if str_eqb k s then Some (data_of instances s) else ODict.get k instances.
Proof.
  unfold ensure_instance, data_of, ODict.get_default, ODict.mem.
  destruct (ODict.get s instances) eqn:G; simpl.
  - destruct (str_eqb k s) eqn:E; [|reflexivity].
    apply str_eqb_eq in E. now subst.
  - apply get_set.
Qed.

Lemma NoDup_keys_ensure_instance (s : str) (instances : ODict.odict InstanceData) :
  NoDup (ODict.keys instances) ->
  NoDup (ODict.keys (ensure_instance s instances)).
Proof.
  unfold ensure_instance. destruct (negb _); [apply NoDup_keys_set | auto].
Qed.

(** The record of [s] after one more triple. *)
Lemma data_of_add_triple (instances : ODict.odict InstanceData) (t : Tuple)
    (s : str) :
  data_of (add_triple instances t) s
  = let '(s0, p0, o0) := t in
    let data := data_of instances s in
    if str_eqb s s0 then
      if str_eqb p0 RDF_TYPE
      then mkInstance (types data ++ [o0]) (inst_properties data)
      else
        let props := inst_properties data in
        let props :=
          if negb (ODict.mem p0 props) then ODict.set p0 [] props else props in
        mkInstance (types data)
          (ODict.set p0 (ODict.get_default p0 [] props ++ [o0]) props)
    else data.
Proof.
  destruct t as [[s0 p0] o0]. cbn [add_triple].
  unfold data_of at 1, ODict.get_default.
  destruct (str_eqb p0 RDF_TYPE);
    rewrite get_set;
    destruct (str_eqb s s0) eqn:E.
  - apply str_eqb_eq in E. subst s0.
    unfold ODict.get_default. rewrite get_ensure_instance, str_eqb_refl.
    reflexivity.
  - rewrite get_ensure_instance, E. reflexivity.
  - apply str_eqb_eq in E. subst s0.
    unfold ODict.get_default. rewrite get_ensure_instance, str_eqb_refl.
    reflexivity.
  - rewrite get_ensure_instance, E. reflexivity.
Qed.

Lemma NoDup_keys_add_triple (instances : ODict.odict InstanceData) (t : Tuple) :
  NoDup (ODict.keys instances) -> NoDup (ODict.keys (add_triple instances t)).
Proof.
  destruct t as [[s0 p0] o0]. cbn [add_triple]. intros H.
  destruct (str_eqb p0 RDF_TYPE);
    apply NoDup_keys_set, NoDup_keys_ensure_instance, H.
Qed.

Lemma build_instances_snoc (triples : list Tuple) (t : Tuple) :
  build_instances (triples ++ [t]) = add_triple (build_instances triples) t.
Proof. unfold build_instances. now rewrite fold_left_app. Qed.

Lemma NoDup_keys_build_instances (triples : list Tuple) :
  NoDup (ODict.keys (build_instances triples)).
Proof.
  induction triples as [|t triples IH] using rev_ind; [constructor|].
  rewrite build_instances_snoc. now apply NoDup_keys_add_triple.
Qed.

Lemma types_of_snoc (s : str) (triples : list Tuple) (s0 p0 o0 : str) :
  types_of s (triples ++ [(s0, p0, o0)])
  = types_of s triples
    ++ (if str_eqb s s0 && str_eqb p0 RDF_TYPE then [o0] else []).
Proof.
  unfold types_of. rewrite filter_app, map_app. f_equal.
  cbn [filter subject_of predicate_of fst snd]. rewrite (str_eqb_sym s0 s).
  now destruct (str_eqb s s0 && str_eqb p0 RDF_TYPE).
Qed.

Lemma values_of_snoc (s p : str) (triples : list Tuple) (s0 p0 o0 : str) :
  values_of s p (triples ++ [(s0, p0, o0)])
  = values_of s p triples
    ++ (if negb (str_eqb p RDF_TYPE) && (str_eqb s s0 && str_eqb p p0)
        then [o0] else []).
Proof.
  unfold values_of. destruct (str_eqb p RDF_TYPE); [reflexivity|].
  rewrite filter_app, map_app. f_equal.
  cbn [filter subject_of predicate_of fst snd negb andb].
  rewrite (str_eqb_sym s0 s), (str_eqb_sym p0 p).
  now destruct (str_eqb s s0 && str_eqb p p0).
Qed.

Lemma get_default_set {V : Type} (k k' : str) (v dflt : V) (d : ODict.odict V) :
  ODict.get_default k dflt (ODict.set k' v d)
  = if str_eqb k k' then v else ODict.get_default k dflt d.
Proof.
  unfold ODict.get_default. rewrite get_set. now destruct (str_eqb k k').
Qed.

(** The instance dictionary groups the triples by subject: the record of
    [s] lists its types and, property by property, its values. *)
Lemma build_instances_spec (triples : list Tuple) (s : str) :
  types (data_of (build_instances triples) s) = types_of s triples
  /\ forall p : str,
       ODict.get_default p [] (inst_properties (data_of (build_instances triples) s))
       = values_of s p triples.
Proof.
  induction triples as [|[[s0 p0] o0] triples [IHt IHv]] using rev_ind.
  - split; [reflexivity|]. intros p. unfold values_of.
    now destruct (str_eqb p RDF_TYPE).
  - rewrite build_instances_snoc, data_of_add_triple.
    rewrite types_of_snoc. cbn zeta.
    destruct (str_eqb s s0) eqn:Es; cbn [andb].
    2:{ split; [now rewrite app_nil_r|]. intros p.
        rewrite values_of_snoc, IHv, Es.
        rewrite andb_false_r. now rewrite app_nil_r. }
    destruct (str_eqb p0 RDF_TYPE) eqn:Ep; cbn [types inst_properties].
    + split; [now rewrite IHt|]. intros p.
      rewrite values_of_snoc, IHv, Es.
      destruct (str_eqb p RDF_TYPE) eqn:Ep'; cbn [negb andb];
        [now rewrite app_nil_r|].
      destruct (str_eqb p p0) eqn:E; [|now rewrite app_nil_r].
      apply str_eqb_eq in E. congruence.
    + split; [now rewrite IHt, app_nil_r|]. intros p.
      rewrite values_of_snoc, Es, get_default_set.
      destruct (str_eqb p p0) eqn:E.
      * apply str_eqb_eq in E. subst p0. rewrite Ep. cbn [negb andb].
        f_equal. rewrite <- IHv.
        destruct (negb _) eqn:M; [|reflexivity].
        rewrite get_default_set, str_eqb_refl.
        unfold ODict.get_default, ODict.mem in *.
        now destruct (ODict.get p _).
      * rewrite andb_false_r, app_nil_r, <- IHv.
        destruct (negb _); [|reflexivity].
        now rewrite get_default_set, E.
Qed.

End InstanceFacts.

(** ** The cardinality check *)

Module CardinalityFacts.

Import OntologyValidator Views ODictFacts InstanceFacts.

Lemma for_each_append {A B : Type} (body : list B -> A -> result (list B))
    (f : A -> list B) (l : list A) (st : list B) :
  (forall a st, In a l -> body st a = Ok (st ++ f a)) ->
  for_each body l st = Ok (st ++ flat_map f l).
Proof.
  revert st; induction l as [|a l IH]; intros st H; simpl.
  - now rewrite app_nil_r.
  - rewrite H by now left. simpl. rewrite IH by (intros; apply H; now right).
    now rewrite app_assoc.
Qed.

Lemma restrictions_by_class_snoc (cs : list ClassDef) (ps : list PropertyDef)
    (l : list Restriction) (r : Restriction) :
  restrictions_by_class (mkModel cs ps (l ++ [r]))
  = let by_class := restrictions_by_class (mkModel cs ps l) in
    let class_uri := restr_class r in
    let by_class :=
      if negb (ODict.mem class_uri by_class)
      then ODict.set class_uri [] by_class else by_class in
    ODict.set class_uri
      (ODict.get_default class_uri [] by_class ++ [r]) by_class.
Proof. unfold restrictions_by_class. cbn [restrictions]. now rewrite fold_left_app. Qed.

(** The dictionary [restrictions_by_class] lists, class by class, the
    restrictions of the schema in their order. *)
Lemma restrictions_by_class_spec (model : OntologyModel) (c : str) :
  ODict.get_default c [] (restrictions_by_class model) = restrictions_of c model.
Proof.
  destruct model as [cs ps rs]. unfold restrictions_of. cbn [restrictions].
  induction rs as [|r rs IH] using rev_ind; [reflexivity|].
  rewrite restrictions_by_class_snoc, filter_app. cbn zeta.
  rewrite get_default_set. cbn [filter].
  rewrite (str_eqb_sym (restr_class r) c).
  destruct (str_eqb c (restr_class r)) eqn:E.
  - apply str_eqb_eq in E. subst c. f_equal. rewrite <- IH.
    destruct (negb _) eqn:M; [|reflexivity].
    rewrite get_default_set, str_eqb_refl.
    unfold ODict.get_default, ODict.mem in *.
    now destruct (ODict.get (restr_class r) _).
  - rewrite app_nil_r, <- IH.
    destruct (negb _); [|reflexivity].
    now rewrite get_default_set, E.
Qed.

Lemma cardinality_restriction_ok (uri : str) (data : InstanceData)
    (violations : list Issue) (r : Restriction) :
  value_parses r = true ->
  cardinality_restriction uri data violations r
  = Ok (violations ++ restriction_issues uri data r).
Proof.
  unfold value_parses, restriction_issues, cardinality_restriction.
  intros Hv.
  destruct (str_eqb (restr_restrictionType r) "cardinality"
            && str_eqb (restr_value r) "1").
  - destruct (negb (_ =? 1)); simpl; now rewrite ?app_nil_r.
  - destruct (str_eqb (restr_restrictionType r) "minCardinality");
      [|now rewrite app_nil_r].
    destruct (py_int (restr_value r)); [|discriminate].
    destruct (_ <? _)%Z; simpl; now rewrite ?app_nil_r.
Qed.

Lemma minimums_parse_In (model : OntologyModel) (r : Restriction) :
  minimums_parse model = true -> In r (restrictions model) ->
  value_parses r = true.
Proof.
  unfold minimums_parse. rewrite forallb_forall. intros H Hin. now apply H.
Qed.

Lemma cardinality_type_ok (model : OntologyModel) (uri : str)
    (data : InstanceData) (violations : list Issue) (c : str) :
  minimums_parse model = true ->
  cardinality_type (restrictions_by_class model) uri data violations c
  = Ok (violations
        ++ flat_map (restriction_issues uri data) (restrictions_of c model)).
Proof.
  intros Hm. unfold cardinality_type.
  rewrite <- restrictions_by_class_spec. unfold ODict.get_default.
  destruct (ODict.get c (restrictions_by_class model)) as [rs|] eqn:G.
  - apply for_each_append. intros r st Hin.
    apply cardinality_restriction_ok, (minimums_parse_In model); [assumption|].
    assert (E : rs = restrictions_of c model).
    { rewrite <- restrictions_by_class_spec. unfold ODict.get_default.
      now rewrite G. }
    rewrite E in Hin. unfold restrictions_of in Hin.
    now apply filter_In in Hin.
  - simpl. now rewrite app_nil_r.
Qed.

(** When every [minCardinality] value parses, the cardinality check
    completes and appends the issues of the instances in order. *)
Lemma check_cardinality_ok (model : OntologyModel)
    (instances : ODict.odict InstanceData) (violations : list Issue) :
  minimums_parse model = true ->
  check_cardinality model instances violations
  = Ok (violations ++ flat_map (instance_issues model) instances).
Proof.
  intros Hm. unfold check_cardinality.
  apply for_each_append. intros [uri data] st _. cbn [fst snd].
  unfold instance_issues. cbn [fst snd].
  apply for_each_append. intros c st' _. now apply cardinality_type_ok.
Qed.

Lemma validate_against_ontology_ok (triples : list Tuple) (model : OntologyModel) :
  minimums_parse model = true ->
  exists res : ValidationResult,
    validate_against_ontology triples model = Ok res
    /\ violations res = flat_map (instance_issues model) (build_instances triples)
    /\ warnings res
       = check_property_domains model (build_instances triples)
           (check_class_membership model (build_instances triples) []).
Proof.
  intros Hm. unfold validate_against_ontology.
  rewrite check_cardinality_ok by assumption. simpl.
  eexists. split; [reflexivity|]. split; reflexivity.
Qed.

(** A subject with a declared type has a record in the dictionary. *)
Lemma instance_entry (triples : list Tuple) (s c : str) :
  In c (types_of s triples) ->
  In (s, data_of (build_instances triples) s) (build_instances triples).
Proof.
  intros Hin. apply get_In.
  destruct (build_instances_spec triples s) as [Ht _].
  unfold data_of, ODict.get_default in *.
  destruct (ODict.get s (build_instances triples)); [reflexivity|].
  cbn in Ht. rewrite <- Ht in Hin. contradiction.
Qed.

Lemma entry_data (triples : list Tuple) (k : str) (d : InstanceData) :
  In (k, d) (build_instances triples) -> d = data_of (build_instances triples) k.
Proof.
  intros Hin. apply In_get in Hin; [|apply NoDup_keys_build_instances].
  unfold data_of, ODict.get_default. now rewrite Hin.
Qed.

Lemma types_of_In (triples : list Tuple) (s c : str) :
  In c (types_of s triples) <-> In (s, RDF_TYPE, c) triples.
Proof.
  unfold types_of. rewrite in_map_iff. split.
  - intros ([[s' p'] o'] & <- & Hin). apply filter_In in Hin.
    destruct Hin as [Hin Hb]. cbn in Hb. apply andb_true_iff in Hb.
    destruct Hb as [Hs Hp]. apply str_eqb_eq in Hs, Hp. cbn. now subst.
  - intros Hin. exists (s, RDF_TYPE, c). split; [reflexivity|].
    apply filter_In. split; [assumption|].
    cbn [subject_of predicate_of fst snd]. now rewrite !str_eqb_refl.
Qed.

Lemma prop_count_spec (triples : list Tuple) (s p : str) :
  prop_count (data_of (build_instances triples) s) p
  = length (values_of s p triples).
Proof.
  unfold prop_count. destruct (build_instances_spec triples s) as [_ Hv].
  now rewrite Hv.
Qed.

Lemma flat_map_filter_length {A B : Type} (m : B -> bool) (f : A -> list B)
    (l : list A) :
  length (filter m (flat_map f l))
  = list_sum (map (fun a => length (filter m (f a))) l).
Proof.
  induction l as [|a l IH]; simpl; [reflexivity|].
  now rewrite filter_app, length_app, IH.
Qed.

Lemma list_sum_map_ext {A : Type} (f g : A -> nat) (l : list A) :
  (forall a, In a l -> f a = g a) -> list_sum (map f l) = list_sum (map g l).
Proof.
  induction l as [|a l IH]; intros H; simpl; [reflexivity|].
  rewrite H by now left. rewrite IH; [reflexivity|]. intros; apply H; now right.
Qed.

Lemma list_sum_map_zero {A : Type} (l : list A) :
  list_sum (map (fun _ => 0) l) = 0.
Proof. induction l; simpl; auto. Qed.

(** The [cardinality_violation] issues one restriction contributes about
    [(s, p)] for the record [data] of instance [uri]. *)
Lemma restriction_issues_about (uri s p : str) (data : InstanceData)
    (r : Restriction) :
  length (filter (issue_about "cardinality_violation" s p)
                 (restriction_issues uri data r))
  = if str_eqb uri s && is_cardinality_one_on p r
       && negb (prop_count data p =? 1)
    then 1 else 0.
Proof.
  unfold restriction_issues, cardinality_restriction, is_cardinality_one_on.
  destruct (str_eqb (restr_restrictionType r) "cardinality") eqn:Et.
  - cbn [andb]. destruct (str_eqb (restr_value r) "1"); cbn [andb].
    + destruct (str_eqb (restr_property r) p) eqn:Ep.
      * apply str_eqb_eq in Ep. subst p.
        destruct (negb (_ =? 1)); cbn [app filter]; unfold issue_about;
          cbn [issue_type issue_instance issue_property].
        -- rewrite !str_eqb_refl, !andb_true_r. cbn [andb].
           now destruct (str_eqb uri s).
        -- now rewrite andb_false_r.
      * rewrite andb_false_r. cbn [andb].
        destruct (negb (_ =? 1)); [|reflexivity].
        cbn [app filter]; unfold issue_about;
          cbn [issue_type issue_instance issue_property].
        rewrite Ep. now rewrite !andb_false_r.
    + rewrite andb_false_r. cbn [andb].
      apply str_eqb_eq in Et. rewrite Et. cbn [str_eqb Ascii.eqb].
      reflexivity.
  - cbn [andb]. rewrite andb_false_r. cbn [andb].
    destruct (str_eqb (restr_restrictionType r) "minCardinality");
      [|reflexivity].
    destruct (py_int (restr_value r)); [|reflexivity].
    destruct (_ <? _)%Z; reflexivity.
Qed.

Lemma list_sum_guard {A : Type} (b : bool) (f : A -> bool) (l : list A) :
  list_sum (map (fun a => if b && f a then 1 else 0) l)
  = if b then length (filter f l) else 0.
Proof.
  destruct b; cbn [andb]; [|apply list_sum_map_zero].
  induction l as [|a l IH]; simpl; [reflexivity|].
  rewrite IH. now destruct (f a).
Qed.

Lemma instance_issues_about (model : OntologyModel) (uri s p : str)
    (data : InstanceData) :
  length (filter (issue_about "cardinality_violation" s p)
                 (instance_issues model (uri, data)))
  = if str_eqb uri s
    then if negb (prop_count data p =? 1)
         then list_sum
                (map (fun c => length (filter (is_cardinality_one_on p)
                                              (restrictions_of c model)))
                     (types data))
         else 0
    else 0.
Proof.
  unfold instance_issues. cbn [fst snd]. rewrite flat_map_filter_length.
  rewrite (list_sum_map_ext _
    (fun c => if str_eqb uri s && negb (prop_count data p =? 1)
              then length (filter (is_cardinality_one_on p)
                                  (restrictions_of c model))
              else 0)).
  - destruct (str_eqb uri s); cbn [andb]; [|apply list_sum_map_zero].
    destruct (negb _); [reflexivity | apply list_sum_map_zero].
  - intros c _. rewrite flat_map_filter_length.
    rewrite (list_sum_map_ext _
      (fun r => if (str_eqb uri s && negb (prop_count data p =? 1))
                   && is_cardinality_one_on p r then 1 else 0)).
    + apply list_sum_guard.
    + intros r _. rewrite restriction_issues_about.
      now destruct (str_eqb uri s), (is_cardinality_one_on p r),
        (negb (prop_count data p =? 1)).
Qed.

(** The [cardinality_violation] issues about [(s, p)] among the violations
    of all instances. *)
Lemma violations_about (model : OntologyModel) (triples : list Tuple)
    (s p : str) :
  length (filter (issue_about "cardinality_violation" s p)
                 (flat_map (instance_issues model) (build_instances triples)))
  = if length (values_of s p triples) =? 1 then 0
    else cardinality_one_pairs s p triples model.
Proof.
  rewrite flat_map_filter_length.
  pose (h := fun d : InstanceData =>
          if negb (prop_count d p =? 1)
          then list_sum
                 (map (fun c => length (filter (is_cardinality_one_on p)
                                               (restrictions_of c model)))
                      (types d))
          else 0).
  rewrite (list_sum_map_ext _
    (fun e => if str_eqb (fst e) s then h (snd e) else 0))
    by (intros [uri data] _; apply instance_issues_about).
  rewrite (sum_at_key s h) by apply NoDup_keys_build_instances.
  unfold cardinality_one_pairs.
  destruct (build_instances_spec triples s) as [Ht _].
  rewrite <- Ht, <- prop_count_spec.
  unfold data_of, ODict.get_default, h.
  destruct (ODict.get s (build_instances triples)) as [d|].
  - now destruct (prop_count d p =? 1).
  - cbn. reflexivity.
Qed.

End CardinalityFacts.

(** ** The restrictions the cardinality check comes to *)

Module ReachFacts.

Import OntologyValidator Views ODictFacts InstanceFacts CardinalityFacts.

Lemma declared_classes_In (triples : list Tuple) (c : str) :
  mem_str c (declared_classes triples) = true
  <-> exists s : str, In (s, RDF_TYPE, c) triples.
Proof.
  rewrite mem_str_In. unfold declared_classes. rewrite in_map_iff. split.
  - intros ([[s p] o] & <- & Hin). apply filter_In in Hin.
    destruct Hin as [Hin Hp]. cbn in Hp. apply str_eqb_eq in Hp. subst p.
    now exists s.
  - intros (s & Hin). exists (s, RDF_TYPE, c). split; [reflexivity|].
    apply filter_In. split; [assumption|].
    cbn [predicate_of fst snd]. apply str_eqb_refl.
Qed.

(** A type of an instance record is a declared class. *)
Lemma entry_types_declared (triples : list Tuple) (uri : str)
    (data : InstanceData) (c : str) :
  In (uri, data) (build_instances triples) -> In c (types data) ->
  mem_str c (declared_classes triples) = true.
Proof.
  intros Hin Hc. apply entry_data in Hin. subst data.
  destruct (build_instances_spec triples uri) as [Ht _]. rewrite Ht in Hc.
  apply declared_classes_In. exists uri. now apply types_of_In.
Qed.

Lemma reached_minimums_parse_In (triples : list Tuple) (model : OntologyModel)
    (r : Restriction) :
  reached_minimums_parse triples model = true ->
  In r (restrictions model) ->
  mem_str (restr_class r) (declared_classes triples) = true ->
  value_parses r = true.
Proof.
  unfold reached_minimums_parse, reached. rewrite forallb_forall.
  intros H Hin Hc. specialize (H r Hin). now rewrite Hc in H.
Qed.

Lemma minimums_parse_reached (triples : list Tuple) (model : OntologyModel) :
  minimums_parse model = true -> reached_minimums_parse triples model = true.
Proof.
  unfold minimums_parse, reached_minimums_parse. rewrite !forallb_forall.
  intros H r Hin. rewrite (H r Hin). apply orb_true_r.
Qed.

Lemma cardinality_type_reached (triples : list Tuple) (model : OntologyModel)
    (uri : str) (data : InstanceData) (violations : list Issue) (c : str) :
  reached_minimums_parse triples model = true ->
  mem_str c (declared_classes triples) = true ->
  cardinality_type (restrictions_by_class model) uri data violations c
  = Ok (violations
        ++ flat_map (restriction_issues uri data) (restrictions_of c model)).
Proof.
  intros Hm Hc. unfold cardinality_type.
  rewrite <- restrictions_by_class_spec. unfold ODict.get_default.
  destruct (ODict.get c (restrictions_by_class model)) as [rs|] eqn:G.
  - apply for_each_append. intros r st Hin.
    assert (E : rs = restrictions_of c model).
    { rewrite <- restrictions_by_class_spec. unfold ODict.get_default.
      now rewrite G. }
    rewrite E in Hin. unfold restrictions_of in Hin.
    apply filter_In in Hin. destruct Hin as [Hin Hr].
    apply str_eqb_eq in Hr.
    apply cardinality_restriction_ok,
      (reached_minimums_parse_In triples model); try assumption.
    now rewrite Hr.
  - simpl. now rewrite app_nil_r.
Qed.

(** When [int] accepts every minimum the check comes to, the check
    completes and appends the issues of the instances in order. *)
Lemma check_cardinality_reached (triples : list Tuple) (model : OntologyModel)
    (violations : list Issue) :
  reached_minimums_parse triples model = true ->
  check_cardinality model (build_instances triples) violations
  = Ok (violations
        ++ flat_map (instance_issues model) (build_instances triples)).
Proof.
  intros Hm. unfold check_cardinality.
  apply for_each_append. intros [uri data] st Hin. cbn [fst snd].
  unfold instance_issues. cbn [fst snd].
  apply for_each_append. intros c st' Hc.
  apply (cardinality_type_reached triples); [assumption|].
  now apply (entry_types_declared triples uri data).
Qed.

Lemma validate_against_ontology_reached (triples : list Tuple)
    (model : OntologyModel) :
  reached_minimums_parse triples model = true ->
  exists res : ValidationResult,
    validate_against_ontology triples model = Ok res
    /\ violations res = flat_map (instance_issues model) (build_instances triples)
    /\ warnings res
       = check_property_domains model (build_instances triples)
           (check_class_membership model (build_instances triples) []).
Proof.
  intros Hm. unfold validate_against_ontology.
  rewrite (check_cardinality_reached triples) by assumption. simpl.
  eexists. split; [reflexivity|]. split; reflexivity.
Qed.

(** *** When the check raises *)

(** A loop raises when the body raises on one of the elements, whatever
    the state; and what a loop raises, its body raised on an element. *)
Lemma for_each_raises {A S : Type} (body : S -> A -> result S) (l : list A)
    (a : A) :
  In a l -> (forall st : S, exists e : exn, body st a = Raise e) ->
  forall st : S, exists e : exn, for_each body l st = Raise e.
Proof.
  intros Hin Hr. induction l as [|x l IH]; [contradiction|].
  intros st. cbn [for_each].
  destruct (body st x) as [st'|e] eqn:E; cbn [bind]; [|now exists e].
  destruct Hin as [->|Hin]; [|now apply IH].
  destruct (Hr st) as (e & He). congruence.
Qed.

Lemma for_each_raise_inv {A S : Type} (body : S -> A -> result S)
    (l : list A) (st : S) (e : exn) :
  for_each body l st = Raise e ->
  exists (a : A) (st' : S), In a l /\ body st' a = Raise e.
Proof.
  revert st. induction l as [|x l IH]; intros st; cbn [for_each];
    [discriminate|].
  destruct (body st x) as [st'|e'] eqn:E; cbn [bind].
  - intros H. destruct (IH _ H) as (a & st0 & Hin & Ha).
    exists a, st0. split; [now right | assumption].
  - intros [= <-]. exists x, st. split; [now left | assumption].
Qed.

(** The one way the body of the innermost loop raises. *)
Lemma cardinality_restriction_raises (uri : str) (data : InstanceData)
    (violations : list Issue) (r : Restriction) (e : exn) :
  cardinality_restriction uri data violations r = Raise e <->
  value_parses r = false /\ e = ValueError (int_error (restr_value r)).
Proof.
  unfold cardinality_restriction, value_parses.
  destruct (str_eqb (restr_restrictionType r) "cardinality"
            && str_eqb (restr_value r) "1") eqn:E1.
  - apply andb_true_iff in E1. destruct E1 as [E1 _].
    apply str_eqb_eq in E1. rewrite E1. cbn [str_eqb Ascii.eqb andb negb orb].
    destruct (negb (_ =? 1)); split; try discriminate; intros [? _];
      discriminate.
  - destruct (str_eqb (restr_restrictionType r) "minCardinality");
      cbn [negb orb].
    + destruct (py_int (restr_value r)).
      * destruct (_ <? _)%Z; split; try discriminate; intros [? _];
          discriminate.
      * split; [now intros [= <-] | now intros [_ ->]].
    + split; [discriminate | intros [? _]; discriminate].
Qed.

Lemma restrictions_by_class_get (model : OntologyModel) (c : str)
    (r : Restriction) :
  In r (restrictions model) -> restr_class r = c ->
  exists rs : list Restriction,
    ODict.get c (restrictions_by_class model) = Some rs /\ In r rs.
Proof.
  intros Hin Hc.
  assert (Hr : In r (restrictions_of c model)).
  { unfold restrictions_of. apply filter_In. split; [assumption|].
    now apply str_eqb_eq. }
  rewrite <- restrictions_by_class_spec in Hr. unfold ODict.get_default in Hr.
  destruct (ODict.get c (restrictions_by_class model)) as [rs|];
    [now exists rs | contradiction].
Qed.

Lemma restrictions_by_class_In (model : OntologyModel) (c : str)
    (rs : list Restriction) (r : Restriction) :
  ODict.get c (restrictions_by_class model) = Some rs -> In r rs ->
  In r (restrictions model) /\ restr_class r = c.
Proof.
  intros G Hin.
  assert (E : rs = restrictions_of c model).
  { rewrite <- restrictions_by_class_spec. unfold ODict.get_default.
    now rewrite G. }
  rewrite E in Hin. unfold restrictions_of in Hin. apply filter_In in Hin.
  destruct Hin as [Hin Hc]. now apply str_eqb_eq in Hc.
Qed.

Lemma forallb_false {A : Type} (f : A -> bool) (l : list A) :
  forallb f l = false -> exists x : A, In x l /\ f x = false.
Proof.
  induction l as [|x l IH]; cbn [forallb]; [discriminate|].
  destruct (f x) eqn:E; cbn [andb].
  - intros H. destruct (IH H) as (y & Hin & Hy). exists y.
    split; [now right | assumption].
  - intros _. exists x. split; [now left | assumption].
Qed.

(** The check raises exactly when [int] refuses a minimum it comes to, and
    what it raises is the error of [int] on such a minimum. *)
Lemma check_cardinality_raises (triples : list Tuple) (model : OntologyModel)
    (violations : list Issue) :
  reached_minimums_parse triples model = false ->
  exists r : Restriction,
    In r (restrictions model)
    /\ reached triples r = true
    /\ value_parses r = false
    /\ check_cardinality model (build_instances triples) violations
       = Raise (ValueError (int_error (restr_value r))).
Proof.
  intros Hm.
  assert (Hex : exists e : exn,
            check_cardinality model (build_instances triples) violations
            = Raise e).
  { unfold reached_minimums_parse in Hm. apply forallb_false in Hm.
    destruct Hm as (r & Hin & Hr). apply orb_false_iff in Hr.
    destruct Hr as [Hc Hv]. apply negb_false_iff in Hc. unfold reached in Hc.
    apply declared_classes_In in Hc. destruct Hc as (s & Hs).
    apply types_of_In in Hs.
    destruct (restrictions_by_class_get model (restr_class r) r Hin eq_refl)
      as (rs & G & Hrs).
    unfold check_cardinality.
    apply (for_each_raises _ _ (s, data_of (build_instances triples) s)).
    - now apply (instance_entry triples s (restr_class r)).
    - cbn [fst snd]. apply (for_each_raises _ _ (restr_class r)).
      + destruct (build_instances_spec triples s) as [Ht _]. now rewrite Ht.
      + intros st. unfold cardinality_type. rewrite G.
        apply (for_each_raises _ _ r); [assumption|].
        intros st'. eexists. apply cardinality_restriction_raises.
        split; [assumption | reflexivity]. }
  destruct Hex as (e & He). pose proof He as He'.
  unfold check_cardinality in He'.
  apply for_each_raise_inv in He'.
  destruct He' as ([uri data] & st1 & Hin1 & H1). cbn [fst snd] in H1.
  apply for_each_raise_inv in H1. destruct H1 as (c & st2 & Hin2 & H2).
  unfold cardinality_type in H2.
  destruct (ODict.get c (restrictions_by_class model)) as [rs|] eqn:G;
    [|discriminate].
  apply for_each_raise_inv in H2. destruct H2 as (r & st3 & Hin3 & H3).
  apply cardinality_restriction_raises in H3. destruct H3 as [Hv ->].
  destruct (restrictions_by_class_In model c rs r G Hin3) as [Hr Hc].
  exists r. repeat split; try assumption.
  unfold reached. rewrite Hc.
  now apply (entry_types_declared triples uri data).
Qed.

Lemma validate_against_ontology_raises (triples : list Tuple)
    (model : OntologyModel) :
  reached_minimums_parse triples model = false ->
  exists r : Restriction,
    In r (restrictions model)
    /\ reached triples r = true
    /\ value_parses r = false
    /\ validate_against_ontology triples model
       = Raise (ValueError (int_error (restr_value r))).
Proof.
  intros Hm.
  destruct (check_cardinality_raises triples model [] Hm)
    as (r & Hin & Hr & Hv & Hc).
  exists r. repeat split; try assumption.
  unfold validate_against_ontology. cbn zeta. now rewrite Hc.
Qed.

End ReachFacts.

(** ** The validator on the empty schema *)

Module ValidatorFacts.

Import OntologyValidator.

Lemma fold_left_unchanged {A S : Type} (f : S -> A -> S) (l : list A) (st : S) :
  (forall st a, f st a = st) -> fold_left f l st = st.
Proof.
  intros H. induction l as [|a l IH]; simpl; [reflexivity|]. now rewrite H.
Qed.

Lemma for_each_unchanged {A S : Type} (body : S -> A -> result S) (l : list A)
    (st : S) :
  (forall st a, In a l -> body st a = Ok st) -> for_each body l st = Ok st.
Proof.
  induction l as [|a l IH]; intros H; simpl; [reflexivity|].
  rewrite H by now left. simpl. apply IH. intros; apply H; now right.
Qed.

Lemma check_class_membership_no_classes (instances : ODict.odict InstanceData)
    (warnings : list Issue) (props : list PropertyDef) (rs : list Restriction) :
  check_class_membership (mkModel [] props rs) instances warnings = warnings.
Proof.
  unfold check_class_membership. apply fold_left_unchanged.
  intros w entry. apply fold_left_unchanged. intros w' c.
  unfold class_membership_type, defined_classes.
  destruct (startswith _ c); reflexivity.
Qed.

Lemma check_property_domains_no_properties
    (instances : ODict.odict InstanceData) (warnings : list Issue)
    (cs : list ClassDef) (rs : list Restriction) :
  check_property_domains (mkModel cs [] rs) instances warnings = warnings.
Proof.
  unfold check_property_domains. apply fold_left_unchanged.
  intros w entry. apply fold_left_unchanged. intros w' [p vs]. reflexivity.
Qed.

Lemma check_cardinality_no_restrictions
    (instances : ODict.odict InstanceData) (violations : list Issue)
    (cs : list ClassDef) (ps : list PropertyDef) :
  check_cardinality (mkModel cs ps []) instances violations = Ok violations.
Proof.
  unfold check_cardinality. apply for_each_unchanged.
  intros v entry _. apply for_each_unchanged. intros v' c _. reflexivity.
Qed.

(** What [handler] returns once validation has completed. *)
Lemma handler_completed (content : str) (model : OntologyModel)
    (res : ValidationResult) :
  validate_against_ontology (parse_turtle_simple content) model = Ok res ->
  handler (Ok content) model = completed_result res.
Proof. unfold handler; simpl. now intros ->. Qed.

End ValidatorFacts.

(** ** The parser *)

Module ParserFacts.

Import RdfGenerator OntologyValidator Views.

(** One step of the loop adds the triple of the line, if any, and never
    reads or changes [current_subject]. *)
Lemma parse_line_spec (triples : list Tuple) (current_subject : option str)
    (line : str) :
  parse_line (triples, current_subject) line
  = (triples ++ line_triples line, current_subject).
Proof.
  unfold parse_line, line_triples, recognised_line.
  destruct (strip line) as [|c stripped] eqn:Es; cbn [blank_or_skipped orb].
  - now rewrite app_nil_r.
  - change (startswith "#" (c :: stripped)) with (Ascii.eqb "#" c && true).
    change (startswith "@" (c :: stripped)) with (Ascii.eqb "@" c && true).
    rewrite !andb_true_r.
    rewrite (Ascii.eqb_sym "#" c), (Ascii.eqb_sym "@" c).
    destruct (Ascii.eqb c "#" || Ascii.eqb c "@"); [now rewrite app_nil_r|].
    destruct (split_ws (c :: stripped)) as [|p0 [|p1 [|p2 rest]]];
      cbn [length Nat.leb]; try now rewrite app_nil_r.
    destruct (startswith "<" p0 && startswith "<" p1);
      [reflexivity | now rewrite app_nil_r].
Qed.

Lemma fold_parse_line (lines : list str) (triples : list Tuple)
    (current_subject : option str) :
  fold_left parse_line lines (triples, current_subject)
  = (triples ++ flat_map line_triples lines, current_subject).
Proof.
  revert triples; induction lines as [|l lines IH]; intros triples;
    cbn [fold_left flat_map].
  - now rewrite app_nil_r.
  - rewrite parse_line_spec, IH. now rewrite <- app_assoc.
Qed.

(** The parser reads line by line. *)
Lemma parse_turtle_simple_lines (content : str) :
  parse_turtle_simple content
  = flat_map line_triples (split_char newline content).
Proof. unfold parse_turtle_simple. now rewrite fold_parse_line. Qed.

Lemma parse_turtle_simple_app (a b : str) :
  parse_turtle_simple (a ++ newline :: b)
  = parse_turtle_simple a ++ parse_turtle_simple b.
Proof.
  rewrite !parse_turtle_simple_lines, split_char_app. apply flat_map_app.
Qed.

Lemma parse_turtle_simple_joined (lines : list str) :
  Forall (fun l => no_newline l = true) lines ->
  parse_turtle_simple (join [newline] lines) = flat_map line_triples lines.
Proof.
  induction 1 as [|l lines Hl Hls IH]; [reflexivity|].
  destruct lines as [|l' lines].
  - cbn [join flat_map]. rewrite parse_turtle_simple_lines.
    rewrite split_char_none by exact Hl. reflexivity.
  - change (join [newline] (l :: l' :: lines))
      with (l ++ newline :: join [newline] (l' :: lines)).
    rewrite parse_turtle_simple_app, IH.
    rewrite parse_turtle_simple_lines, split_char_none by exact Hl.
    cbn [flat_map]. now rewrite app_nil_r.
Qed.

(** A line whose first character after the indentation is not an opening
    angle bracket stands for no triple. *)
Lemma recognised_line_first_char (line : str) (c : ascii) (rest : str) :
  dropwhile is_space line = c :: rest ->
  Ascii.eqb c "<" = false ->
  recognised_line line = None.
Proof.
  intros Hd Hc. unfold recognised_line, strip, strip_by, lstrip_by.
  rewrite Hd.
  assert (Hsp : is_space c = false).
  { clear Hc. revert Hd. induction line as [|x line IH]; cbn [dropwhile];
      [discriminate|].
    destruct (is_space x) eqn:Ex; [exact IH|]. now intros [= <- _]. }
  rewrite rstrip_by_cons by exact Hsp. cbn [blank_or_skipped].
  destruct (Ascii.eqb c "#" || Ascii.eqb c "@"); [reflexivity|].
  destruct (split_ws_head c (rstrip_by is_space rest) Hsp) as (w & ws & ->).
  destruct ws as [|p1 [|p2 ws]]; try reflexivity.
  change (startswith "<" (c :: w)) with (Ascii.eqb "<" c && true).
  rewrite Ascii.eqb_sym, Hc. reflexivity.
Qed.

(** *** Lines of the fully-qualified form *)

Lemma strip_by_wrap (f : ascii -> bool) (a s b : str) :
  forallb f a = true -> forallb f b = true ->
  strip_by f (a ++ s ++ b) = strip_by f s.
Proof.
  intros Ha Hb. unfold strip_by, lstrip_by. rewrite dropwhile_all by exact Ha.
  induction s as [|c s IH]; cbn [app dropwhile].
  - rewrite <- (app_nil_r b) at 1. rewrite dropwhile_all by exact Hb.
    reflexivity.
  - destruct (f c); [exact IH|].
    change (c :: s ++ b) with ((c :: s) ++ b). now apply rstrip_by_all.
Qed.

Lemma no_space_app (a b : str) :
  no_space (a ++ b) = no_space a && no_space b.
Proof. apply forallb_app. Qed.

Lemma no_newline_app (a b : str) :
  no_newline (a ++ b) = no_newline a && no_newline b.
Proof. apply forallb_app. Qed.

Lemma no_space_no_newline (s : str) : no_space s = true -> no_newline s = true.
Proof.
  unfold no_space, no_newline. rewrite !forallb_forall. intros H c Hc.
  specialize (H c Hc). destruct (Ascii.eqb c newline) eqn:E; [|reflexivity].
  apply Ascii.eqb_eq in E. subst c. discriminate H.
Qed.

Lemma forallb_skipn {A : Type} (f : A -> bool) (n : nat) (l : list A) :
  forallb f l = true -> forallb f (skipn n l) = true.
Proof.
  revert n; induction l as [|a l IH]; intros [|n]; simpl; auto.
  rewrite andb_true_iff. intros [_ H]. auto.
Qed.

Lemma format_uri_full_bracketed (uri : str) :
  no_space uri = true ->
  exists body : str,
    format_uri_full uri = "<"%char :: body /\ no_space body = true.
Proof.
  intros H. unfold format_uri_full.
  repeat match goal with
         | |- context [if ?b then _ else _] => destruct b
         end;
    eexists; (split; [reflexivity|]);
    rewrite ?no_space_app; unfold no_space at 1;
    repeat (apply andb_true_iff; split); try reflexivity;
    try (apply forallb_skipn; exact H); try exact H;
    rewrite ?no_space_app;
    repeat (apply andb_true_iff; split); try reflexivity;
    try (apply forallb_skipn; exact H); exact H.
Qed.

Lemma nt_predicate_bracketed (p : str) :
  no_space p = true ->
  exists body : str, nt_predicate p = "<"%char :: body /\ no_space body = true.
Proof.
  intros H. unfold nt_predicate.
  destruct (startswith "<" p) eqn:E; cbn [negb].
  - destruct p as [|c p]; [discriminate|].
    change (startswith "<" (c :: p)) with (Ascii.eqb "<" c && true) in E.
    rewrite andb_true_r in E. apply Ascii.eqb_eq in E. subst c.
    exists p. split; [reflexivity|].
    unfold no_space in *. cbn [forallb] in H.
    now apply andb_true_iff in H.
  - now apply format_uri_full_bracketed.
Qed.

Lemma nt_object_no_newline (o : str) :
  no_newline o = true -> no_newline (nt_object o) = true.
Proof.
  intros H. unfold nt_object.
  destruct (negb _ && negb _); [|exact H].
  change ("<" ++ o ++ ">") with ("<"%char :: o ++ [">"%char]).
  unfold no_newline in *. cbn [forallb]. rewrite forallb_app, H. reflexivity.
Qed.

(** A statement line [S P O .] with bracketed, whitespace-free [S] and [P]
    stands for one triple. *)
Lemma recognised_statement (S' P' O : str) :
  no_space S' = true -> no_space P' = true ->
  let S := "<"%char :: S' in
  let P := "<"%char :: P' in
  recognised_line (S ++ space :: P ++ space :: O ++ [space; "."%char])
  = Some ( strip_chars "<>" S, strip_chars "<>" P,
           strip_chars ("<>" ++ [dquote])
             (rstrip_chars " ." (join " " (split_ws O))) ).
Proof.
  intros HS HP S P. unfold recognised_line.
  assert (Hline : S ++ space :: P ++ space :: O ++ [space; "."%char]
                  = "<"%char :: (S' ++ space :: P ++ space :: O ++ [space])
                    ++ ["."%char]).
  { unfold S. cbn [app]. f_equal.
    repeat (rewrite <- app_assoc; cbn [app]). reflexivity. }
  assert (Hstrip : strip (S ++ space :: P ++ space :: O ++ [space; "."%char])
                   = S ++ space :: P ++ space :: O ++ [space; "."%char]).
  { rewrite Hline. apply strip_by_clean; reflexivity. }
  rewrite Hstrip.
  assert (Hskip : blank_or_skipped
                    (S ++ space :: P ++ space :: O ++ [space; "."%char])
                  = false) by reflexivity.
  rewrite Hskip.
  rewrite !split_ws_app by reflexivity.
  assert (HtS : split_ws S = [S])
    by (apply split_ws_token; unfold no_space in HS; cbn [forallb];
        now rewrite HS).
  assert (HtP : split_ws P = [P])
    by (apply split_ws_token; unfold no_space in HP; cbn [forallb];
        now rewrite HP).
  rewrite HtS, HtP.
  change (split_ws ["."%char]) with [["."%char]].
  cbn [app].
  assert (Hobj : rstrip_chars " ." (join " " (split_ws O ++ [["."%char]]))
                 = rstrip_chars " ." (join " " (split_ws O))).
  { destruct (split_ws O) as [|w ws]; [reflexivity|].
    rewrite join_snoc. unfold rstrip_chars. apply rstrip_by_all.
    reflexivity. }
  destruct (split_ws O) as [|w ws] eqn:EO; cbn [app];
    change (startswith "<" S && startswith "<" P) with true; cbn iota;
    rewrite <- Hobj; reflexivity.
Qed.

(** The line of a triple in the fully-qualified form stands for its
    image. *)
Lemma ntriples_line_recognised (t : Triple) :
  line_safe t = true ->
  line_triples (ntriples_line t) = [nt_image t]
  /\ no_newline (ntriples_line t) = true.
Proof.
  unfold line_safe. rewrite !andb_true_iff. intros [[Hs Hp] Ho].
  destruct (nt_predicate_bracketed _ Hp) as (P' & HP & HP').
  assert (Hline : ntriples_line t
                  = ("<"%char :: subject t ++ [">"%char])
                    ++ space :: ("<"%char :: P')
                    ++ space :: nt_object (object t) ++ [space; "."%char]).
  { unfold ntriples_line. fold (nt_predicate (predicate t)).
    fold (nt_object (object t)). rewrite HP. reflexivity. }
  split.
  - unfold line_triples. rewrite Hline.
    rewrite (recognised_statement (subject t ++ [">"%char]) P'
               (nt_object (object t)));
      [| rewrite no_space_app, Hs; reflexivity | exact HP'].
    unfold nt_image. rewrite HP.
    change ("<"%char :: subject t ++ [">"%char])
      with (["<"%char] ++ subject t ++ [">"%char]).
    unfold strip_chars at 1. rewrite strip_by_wrap by reflexivity.
    reflexivity.
  - rewrite Hline.
    change ("<"%char :: subject t ++ [">"%char])
      with (["<"%char] ++ subject t ++ [">"%char]).
    change ("<"%char :: P') with (["<"%char] ++ P').
    change (space :: (["<"%char] ++ P')
              ++ space :: nt_object (object t) ++ [space; "."%char])
      with ([space] ++ (["<"%char] ++ P')
              ++ [space] ++ nt_object (object t) ++ [space; "."%char]).
    rewrite !no_newline_app.
    rewrite (no_space_no_newline _ Hs), (no_space_no_newline _ HP').
    rewrite (nt_object_no_newline _ Ho). reflexivity.
Qed.

Lemma serialize_ntriples_lines (triples : list Triple) :
  serialize_ntriples triples = join [newline] (map ntriples_line triples).
Proof.
  unfold serialize_ntriples.
  rewrite (fold_left_append (fun t => [ntriples_line t])). cbn [app].
  f_equal;
    try (induction triples as [|t triples IH];
         [reflexivity | cbn [flat_map map app]; now rewrite IH]).
Qed.

(** Reading back the fully-qualified form of line-safe triples gives their
    images, one per triple, in order. *)
Lemma parse_serialize_ntriples (triples : list Triple) :
  Forall (fun t => line_safe t = true) triples ->
  parse_turtle_simple (serialize_ntriples triples) = map nt_image triples.
Proof.
  intros H. rewrite serialize_ntriples_lines, parse_turtle_simple_joined.
  - induction H as [|t triples Ht Hts IH]; [reflexivity|].
    cbn [map flat_map]. destruct (ntriples_line_recognised t Ht) as [-> _].
    now rewrite IH.
  - rewrite Forall_map. apply (Forall_impl _ (P := fun t => line_safe t = true));
      [|exact H].
    intros t Ht. now destruct (ntriples_line_recognised t Ht).
Qed.

End ParserFacts.

(** ** Lines of the compact form *)

Module TurtleFacts.

Import RdfGenerator OntologyValidator Views BuilderFacts ParserFacts.

Lemma startswith_head (x c : ascii) (p s : str) :
  startswith (x :: p) (c :: s) = true -> c = x.
Proof.
  cbn [startswith]. rewrite andb_true_iff. intros [E _].
  apply Ascii.eqb_eq in E. now subst.
Qed.

Lemma replace_prefix (pat r : str) (c : ascii) (s : str) :
  startswith pat (c :: s) = true ->
  replace pat r (c :: s) = r ++ replace_from pat r (length pat - 1) s.
Proof. unfold replace. cbn [replace_from]. now intros ->. Qed.

(** An abbreviated URI begins with the first letter of its prefix. *)
Lemma format_uri_head (uri : str) :
  startswith "<" (format_uri uri) = false ->
  exists (c : ascii) (body : str),
    format_uri uri = c :: body /\ is_space c = false
    /\ Ascii.eqb c "<" = false.
Proof.
  unfold format_uri.
  destruct (startswith "rdf:" uri || startswith "xsd:" uri) eqn:E1.
  { destruct uri as [|c uri]; [discriminate E1|]. intros _.
    exists c, uri. split; [reflexivity|].
    apply orb_true_iff in E1. destruct E1 as [E|E].
    - apply (startswith_head "r"%char c (list_ascii_of_string "df:")) in E.
      subst c. split; reflexivity.
    - apply (startswith_head "x"%char c (list_ascii_of_string "sd:")) in E.
      subst c. split; reflexivity. }
  destruct (startswith NAMESPACE_DOC uri) eqn:E2.
  { destruct uri as [|c uri]; [discriminate E2|]. intros _.
    rewrite (replace_prefix _ _ _ _ E2). now eexists _, _. }
  destruct (startswith NAMESPACE_ENTITY uri) eqn:E3.
  { destruct uri as [|c uri]; [discriminate E3|]. intros _.
    rewrite (replace_prefix _ _ _ _ E3). now eexists _, _. }
  destruct (startswith NAMESPACE_ONTO uri) eqn:E4.
  { destruct uri as [|c uri]; [discriminate E4|]. intros _.
    rewrite (replace_prefix _ _ _ _ E4). now eexists _, _. }
  discriminate.
Qed.

Lemma indented_line_dropped (c : ascii) (body tail : str) :
  is_space c = false -> Ascii.eqb c "<" = false ->
  line_triples ("    " ++ (c :: body) ++ tail) = [].
Proof.
  intros Hsp Hc. unfold line_triples.
  rewrite (recognised_line_first_char _ c (body ++ tail));
    [reflexivity | | exact Hc].
  rewrite dropwhile_all by reflexivity. cbn [app].
  now apply dropwhile_stop.
Qed.

(** A property line of the compact form whose predicate was abbreviated
    stands for no triple, whether it ends a block or continues it. *)
Lemma turtle_property_line_dropped (n i : nat) (t : Triple) :
  startswith "<" (format_uri (predicate t)) = false ->
  line_triples (turtle_property_line n i t) = [].
Proof.
  intros H. destruct (format_uri_head _ H) as (c & body & HF & Hsp & Hc).
  unfold turtle_property_line. rewrite HF.
  destruct (i <? n - 1); now apply indented_line_dropped.
Qed.

(** The builder writes [rdf:type] and predicates of its ontology
    namespace only, which the compact form abbreviates. *)
Lemma generate_rdf_graph_predicates (now document_id text_content : str)
    (chunks : list Chunk) (metadata : Metadata) (file_name : str) :
  Forall (fun t => startswith "<" (format_uri (predicate t)) = false)
    (generate_rdf_graph now document_id text_content chunks metadata file_name).
Proof.
  rewrite generate_rdf_graph_blocks.
  apply Forall_app; split; [|apply Forall_app; split].
  - unfold document_triples. repeat apply Forall_cons; try apply Forall_nil;
      reflexivity.
  - apply Forall_flat_map, Forall_forall. intros kw _.
    unfold keyword_triples. repeat apply Forall_cons; try apply Forall_nil;
      reflexivity.
  - unfold after_keywords. apply Forall_app; split; [|apply Forall_app; split].
    + destruct (truthy (documentType metadata));
        repeat apply Forall_cons; try apply Forall_nil; reflexivity.
    + destruct (truthy (author metadata));
        repeat apply Forall_cons; try apply Forall_nil; reflexivity.
    + apply Forall_flat_map, Forall_forall. intros chunk _.
      unfold chunk_step. rewrite fold_left_append.
      apply Forall_app; split.
      * cbn [app]. repeat apply Forall_cons; try apply Forall_nil; reflexivity.
      * apply Forall_flat_map, Forall_forall. intros [w ty] _.
        unfold entity_triples. repeat apply Forall_cons; try apply Forall_nil;
          reflexivity.
Qed.

(** *** Every line of the compact form of a builder graph *)

Lemma In_set {V : Type} (k k' : str) (v v' : V) (d : ODict.odict V) :
  In (k, v) (ODict.set k' v' d) -> (k = k' /\ v = v') \/ In (k, v) d.
Proof.
  induction d as [|[k0 v0] d IH]; cbn [ODict.set].
  - intros [[= <- <-]|[]]. now left.
  - destruct (str_eqb k' k0) eqn:E.
    + apply str_eqb_eq in E. subst k0.
      intros [[= <- <-]|H]; [now left | right; now right].
    + intros [H|H]; [right; now left|].
      destruct (IH H) as [H'|H']; [now left | right; now right].
Qed.

Lemma group_by_subject_snoc (triples : list Triple) (t : Triple) :
  group_by_subject (triples ++ [t])
  = let subject_triples := group_by_subject triples in
    let subject_triples :=
      if negb (ODict.mem (subject t) subject_triples)
      then ODict.set (subject t) [] subject_triples else subject_triples in
    ODict.set (subject t)
      (ODict.get_default (subject t) [] subject_triples ++ [t]) subject_triples.
Proof. unfold group_by_subject. now rewrite fold_left_app. Qed.

(** The blocks hold triples of the graph, each under its own subject. *)
Lemma group_by_subject_entries (triples : list Triple) (k : str)
    (l : list Triple) :
  In (k, l) (group_by_subject triples) ->
  Forall (fun t => In t triples /\ subject t = k) l.
Proof.
  revert k l. induction triples as [|t triples IH] using rev_ind;
    intros k l; [contradiction|].
  rewrite group_by_subject_snoc. cbn zeta.
  assert (Hold : forall k l,
            In (k, l) (group_by_subject triples) ->
            Forall (fun t0 => In t0 (triples ++ [t]) /\ subject t0 = k) l).
  { intros k0 l0 H. apply IH in H. apply (Forall_impl _ (P := fun t0 => In t0 triples /\ subject t0 = k0)); [|exact H].
    intros t0 [H1 H2]. split; [apply in_or_app; now left | assumption]. }
  set (d1 := if negb (ODict.mem (subject t) (group_by_subject triples))
             then ODict.set (subject t) [] (group_by_subject triples)
             else group_by_subject triples).
  assert (Hd1 : forall k l, In (k, l) d1 ->
            Forall (fun t0 => In t0 (triples ++ [t]) /\ subject t0 = k) l).
  { intros k0 l0 H. unfold d1 in H. destruct (negb _); [|now apply Hold].
    apply In_set in H. destruct H as [[_ ->]|H]; [constructor | now apply Hold]. }
  intros H. apply In_set in H. destruct H as [[-> ->]|H]; [|now apply Hd1].
  apply Forall_app. split.
  - unfold ODict.get_default.
    destruct (ODict.get (subject t) d1) as [l0|] eqn:G; [|constructor].
    apply Hd1. revert G. clear.
    induction d1 as [|[k0 v0] d1 IH]; cbn [ODict.get]; [discriminate|].
    destruct (str_eqb (subject t) k0) eqn:E.
    + apply str_eqb_eq in E. intros [= ->]. subst. now left.
    + intros H. right. now apply IH.
  - constructor; [|constructor].
    split; [apply in_or_app; right; now left | reflexivity].
Qed.

Lemma fold_left_snoc_map {A B : Type} (f : A -> B) (l : list A) (init : list B) :
  fold_left (fun acc a => acc ++ [f a]) l init = init ++ map f l.
Proof.
  revert init; induction l as [|a l IH]; intros init; cbn [fold_left map].
  - now rewrite app_nil_r.
  - rewrite IH, <- app_assoc. reflexivity.
Qed.

Lemma turtle_block_lines (lines : list str) (k : str) (l : list Triple) :
  turtle_block lines (k, l)
  = lines ++ ["<" ++ k ++ ">"]
    ++ map (fun it => turtle_property_line (length l) (fst it) (snd it))
           (combine (seq 0 (length l)) l)
    ++ [[]].
Proof.
  unfold turtle_block.
  rewrite (fold_left_snoc_map
             (fun it => turtle_property_line (length l) (fst it) (snd it))).
  now rewrite <- !app_assoc.
Qed.

(** Every block is the block of the subject of some triple. *)
Lemma group_by_subject_keys (triples : list Triple) (k : str)
    (l : list Triple) :
  In (k, l) (group_by_subject triples) ->
  exists t : Triple, In t triples /\ subject t = k.
Proof.
  revert k l. induction triples as [|t triples IH] using rev_ind;
    intros k l; [contradiction|].
  rewrite group_by_subject_snoc. cbn zeta. intros H.
  assert (Hnew : exists t0, In t0 (triples ++ [t]) /\ subject t0 = subject t)
    by (exists t; split; [apply in_or_app; right; now left | reflexivity]).
  assert (Hold : forall l0, In (k, l0) (group_by_subject triples) ->
            exists t0, In t0 (triples ++ [t]) /\ subject t0 = k).
  { intros l0 H0. destruct (IH _ _ H0) as (t0 & H1 & H2).
    exists t0. split; [apply in_or_app; now left | assumption]. }
  apply In_set in H. destruct H as [[-> _]|H]; [exact Hnew|].
  destruct (negb _); [|now apply (Hold l)].
  apply In_set in H. destruct H as [[-> _]|H]; [exact Hnew | now apply (Hold l)].
Qed.

Lemma turtle_block_silent (triples : list Triple) (lines : list str)
    (k : str) (l : list Triple) :
  Forall silent_triple triples ->
  In (k, l) (group_by_subject triples) ->
  Forall silent_line lines ->
  Forall silent_line (turtle_block lines (k, l)).
Proof.
  intros Hall Hin Hlines. rewrite turtle_block_lines.
  pose proof (group_by_subject_entries _ _ _ Hin) as Hl.
  rewrite Forall_forall in Hall, Hl.
  apply Forall_app. split; [exact Hlines|].
  apply Forall_app. split.
  - constructor; [|constructor].
    destruct (group_by_subject_keys _ _ _ Hin) as (t & Ht & <-).
    now destruct (Hall t Ht).
  - apply Forall_app. split; [|repeat constructor].
    apply Forall_map, Forall_forall. intros [i t] Hit. cbn [fst snd].
    apply in_combine_r in Hit. destruct (Hl t Hit) as [Ht _].
    now destruct (Hall t Ht) as [_ H].
Qed.

Lemma fold_turtle_block_silent (triples : list Triple)
    (entries : ODict.odict (list Triple)) (lines : list str) :
  Forall silent_triple triples ->
  (forall e, In e entries -> In e (group_by_subject triples)) ->
  Forall silent_line lines ->
  Forall silent_line (fold_left turtle_block entries lines).
Proof.
  intros Hall. revert lines.
  induction entries as [|[k l] entries IH]; intros lines Hsub Hlines;
    cbn [fold_left]; [exact Hlines|].
  apply IH; [intros e He; apply Hsub; now right|].
  apply (turtle_block_silent triples); auto. apply Hsub. now left.
Qed.

(** When every triple is silent, every line of the compact form is, and
    reading the compact form back gives no triple. *)
Lemma turtle_lines_silent (triples : list Triple) :
  Forall silent_triple triples ->
  Forall silent_line (turtle_lines triples).
Proof.
  intros Hall. unfold turtle_lines.
  apply (fold_turtle_block_silent triples); auto.
  unfold turtle_header. repeat constructor.
Qed.

Lemma parse_serialize_turtle_silent (triples : list Triple) :
  Forall silent_triple triples ->
  parse_turtle_simple (serialize_turtle triples) = [].
Proof.
  intros Hall. apply turtle_lines_silent in Hall.
  unfold serialize_turtle. rewrite parse_turtle_simple_joined.
  - induction Hall as [|l lines [Hl _] _ IH]; [reflexivity|].
    cbn [flat_map]. now rewrite Hl, IH.
  - apply (Forall_impl _ (P := silent_line)); [|exact Hall].
    now intros l [_ H].
Qed.

End TurtleFacts.

(** ** Escaping, and the characters of the builder's strings *)

Module SafetyFacts.

Import RdfGenerator OntologyValidator Views BuilderFacts ExtractFacts ParserFacts.
Import TurtleFacts.

Lemma flat_map_flat_map {A B C : Type} (f : B -> list C) (g : A -> list B)
    (l : list A) :
  flat_map f (flat_map g l) = flat_map (fun a => flat_map f (g a)) l.
Proof.
  induction l as [|a l IH]; simpl; [reflexivity|].
  now rewrite flat_map_app, IH.
Qed.

Lemma flat_map_ext_all {A B : Type} (f g : A -> list B) (l : list A) :
  (forall a, f a = g a) -> flat_map f l = flat_map g l.
Proof. intros H. induction l as [|a l IH]; simpl; [|rewrite H, IH]; reflexivity. Qed.

(** The five replacements in a row are one pass over the characters. *)
Lemma escape_literal_chars (text : str) :
  escape_literal text = flat_map escape_char text.
Proof.
  unfold escape_literal, replace_char.
  rewrite !flat_map_flat_map. apply flat_map_ext_all.
  intros c. destruct c as [[] [] [] [] [] [] [] []]; reflexivity.
Qed.

Lemma unescape_escape_char (c : ascii) (rest : str) :
  unescape_literal (escape_char c ++ rest) = c :: unescape_literal rest.
Proof. destruct c as [[] [] [] [] [] [] [] []]; reflexivity. Qed.

(** Undoing the escapes gives the text back. *)
Lemma unescape_escape_literal (text : str) :
  unescape_literal (escape_literal text) = text.
Proof.
  rewrite escape_literal_chars.
  induction text as [|c text IH]; [reflexivity|].
  cbn [flat_map]. now rewrite unescape_escape_char, IH.
Qed.

Lemma forallb_flat_map {A B : Type} (p : B -> bool) (f : A -> list B)
    (l : list A) :
  (forall a, forallb p (f a) = true) -> forallb p (flat_map f l) = true.
Proof.
  intros H. induction l as [|a l IH]; simpl; [reflexivity|].
  now rewrite forallb_app, H, IH.
Qed.

Lemma no_newline_escape_literal (text : str) :
  no_newline (escape_literal text) = true.
Proof.
  rewrite escape_literal_chars. apply forallb_flat_map.
  intros c. destruct c as [[] [] [] [] [] [] [] []]; reflexivity.
Qed.

Lemma no_space_quote (s : str) : no_space (quote s) = true.
Proof.
  apply forallb_flat_map.
  intros c. destruct c as [[] [] [] [] [] [] [] []]; reflexivity.
Qed.

Lemma no_space_uint (d : Decimal.uint) :
  no_space (list_ascii_of_string (NilEmpty.string_of_uint d)) = true.
Proof. induction d; cbn; auto. Qed.

Lemma no_space_str_of_uint (d : Decimal.uint) :
  no_space (list_ascii_of_string (NilZero.string_of_uint d)) = true.
Proof.
  destruct d; try reflexivity; apply (no_space_uint (_ d)).
Qed.

Lemma no_space_str_of_nat (n : nat) : no_space (str_of_nat n) = true.
Proof. apply no_space_str_of_uint. Qed.

Lemma no_space_str_of_Z (z : Z) : no_space (str_of_Z z) = true.
Proof.
  unfold str_of_Z, NilZero.string_of_int.
  destruct (Z.to_int z) as [d|d]; [apply no_space_str_of_uint|].
  cbn [list_ascii_of_string]. unfold no_space. cbn [forallb].
  apply (no_space_str_of_uint d).
Qed.

Lemma no_newline_quoted (s : str) :
  no_newline s = true -> no_newline (quoted s) = true.
Proof.
  intros H. unfold quoted, no_newline in *. cbn [forallb].
  now rewrite forallb_app, H.
Qed.

Lemma no_newline_typed (s ty : str) :
  no_newline s = true -> no_newline ty = true ->
  no_newline (typed s ty) = true.
Proof.
  intros H Hty. unfold typed.
  rewrite !no_newline_app, (no_newline_quoted _ H), Hty. reflexivity.
Qed.

(** The mentions are all typed [Entity]. *)
Lemma extract_entities_simple_types (text : str) (w ty : str) :
  In (w, ty) (extract_entities_simple text) -> ty = ("Entity" : str).
Proof.
  unfold extract_entities_simple.
  rewrite extract_loop_spec by (simpl; lia). cbn [app].
  intros H. apply in_map_iff in H. now destruct H as (x & [= _ <-] & _).
Qed.

Ltac chars :=
  repeat first
    [ reflexivity
    | assumption
    | rewrite no_space_quote
    | rewrite no_space_str_of_Z
    | rewrite no_space_str_of_nat
    | rewrite no_space_app
    | rewrite no_newline_app
    | apply andb_true_iff; split
    | apply no_newline_quoted
    | apply no_newline_typed
    | apply no_newline_escape_literal
    | apply no_space_no_newline ].

Ltac safe_triples :=
  repeat apply Forall_cons; try apply Forall_nil;
  unfold line_safe; cbn [subject predicate object]; chars.

(** Every triple of a builder graph fits on its line, when the document
    identifier has no whitespace and the timestamp no line break. *)
Lemma generate_rdf_graph_line_safe (now document_id text_content : str)
    (chunks : list Chunk) (metadata : Metadata) (file_name : str) :
  no_space document_id = true ->
  no_newline now = true ->
  Forall (fun t => line_safe t = true)
    (generate_rdf_graph now document_id text_content chunks metadata file_name).
Proof.
  intros Hdoc Hnow.
  rewrite generate_rdf_graph_blocks. unfold doc_uri_of.
  apply Forall_app; split; [|apply Forall_app; split].
  - unfold document_triples, doc_uri_of. safe_triples.
  - apply Forall_flat_map, Forall_forall. intros kw _.
    unfold keyword_triples. safe_triples.
  - unfold after_keywords, doc_uri_of.
    apply Forall_app; split; [|apply Forall_app; split].
    + destruct (truthy (documentType metadata)); safe_triples.
    + destruct (truthy (author metadata)); safe_triples.
    + apply Forall_flat_map, Forall_forall. intros chunk _.
      unfold chunk_step. rewrite fold_left_append.
      apply Forall_app; split.
      * cbn [app]. safe_triples.
      * apply Forall_flat_map, Forall_forall. intros [w ty] Hin.
        apply extract_entities_simple_types in Hin. subst ty.
        unfold entity_triples. safe_triples.
Qed.

(** *** Silent lines of the compact form *)

Lemma no_newline_replace_from (pat r : str) (k : nat) (s : str) :
  no_newline r = true -> no_newline s = true ->
  no_newline (replace_from pat r k s) = true.
Proof.
  intros Hr. revert k; induction s as [|c s IH]; intros k Hs;
    cbn [replace_from]; [reflexivity|].
  unfold no_newline in Hs. cbn [forallb] in Hs.
  apply andb_true_iff in Hs. destruct Hs as [Hc Hs].
  destruct k as [|k]; [|now apply IH].
  destruct (startswith pat (c :: s)).
  - rewrite no_newline_app, Hr. now apply IH.
  - unfold no_newline. cbn [forallb]. rewrite Hc. now apply IH.
Qed.

Lemma no_newline_format_uri (uri : str) :
  no_newline uri = true -> no_newline (format_uri uri) = true.
Proof.
  intros H. unfold format_uri, replace.
  repeat match goal with
         | |- context [if ?b then _ else _] => destruct b
         end;
    try exact H; try (apply no_newline_replace_from; [reflexivity | exact H]).
  change ("<" ++ uri ++ ">") with (["<"%char] ++ uri ++ [">"%char]).
  now rewrite !no_newline_app, H.
Qed.

Lemma no_newline_turtle_object (o : str) :
  no_newline o = true -> no_newline (turtle_object o) = true.
Proof.
  intros H. unfold turtle_object.
  destruct (startswith [dquote] o); [exact H|].
  destruct (startswith NAMESPACE_BASE o); [|now apply no_newline_format_uri].
  change ("<" ++ o ++ ">") with (["<"%char] ++ o ++ [">"%char]).
  now rewrite !no_newline_app, H.
Qed.

Lemma subject_line_silent (k : str) :
  no_space k = true -> silent_line ("<" ++ k ++ ">").
Proof.
  intros Hk.
  change ("<" ++ k ++ ">") with ("<"%char :: k ++ [">"%char]).
  assert (Hns : no_space ("<"%char :: k ++ [">"%char]) = true)
    by (unfold no_space in *; cbn [forallb]; now rewrite forallb_app, Hk).
  split; [|now apply no_space_no_newline].
  unfold line_triples, recognised_line.
  unfold strip. rewrite strip_by_clean by reflexivity.
  change (blank_or_skipped ("<"%char :: k ++ [">"%char])) with false.
  cbn iota. rewrite split_ws_token by exact Hns. reflexivity.
Qed.

Lemma property_line_silent (t : Triple) (n i : nat) :
  line_safe t = true ->
  startswith "<" (format_uri (predicate t)) = false ->
  silent_line (turtle_property_line n i t).
Proof.
  unfold line_safe. rewrite !andb_true_iff. intros [[Hs Hp] Ho] Hf.
  split; [now apply turtle_property_line_dropped|].
  unfold turtle_property_line.
  destruct (i <? n - 1); rewrite !no_newline_app;
    rewrite (no_newline_format_uri _ (no_space_no_newline _ Hp)),
      (no_newline_turtle_object _ Ho); reflexivity.
Qed.

Lemma generate_rdf_graph_silent (now document_id text_content : str)
    (chunks : list Chunk) (metadata : Metadata) (file_name : str) :
  no_space document_id = true ->
  no_newline now = true ->
  Forall silent_triple
    (generate_rdf_graph now document_id text_content chunks metadata file_name).
Proof.
  intros Hdoc Hnow.
  pose proof (generate_rdf_graph_line_safe now document_id text_content
                chunks metadata file_name Hdoc Hnow) as Hsafe.
  pose proof (generate_rdf_graph_predicates now document_id text_content
                chunks metadata file_name) as Hpred.
  rewrite Forall_forall in *. intros t Ht.
  specialize (Hsafe t Ht). specialize (Hpred t Ht).
  split; [|intros n i; now apply property_line_silent].
  apply subject_line_silent.
  unfold line_safe in Hsafe. rewrite !andb_true_iff in Hsafe. tauto.
Qed.

End SafetyFacts.

(** ** The document node read back *)

Module IdentifierFacts.

Import RdfGenerator OntologyValidator Views BuilderFacts ParserFacts.

(** Stripping leaves a string whose ends are not stripped as it is. *)
Lemma strip_by_fixed (f : ascii -> bool) (s : str) :
  match s with c :: _ => f c = false | [] => True end ->
  match rev s with d :: _ => f d = false | [] => True end ->
  strip_by f s = s.
Proof.
  unfold strip_by, lstrip_by, rstrip_by. intros Hl Hr.
  destruct s as [|c s]; [reflexivity|].
  cbn [dropwhile]. rewrite Hl.
  destruct (rev (c :: s)) as [|d t] eqn:R.
  - apply (f_equal (@length ascii)) in R. rewrite length_rev in R.
    discriminate.
  - cbn [dropwhile]. rewrite Hr, <- R. apply rev_involutive.
Qed.

Lemma not_quote_not_bracket (c : ascii) :
  mem_char c ("<>" ++ [dquote]) = false -> mem_char c "<>" = false.
Proof.
  unfold mem_char. cbn [list_ascii_of_string app existsb].
  destruct (Ascii.eqb c "<"), (Ascii.eqb c ">"); cbn [orb];
    try discriminate. reflexivity.
Qed.

Lemma bare_ends (s : str) :
  bare s = true ->
  match s with
  | c :: _ => mem_char c ("<>" ++ [dquote]) = false
  | [] => True
  end
  /\ match rev s with
     | d :: _ => mem_char d ("<>" ++ [dquote]) = false
     | [] => True
     end.
Proof.
  unfold bare. destruct s as [|c s]; [now split|].
  destruct (rev (c :: s)) as [|d t] eqn:R.
  - apply (f_equal (@length ascii)) in R. rewrite length_rev in R.
    discriminate.
  - rewrite andb_true_iff, !negb_true_iff. tauto.
Qed.

(** The document URI of a bare identifier is kept by the parser. *)
Lemma strip_doc_uri (document_id : str) :
  bare document_id = true ->
  strip_chars "<>" (doc_uri_of document_id) = doc_uri_of document_id.
Proof.
  intros H. apply bare_ends in H. destruct H as [_ Hr].
  unfold strip_chars. apply strip_by_fixed; [reflexivity|].
  unfold doc_uri_of. rewrite rev_app_distr.
  destruct (rev document_id) as [|d t]; [reflexivity|].
  cbn [app]. now apply not_quote_not_bracket.
Qed.

(** A quoted bare identifier without whitespace comes back without its
    quotes. *)
Lemma strip_quoted_id (document_id : str) :
  no_space document_id = true ->
  bare document_id = true ->
  strip_chars ("<>" ++ [dquote])
    (rstrip_chars " ." (join " " (split_ws (nt_object (quoted document_id)))))
  = document_id.
Proof.
  intros Hs Hb. apply bare_ends in Hb. destruct Hb as [Hl Hr].
  change (nt_object (quoted document_id)) with (quoted document_id).
  unfold quoted. rewrite split_ws_token.
  2:{ change (dquote :: document_id ++ [dquote])
        with ([dquote] ++ document_id ++ [dquote]).
      rewrite !forallb_app. unfold no_space in Hs. now rewrite Hs. }
  cbn [join]. unfold rstrip_chars.
  change (dquote :: document_id ++ [dquote])
    with ((dquote :: document_id) ++ [dquote]).
  rewrite rstrip_by_last by reflexivity.
  change ((dquote :: document_id) ++ [dquote])
    with ([dquote] ++ document_id ++ [dquote]).
  unfold strip_chars. rewrite strip_by_wrap by reflexivity.
  now apply strip_by_fixed.
Qed.

(** The first two triples read back from the fully-qualified form. *)
Lemma document_node_read_back (now document_id text_content : str)
    (chunks : list Chunk) (metadata : Metadata) (file_name : str) :
  no_space document_id = true ->
  bare document_id = true ->
  exists rest : list Tuple,
    map nt_image
      (generate_rdf_graph now document_id text_content chunks metadata
                          file_name)
    = (doc_uri_of document_id, RDF_TYPE, NAMESPACE_ONTO ++ "Document")
      :: (doc_uri_of document_id, NAMESPACE_ONTO ++ "hasId", document_id)
      :: rest.
Proof.
  intros Hs Hb. rewrite generate_rdf_graph_blocks.
  unfold document_triples. cbn zeta. cbn [app map].
  eexists. unfold nt_image at 1 2. cbn [subject predicate object].
  rewrite (strip_doc_uri document_id Hb), (strip_quoted_id document_id Hs Hb).
  reflexivity.
Qed.

End IdentifierFacts.

(** ** The class-membership check and the builder's classes *)

Module ClassFacts.

Import RdfGenerator OntologyValidator Views.
Import ODictFacts InstanceFacts CardinalityFacts BuilderFacts ExtractFacts.
Import ParserFacts TurtleFacts SafetyFacts.

Lemma fold_left_unchanged_in {A S : Type} (f : S -> A -> S) (l : list A) (st : S) :
  (forall st a, In a l -> f st a = st) -> fold_left f l st = st.
Proof.
  induction l as [|a l IH]; intros H; simpl; [reflexivity|].
  rewrite H by now left. apply IH. intros; apply H; now right.
Qed.

(** The check leaves [warnings] alone when no declared type is under the
    prefix it looks for. *)
Lemma check_class_membership_unchanged (model : OntologyModel)
    (triples : list Tuple) (warnings : list Issue) :
  (forall s o : str, In (s, RDF_TYPE, o) triples ->
     startswith "http://graph-rag.example.com/ontology#" o = false) ->
  check_class_membership model (build_instances triples) warnings = warnings.
Proof.
  intros H. unfold check_class_membership.
  apply fold_left_unchanged_in. intros w [k d] Hin. cbn [fst snd].
  apply fold_left_unchanged_in. intros w' c Hc.
  unfold class_membership_type.
  rewrite (H k c); [reflexivity|].
  apply types_of_In.
  destruct (build_instances_spec triples k) as [Ht _].
  rewrite <- Ht, <- (entry_data triples k d Hin). exact Hc.
Qed.

(** The domain check only adds [domain_mismatch] issues. *)
Lemma check_property_domains_kinds (model : OntologyModel)
    (instances : ODict.odict InstanceData) (warnings : list Issue) (w : Issue) :
  In w (check_property_domains model instances warnings) ->
  In w warnings \/ issue_type w = ("domain_mismatch" : str).
Proof.
  unfold check_property_domains.
  generalize (property_definitions model) as defs. intros defs.
  revert warnings.
  induction instances as [|[k d] instances IH]; intros warnings; cbn [fold_left];
    [now left|].
  intros H. apply IH in H. destruct H as [H|H]; [|now right].
  cbn [fst snd] in H. revert H.
  generalize (inst_properties d) as props. intros props. revert warnings.
  induction props as [|[q vs] props IHp]; intros warnings; cbn [fold_left];
    [now left|].
  intros H. apply IHp in H. destruct H as [H|H]; [|now right].
  unfold domain_property in H.
  destruct (ODict.get q defs) as [def|]; [|now left].
  destruct (truthy (prop_domain def)); [|now left].
  destruct (negb _); [|now left].
  apply in_app_or in H. destruct H as [H|[<-|[]]]; [now left | now right].
Qed.

(** A class URI the builder writes is under the ontology namespace with the
    slash, which the prefix with the hash does not match. *)
Lemma onto_class_not_hash (name : str) :
  startswith NAMESPACE_ONTO (NAMESPACE_ONTO ++ name) = true
  /\ startswith "http://graph-rag.example.com/ontology#" (NAMESPACE_ONTO ++ name)
     = false.
Proof. split; reflexivity. Qed.

Ltac type_triple :=
  intros Hp; cbn [predicate object] in *;
  first [ discriminate Hp | eexists; reflexivity ].

Lemma generate_rdf_graph_typed (now document_id text_content : str)
    (chunks : list Chunk) (metadata : Metadata) (file_name : str) :
  Forall typed_under_onto
    (generate_rdf_graph now document_id text_content chunks metadata file_name).
Proof.
  rewrite generate_rdf_graph_blocks.
  apply Forall_app; split; [|apply Forall_app; split].
  - unfold document_triples. repeat apply Forall_cons; try apply Forall_nil;
      type_triple.
  - apply Forall_flat_map, Forall_forall. intros kw _.
    unfold keyword_triples. repeat apply Forall_cons; try apply Forall_nil;
      type_triple.
  - unfold after_keywords. apply Forall_app; split; [|apply Forall_app; split].
    + destruct (truthy (documentType metadata));
        repeat apply Forall_cons; try apply Forall_nil; type_triple.
    + destruct (truthy (author metadata));
        repeat apply Forall_cons; try apply Forall_nil; type_triple.
    + apply Forall_flat_map, Forall_forall. intros chunk _.
      unfold chunk_step. rewrite fold_left_append.
      apply Forall_app; split.
      * cbn [app]. repeat apply Forall_cons; try apply Forall_nil; type_triple.
      * apply Forall_flat_map, Forall_forall. intros [w ty] _.
        unfold entity_triples. repeat apply Forall_cons; try apply Forall_nil;
          type_triple.
Qed.

Lemma validate_against_ontology_warnings (triples : list Tuple)
    (model : OntologyModel) (res : ValidationResult) :
  validate_against_ontology triples model = Ok res ->
  warnings res
  = check_property_domains model (build_instances triples)
      (check_class_membership model (build_instances triples) []).
Proof.
  unfold validate_against_ontology.
  destruct (check_cardinality model (build_instances triples) []);
    simpl; [|discriminate].
  now intros [= <-].
Qed.

Ltac type_image :=
  intros H; unfold nt_image, predicate_of, object_of in *;
  cbn [fst snd predicate object] in *;
  first [ vm_compute in H; discriminate H
        | split; [reflexivity | vm_compute; reflexivity] ].

(** Among the images of the builder's triples, the type declarations are
    the images of its type triples, with the class unchanged. *)
Lemma generate_rdf_graph_type_images (now document_id text_content : str)
    (chunks : list Chunk) (metadata : Metadata) (file_name : str) :
  Forall (fun t => predicate_of (nt_image t) = RDF_TYPE ->
                   predicate t = ("rdf:type" : str)
                   /\ object_of (nt_image t) = object t)
    (generate_rdf_graph now document_id text_content chunks metadata file_name).
Proof.
  rewrite generate_rdf_graph_blocks.
  apply Forall_app; split; [|apply Forall_app; split].
  - unfold document_triples. repeat apply Forall_cons; try apply Forall_nil;
      type_image.
  - apply Forall_flat_map, Forall_forall. intros kw _.
    unfold keyword_triples. repeat apply Forall_cons; try apply Forall_nil;
      type_image.
  - unfold after_keywords. apply Forall_app; split; [|apply Forall_app; split].
    + destruct (truthy (documentType metadata));
        repeat apply Forall_cons; try apply Forall_nil; type_image.
    + destruct (truthy (author metadata));
        repeat apply Forall_cons; try apply Forall_nil; type_image.
    + apply Forall_flat_map, Forall_forall. intros chunk _.
      unfold chunk_step. rewrite fold_left_append.
      apply Forall_app; split.
      * cbn [app]. repeat apply Forall_cons; try apply Forall_nil; type_image.
      * apply Forall_flat_map, Forall_forall. intros [w ty] Hin.
        apply extract_entities_simple_types in Hin. subst ty.
        unfold entity_triples. repeat apply Forall_cons; try apply Forall_nil;
          type_image.
Qed.

(** Staged in either form and read back, a builder graph declares only
    types of its own. *)
Lemma staged_types_come_from (now document_id text_content : str)
    (chunks : list Chunk) (metadata : Metadata) (file_name : str) :
  no_space document_id = true ->
  no_newline now = true ->
  let graph :=
    generate_rdf_graph now document_id text_content chunks metadata file_name in
  types_come_from graph (parse_turtle_simple (serialize_ntriples graph))
  /\ types_come_from graph (parse_turtle_simple (serialize_turtle graph)).
Proof.
  intros Hdoc Hnow graph. split.
  - unfold graph. rewrite parse_serialize_ntriples
      by now apply generate_rdf_graph_line_safe.
    intros s o Hin. apply in_map_iff in Hin. destruct Hin as (t & Himg & Ht).
    pose proof (generate_rdf_graph_type_images now document_id text_content
                  chunks metadata file_name) as Hall.
    rewrite Forall_forall in Hall. specialize (Hall t Ht).
    rewrite Himg in Hall. destruct (Hall eq_refl) as [Hp Ho].
    exists t. repeat split; auto.
  - unfold graph. rewrite parse_serialize_turtle_silent
      by now apply generate_rdf_graph_silent.
    intros s o [].
Qed.

End ClassFacts.

(** ** Prefixed names *)

Module PrefixFacts.

Import RdfGenerator PipelineViews.

Lemma startswith_app (p s : str) : startswith p (p ++ s) = true.
Proof.
  induction p as [|c p IH]; [reflexivity|]. cbn. now rewrite IH, Ascii.eqb_refl.
Qed.

Lemma startswith_prefix (a b s : str) :
  startswith (a ++ b) s = true -> startswith a s = true.
Proof.
  revert s. induction a as [|x a IH]; intros s H; [reflexivity|].
  destruct s as [|y s]; [discriminate|]. cbn [app startswith] in *.
  apply andb_true_iff in H. destruct H as [-> H]. now apply IH.
Qed.

Lemma occurs_in_prefix (a b s : str) :
  occurs_in a s = false -> occurs_in (a ++ b) s = false.
Proof.
  induction s as [|c s IH]; cbn [occurs_in]; intros H;
    apply orb_false_iff in H; destruct H as [H1 H2].
  - rewrite orb_false_r.
    destruct (startswith (a ++ b) []) eqn:E; [|reflexivity].
    apply startswith_prefix in E. congruence.
  - rewrite IH by assumption. rewrite orb_false_r.
    destruct (startswith (a ++ b) (c :: s)) eqn:E; [|reflexivity].
    apply startswith_prefix in E. congruence.
Qed.

(** A text that holds no occurrence of the pattern is left as it is. *)
Lemma replace_from_absent (p r s : str) :
  occurs_in p s = false -> replace_from p r 0 s = s.
Proof.
  induction s as [|x s IH]; intros H; [reflexivity|].
  cbn [occurs_in] in H. apply orb_false_iff in H. destruct H as [H1 H2].
  cbn [replace_from]. rewrite H1. f_equal. now apply IH.
Qed.

Lemma replace_from_skip (p r a s : str) :
  replace_from p r (length a) (a ++ s) = replace_from p r 0 s.
Proof. induction a as [|x a IH]; [reflexivity|]. exact IH. Qed.

Lemma replace_head (p r s : str) :
  p <> [] -> occurs_in p s = false -> replace p r (p ++ s) = r ++ s.
Proof.
  intros Hne Hs. unfold replace.
  destruct p as [|x p]; [contradiction|].
  change ((x :: p) ++ s) with (x :: (p ++ s)).
  cbn [replace_from].
  change (x :: p ++ s) with ((x :: p) ++ s).
  rewrite startswith_app.
  replace (length (x :: p) - 1) with (length p) by (cbn [length]; lia).
  rewrite replace_from_skip. f_equal. now apply replace_from_absent.
Qed.

Lemma format_uri_prefixed (name : str) :
  occurs_in NAMESPACE_BASE name = false ->
  format_uri (NAMESPACE_DOC ++ name) = "doc:" ++ name
  /\ format_uri (NAMESPACE_ENTITY ++ name) = "entity:" ++ name
  /\ format_uri (NAMESPACE_ONTO ++ name) = "onto:" ++ name.
Proof.
  intros H. unfold format_uri.
  repeat split.
  - change (startswith "rdf:" (NAMESPACE_DOC ++ name)) with false.
    change (startswith "xsd:" (NAMESPACE_DOC ++ name)) with false.
    rewrite startswith_app. cbn [orb].
    apply replace_head; [discriminate|].
    now apply (occurs_in_prefix NAMESPACE_BASE "document/").
  - change (startswith "rdf:" (NAMESPACE_ENTITY ++ name)) with false.
    change (startswith "xsd:" (NAMESPACE_ENTITY ++ name)) with false.
    change (startswith NAMESPACE_DOC (NAMESPACE_ENTITY ++ name)) with false.
    rewrite startswith_app. cbn [orb].
    apply replace_head; [discriminate|].
    now apply (occurs_in_prefix NAMESPACE_BASE "entity/").
  - change (startswith "rdf:" (NAMESPACE_ONTO ++ name)) with false.
    change (startswith "xsd:" (NAMESPACE_ONTO ++ name)) with false.
    change (startswith NAMESPACE_DOC (NAMESPACE_ONTO ++ name)) with false.
    change (startswith NAMESPACE_ENTITY (NAMESPACE_ONTO ++ name)) with false.
    rewrite startswith_app. cbn [orb].
    apply replace_head; [discriminate|].
    now apply (occurs_in_prefix NAMESPACE_BASE "ontology/").
Qed.

Lemma format_uri_full_prefixed (name : str) :
  format_uri_full ("doc:" ++ name) = "<" ++ NAMESPACE_DOC ++ name ++ ">"
  /\ format_uri_full ("entity:" ++ name) = "<" ++ NAMESPACE_ENTITY ++ name ++ ">"
  /\ format_uri_full ("onto:" ++ name) = "<" ++ NAMESPACE_ONTO ++ name ++ ">".
Proof. repeat split. Qed.

End PrefixFacts.

(** ** Blocks of the compact form *)

Module BlockFacts.

Import RdfGenerator Views PipelineViews.
Import PyStrFacts ExtractFacts ODictFacts InstanceFacts CardinalityFacts
  TurtleFacts.

Lemma mem_str_app (x : str) (a b : list str) :
  mem_str x (a ++ b) = mem_str x a || mem_str x b.
Proof. unfold mem_str. apply existsb_app. Qed.

Lemma dedup_snoc (seen l : list str) (x : str) :
  dedup seen (l ++ [x])
  = dedup seen l ++ (if mem_str x seen || mem_str x l then [] else [x]).
Proof.
  revert seen. induction l as [|w l IH]; intros seen; cbn [dedup app].
  - cbn [mem_str existsb]. rewrite orb_false_r.
    now destruct (mem_str x seen).
  - destruct (mem_str w seen) eqn:E.
    + rewrite IH. do 2 f_equal.
      change (mem_str x (w :: l)) with (str_eqb x w || mem_str x l).
      destruct (str_eqb x w) eqn:Exw; [|reflexivity].
      apply str_eqb_eq in Exw. subst. rewrite E. reflexivity.
    + rewrite IH. cbn [app]. do 2 f_equal.
      change (mem_str x (w :: seen)) with (str_eqb x w || mem_str x seen).
      change (mem_str x (w :: l)) with (str_eqb x w || mem_str x l).
      now destruct (str_eqb x w), (mem_str x seen), (mem_str x l).
Qed.

Lemma In_dedup (seen l : list str) (w : str) :
  In w l -> ~ In w seen -> In w (dedup seen l).
Proof.
  revert seen; induction l as [|x l IH]; intros seen; cbn [dedup];
    [contradiction|].
  intros [->|Hin] Hs.
  - destruct (mem_str w seen) eqn:E; [|now left].
    apply mem_str_In in E. contradiction.
  - destruct (mem_str x seen) eqn:E; [now apply IH|].
    destruct (str_eqb x w) eqn:Exw.
    + apply str_eqb_eq in Exw. now left.
    + right. apply IH; [assumption|]. intros [->|H]; [|contradiction].
      now rewrite str_eqb_refl in Exw.
Qed.

Lemma mem_str_dedup (x : str) (l : list str) :
  mem_str x (dedup [] l) = mem_str x l.
Proof.
  destruct (mem_str x l) eqn:E.
  - apply mem_str_In. apply In_dedup; [now apply mem_str_In | easy].
  - destruct (mem_str x (dedup [] l)) eqn:E'; [|reflexivity].
    apply mem_str_In, dedup_In in E'. destruct E' as [E' _].
    apply mem_str_In in E'. congruence.
Qed.

Lemma keys_group_by_subject (triples : list Triple) :
  ODict.keys (group_by_subject triples) = subjects triples.
Proof.
  unfold subjects.
  induction triples as [|t triples IH] using rev_ind; [reflexivity|].
  rewrite group_by_subject_snoc, map_app. cbn [map]. rewrite dedup_snoc.
  cbn zeta.
  cbn [mem_str existsb orb]. rewrite <- mem_str_dedup, <- IH.
  destruct (ODict.mem (subject t) (group_by_subject triples)) eqn:M;
    cbn [negb].
  - rewrite keys_set, M.
    apply mem_keys, mem_str_In in M. rewrite M. now rewrite app_nil_r.
  - rewrite keys_set.
    assert (M' : ODict.mem (subject t)
                   (ODict.set (subject t) [] (group_by_subject triples)) = true).
    { unfold ODict.mem. now rewrite get_set, str_eqb_refl. }
    rewrite M', keys_set, M.
    destruct (mem_str (subject t) (ODict.keys (group_by_subject triples))) eqn:K;
      [|reflexivity].
    apply mem_str_In, mem_keys in K. congruence.
Qed.

Lemma get_group_by_subject (triples : list Triple) (k : str) :
  ODict.get_default k [] (group_by_subject triples) = block_of k triples.
Proof.
  unfold block_of.
  induction triples as [|t triples IH] using rev_ind; [reflexivity|].
  rewrite group_by_subject_snoc, filter_app. cbn zeta.
  rewrite get_default_set. cbn [filter].
  rewrite (str_eqb_sym (subject t) k).
  destruct (str_eqb k (subject t)) eqn:E.
  - apply str_eqb_eq in E. subst k. f_equal. rewrite <- IH.
    destruct (negb _) eqn:M; [|reflexivity].
    rewrite get_default_set, str_eqb_refl.
    unfold ODict.get_default, ODict.mem in *.
    now destruct (ODict.get (subject t) _).
  - rewrite app_nil_r, <- IH.
    destruct (negb _); [|reflexivity].
    now rewrite get_default_set, E.
Qed.

Lemma odict_by_keys {V : Type} (f : str -> V) (d : ODict.odict V) :
  (forall k v, In (k, v) d -> v = f k) ->
  d = map (fun k => (k, f k)) (ODict.keys d).
Proof.
  induction d as [|[k v] d IH]; intros H; [reflexivity|].
  cbn [ODict.keys map fst]. rewrite (H k v) by now left.
  f_equal. apply IH. intros k' v' Hin. apply H. now right.
Qed.

Lemma group_by_subject_blocks (triples : list Triple) :
  group_by_subject triples
  = map (fun k => (k, block_of k triples)) (subjects triples).
Proof.
  rewrite <- keys_group_by_subject. apply odict_by_keys.
  intros k v Hin. rewrite <- get_group_by_subject.
  apply In_get in Hin.
  - unfold ODict.get_default. now rewrite Hin.
  - rewrite keys_group_by_subject. apply dedup_NoDup.
Qed.

Lemma turtle_lines_blocks (triples : list Triple) :
  turtle_lines triples
  = turtle_header
    ++ flat_map (fun k => block_lines k (block_of k triples)) (subjects triples).
Proof.
  unfold turtle_lines. rewrite group_by_subject_blocks.
  generalize (subjects triples) as ks. generalize turtle_header as init.
  intros init ks. revert init.
  induction ks as [|k ks IH]; intros init; cbn [map fold_left flat_map].
  - now rewrite app_nil_r.
  - rewrite IH, turtle_block_lines. unfold block_lines.
    now rewrite <- !app_assoc.
Qed.

End BlockFacts.

(** ** Restrictions that are not enforced, and warnings *)

Module WarningFacts.

Import RdfGenerator OntologyValidator Views PipelineViews.
Import PyStrFacts ODictFacts InstanceFacts CardinalityFacts BlockFacts.

Lemma none_enforced_minimums_parse (model : OntologyModel) :
  none_enforced model = true -> minimums_parse model = true.
Proof.
  unfold none_enforced, minimums_parse. rewrite !forallb_forall.
  intros H r Hin. specialize (H r Hin). unfold enforced, value_parses in *.
  destruct (str_eqb (restr_restrictionType r) "minCardinality");
    [|reflexivity].
  now rewrite orb_true_r in H.
Qed.

Lemma restriction_issues_not_enforced (uri : str) (data : InstanceData)
    (r : Restriction) :
  enforced r = false -> restriction_issues uri data r = [].
Proof.
  unfold enforced, restriction_issues, cardinality_restriction.
  intros H. apply orb_false_iff in H. destruct H as [-> ->]. reflexivity.
Qed.

Lemma flat_map_nil {A B : Type} (f : A -> list B) (l : list A) :
  (forall a, In a l -> f a = []) -> flat_map f l = [].
Proof.
  induction l as [|a l IH]; intros H; cbn [flat_map]; [reflexivity|].
  rewrite H by now left. apply IH. intros; apply H; now right.
Qed.

Lemma none_enforced_no_violations (triples : list Tuple)
    (model : OntologyModel) :
  none_enforced model = true ->
  exists res : ValidationResult,
    validate_against_ontology triples model = Ok res /\ violations res = [].
Proof.
  intros H.
  destruct (validate_against_ontology_ok triples model
              (none_enforced_minimums_parse model H)) as (res & Hres & Hv & _).
  exists res. split; [assumption|]. rewrite Hv.
  apply flat_map_nil. intros [uri data] _. unfold instance_issues.
  apply flat_map_nil. intros c _. apply flat_map_nil. intros r Hin.
  apply restriction_issues_not_enforced.
  unfold restrictions_of in Hin. apply filter_In in Hin.
  unfold none_enforced in H. rewrite forallb_forall in H.
  apply negb_true_iff. apply H. tauto.
Qed.

(** *** The domain check *)

Lemma property_definitions_last (model : OntologyModel) (p : str) :
  ODict.get p (property_definitions model) = last_definition p model.
Proof.
  unfold property_definitions, last_definition.
  induction (properties model) as [|q qs IH] using rev_ind; [reflexivity|].
  rewrite fold_left_app, rev_app_distr. cbn [fold_left rev app find].
  rewrite get_set, (str_eqb_sym (prop_property q) p).
  now destruct (str_eqb p (prop_property q)).
Qed.

Lemma mem_set {V : Type} (k k' : str) (v : V) (d : ODict.odict V) :
  ODict.mem k (ODict.set k' v d) = str_eqb k k' || ODict.mem k d.
Proof. unfold ODict.mem. rewrite get_set. now destruct (str_eqb k k'). Qed.

Lemma is_empty_app {A : Type} (a b : list A) :
  is_empty (a ++ b) = is_empty a && is_empty b.
Proof. now destruct a. Qed.

Lemma mem_inst_properties (triples : list Tuple) (s p : str) :
  ODict.mem p (inst_properties (data_of (build_instances triples) s))
  = negb (is_empty (values_of s p triples)).
Proof.
  induction triples as [|[[s0 p0] o0] triples IH] using rev_ind.
  - unfold values_of. now destruct (str_eqb p RDF_TYPE).
  - rewrite values_of_snoc, is_empty_app, negb_andb, <- IH.
    rewrite build_instances_snoc, data_of_add_triple. cbn zeta.
    destruct (str_eqb s s0) eqn:Es; cbn [andb].
    2:{ rewrite andb_false_r. cbn [is_empty negb]. now rewrite orb_false_r. }
    destruct (str_eqb p0 RDF_TYPE) eqn:Ep; cbn [inst_properties].
    + destruct (str_eqb p RDF_TYPE) eqn:Ep'; cbn [negb andb is_empty].
      * now rewrite orb_false_r.
      * destruct (str_eqb p p0) eqn:E;
          [|cbn [is_empty negb]; now rewrite orb_false_r].
        apply str_eqb_eq in E. congruence.
    + rewrite mem_set.
      destruct (str_eqb p p0) eqn:E.
      * apply str_eqb_eq in E. subst p0. rewrite Ep. cbn [negb andb is_empty].
        now rewrite orb_true_r.
      * rewrite andb_false_r. cbn [is_empty negb orb].
        rewrite orb_false_r.
        destruct (negb (ODict.mem p0 _)); [|reflexivity].
        now rewrite mem_set, E.
Qed.

Lemma NoDup_keys_inst_properties (triples : list Tuple) (s : str) :
  NoDup (ODict.keys (inst_properties (data_of (build_instances triples) s))).
Proof.
  induction triples as [|[[s0 p0] o0] triples IH] using rev_ind;
    [constructor|].
  rewrite build_instances_snoc, data_of_add_triple. cbn zeta.
  destruct (str_eqb s s0); [|exact IH].
  destruct (str_eqb p0 RDF_TYPE); cbn [inst_properties]; [exact IH|].
  apply NoDup_keys_set. destruct (negb _); [now apply NoDup_keys_set | exact IH].
Qed.

Lemma domain_property_append (defs : ODict.odict PropertyDef) (uri : str)
    (data : InstanceData) (w : list Issue) (e : str * list str) :
  domain_property defs uri data w e = w ++ domain_issues defs uri data e.
Proof.
  unfold domain_issues, domain_property. destruct e as [q vals].
  destruct (ODict.get q defs); [|now rewrite app_nil_r].
  destruct (truthy _); [|now rewrite app_nil_r].
  destruct (negb _); [reflexivity | now rewrite app_nil_r].
Qed.

Lemma class_membership_type_append (defined : list str) (uri : str)
    (w : list Issue) (c : str) :
  class_membership_type defined uri w c = w ++ class_issues defined uri c.
Proof.
  unfold class_issues, class_membership_type.
  destruct (startswith _ c); [|now rewrite app_nil_r].
  destruct (_ && _); [reflexivity | now rewrite app_nil_r].
Qed.

Lemma fold_left_append_ext {A B : Type} (g : list B -> A -> list B)
    (f : A -> list B) (l : list A) (init : list B) :
  (forall acc a, g acc a = acc ++ f a) ->
  fold_left g l init = init ++ flat_map f l.
Proof.
  intros H. revert init. induction l as [|a l IH]; intros init; cbn.
  - now rewrite app_nil_r.
  - rewrite IH, H. now rewrite <- app_assoc.
Qed.

Lemma check_property_domains_append (model : OntologyModel)
    (instances : ODict.odict InstanceData) (w : list Issue) :
  check_property_domains model instances w
  = w ++ flat_map
           (fun entry =>
              flat_map (domain_issues (property_definitions model)
                          (fst entry) (snd entry))
                       (inst_properties (snd entry)))
           instances.
Proof.
  unfold check_property_domains. apply fold_left_append_ext.
  intros acc entry. apply fold_left_append_ext. intros acc' e.
  apply domain_property_append.
Qed.

Lemma check_class_membership_append (model : OntologyModel)
    (instances : ODict.odict InstanceData) (w : list Issue) :
  check_class_membership model instances w
  = w ++ flat_map
           (fun entry =>
              flat_map (class_issues (defined_classes model) (fst entry))
                       (types (snd entry)))
           instances.
Proof.
  unfold check_class_membership. apply fold_left_append_ext.
  intros acc entry. apply fold_left_append_ext. intros acc' c.
  apply class_membership_type_append.
Qed.

Lemma domain_issues_about (defs : ODict.odict PropertyDef) (uri s p : str)
    (data : InstanceData) (e : str * list str) :
  length (filter (issue_about "domain_mismatch" s p) (domain_issues defs uri data e))
  = if str_eqb (fst e) p
    then (if str_eqb uri s
             && match ODict.get p defs with
                | Some prop_def =>
                    truthy (prop_domain prop_def)
                    && negb (mem_str (get_str (prop_domain prop_def)) (types data))
                | None => false
                end
          then 1 else 0)
    else 0.
Proof.
  destruct e as [q vals]. cbn [fst].
  unfold domain_issues, domain_property.
  destruct (str_eqb q p) eqn:E.
  - apply str_eqb_eq in E. subst q.
    destruct (ODict.get p defs); [|now rewrite andb_false_r].
    destruct (truthy _); [|now rewrite andb_false_r].
    destruct (negb _); [|now rewrite andb_false_r].
    cbn [app filter]. unfold issue_about.
    cbn [issue_type issue_instance issue_property].
    rewrite !str_eqb_refl. cbn [andb]. rewrite !andb_true_r.
    now destruct (str_eqb uri s).
  - destruct (ODict.get q defs); [|reflexivity].
    destruct (truthy _); [|reflexivity].
    destruct (negb _); [|reflexivity].
    cbn [app filter]. unfold issue_about.
    cbn [issue_type issue_instance issue_property].
    rewrite E. now rewrite !andb_false_r.
Qed.

Lemma class_issues_not_about (defined : list str) (uri c kind s p : str) :
  filter (issue_about kind s p) (class_issues defined uri c) = [].
Proof.
  unfold class_issues, class_membership_type.
  destruct (startswith _ c); [|reflexivity].
  destruct (_ && _); [|reflexivity].
  cbn [app filter]. unfold issue_about. cbn [issue_property].
  now rewrite andb_false_r.
Qed.

Lemma domain_mismatch_count_aux (model : OntologyModel) (triples : list Tuple)
    (s p : str) :
  length (filter (issue_about "domain_mismatch" s p)
            (check_property_domains model (build_instances triples)
               (check_class_membership model (build_instances triples) [])))
  = if domain_mismatch s p triples model then 1 else 0.
Proof.
  rewrite check_property_domains_append, check_class_membership_append.
  cbn [app]. rewrite filter_app, length_app.
  replace (filter _ (flat_map _ (build_instances triples))) with (@nil Issue).
  2:{ symmetry. induction (build_instances triples) as [|[k d] l IH];
        [reflexivity|].
      cbn [flat_map]. rewrite filter_app, IH, app_nil_r. cbn [fst snd].
      induction (types d) as [|c cs IHc]; [reflexivity|].
      cbn [flat_map]. now rewrite filter_app, class_issues_not_about, IHc. }
  cbn [length Nat.add].
  rewrite flat_map_filter_length.
  pose (h := fun d : InstanceData =>
          match ODict.get p (inst_properties d) with
          | Some _ =>
              if match ODict.get p (property_definitions model) with
                 | Some prop_def =>
                     truthy (prop_domain prop_def)
                     && negb (mem_str (get_str (prop_domain prop_def)) (types d))
                 | None => false
                 end
              then 1 else 0
          | None => 0
          end).
  rewrite (list_sum_map_ext _
             (fun e => if str_eqb (fst e) s then h (snd e) else 0)).
  2:{ intros [k d] Hin. cbn [fst snd].
      rewrite flat_map_filter_length.
      pose (g := fun _ : list str =>
              if str_eqb k s
                 && match ODict.get p (property_definitions model) with
                    | Some prop_def =>
                        truthy (prop_domain prop_def)
                        && negb (mem_str (get_str (prop_domain prop_def))
                                         (types d))
                    | None => false
                    end
              then 1 else 0).
      rewrite (list_sum_map_ext _
                 (fun e => if str_eqb (fst e) p then g (snd e) else 0)).
      2:{ intros e _. apply domain_issues_about. }
      rewrite (sum_at_key p g).
      2:{ rewrite (entry_data triples k d Hin).
          apply NoDup_keys_inst_properties. }
      unfold h, g. destruct (ODict.get p (inst_properties d));
        destruct (str_eqb k s); reflexivity. }
  rewrite (sum_at_key s h) by apply NoDup_keys_build_instances.
  unfold domain_mismatch. rewrite <- mem_inst_properties.
  rewrite <- property_definitions_last.
  destruct (build_instances_spec triples s) as [Ht _]. rewrite <- Ht.
  unfold data_of, ODict.get_default, h.
  destruct (ODict.get s (build_instances triples)) as [d|]; [|reflexivity].
  unfold ODict.mem. now destruct (ODict.get p (inst_properties d)).
Qed.

Lemma class_issues_about (defined : list str) (uri s c c' : str) :
  length (filter (undefined_class_about s c) (class_issues defined uri c'))
  = if str_eqb c' c
       && (str_eqb uri s
           && (startswith "http://graph-rag.example.com/ontology#" c
               && negb (is_empty defined) && negb (mem_str c defined)))
    then 1 else 0.
Proof.
  unfold class_issues, class_membership_type.
  destruct (str_eqb c' c) eqn:E.
  - apply str_eqb_eq in E. subst c'. cbn [andb].
    destruct (startswith _ c); [|now rewrite andb_false_r].
    cbn [andb].
    replace (match defined with [] => false | _ => true end)
      with (negb (is_empty defined)) by now destruct defined.
    rewrite (andb_comm (negb (is_empty defined))).
    destruct (_ && _); [|now rewrite andb_false_r].
    cbn [app filter undefined_class_about]. rewrite str_eqb_refl, andb_true_r.
    now destruct (str_eqb uri s).
  - cbn [andb]. destruct (startswith _ c'); [|reflexivity].
    destruct (_ && _); [|reflexivity].
    cbn [app filter undefined_class_about]. rewrite E, andb_false_r.
    reflexivity.
Qed.

Lemma domain_issues_not_class (defs : ODict.odict PropertyDef) (uri s c : str)
    (data : InstanceData) (e : str * list str) :
  filter (undefined_class_about s c) (domain_issues defs uri data e) = [].
Proof.
  unfold domain_issues, domain_property. destruct e as [q vals].
  destruct (ODict.get q defs); [|reflexivity].
  destruct (truthy _); [|reflexivity].
  destruct (negb _); reflexivity.
Qed.

Lemma undefined_class_count_aux (model : OntologyModel) (triples : list Tuple)
    (s c : str) :
  length (filter (undefined_class_about s c)
            (check_property_domains model (build_instances triples)
               (check_class_membership model (build_instances triples) [])))
  = if undefined_class c model
    then length (filter (fun c' => str_eqb c' c) (types_of s triples))
    else 0.
Proof.
  rewrite check_property_domains_append, check_class_membership_append.
  cbn [app]. rewrite filter_app, length_app.
  replace (filter _ (flat_map
             (fun entry => flat_map (domain_issues _ _ _) _) _))
    with (@nil Issue).
  2:{ symmetry. induction (build_instances triples) as [|[k d] l IH];
        [reflexivity|].
      cbn [flat_map]. rewrite filter_app, IH, app_nil_r. cbn [fst snd].
      induction (inst_properties d) as [|e es IHe]; [reflexivity|].
      cbn [flat_map]. now rewrite filter_app, domain_issues_not_class, IHe. }
  cbn [length]. rewrite Nat.add_0_r.
  rewrite flat_map_filter_length.
  pose (b := startswith "http://graph-rag.example.com/ontology#" c
             && negb (is_empty (defined_classes model))
             && negb (mem_str c (defined_classes model))).
  pose (h := fun d : InstanceData =>
          if b then length (filter (fun c' => str_eqb c' c) (types d)) else 0).
  rewrite (list_sum_map_ext _
             (fun e => if str_eqb (fst e) s then h (snd e) else 0)).
  2:{ intros [k d] Hin. cbn [fst snd].
      rewrite flat_map_filter_length.
      rewrite (list_sum_map_ext _
                 (fun c' => if (str_eqb k s && b) && str_eqb c' c
                            then 1 else 0)).
      2:{ intros c' _. rewrite class_issues_about. fold b.
          now destruct (str_eqb c' c), (str_eqb k s), b. }
      rewrite list_sum_guard. unfold h.
      now destruct (str_eqb k s), b. }
  rewrite (sum_at_key s h) by apply NoDup_keys_build_instances.
  unfold undefined_class.
  replace (is_empty (classes model)) with (is_empty (defined_classes model))
    by (unfold defined_classes; now destruct (classes model)).
  fold b.
  destruct (build_instances_spec triples s) as [Ht _]. rewrite <- Ht.
  unfold data_of, ODict.get_default, h.
  destruct (ODict.get s (build_instances triples)) as [d|]; [reflexivity|].
  now destruct b.
Qed.

End WarningFacts.

(** ** The size of a graph and the generator's handler *)

Module GeneratorFacts.

Import RdfGenerator Views PipelineViews.
Import PyStrFacts BuilderFacts ExtractFacts CardinalityFacts.

Lemma extract_entities_simple_length (text : str) :
  length (extract_entities_simple text) <= 5.
Proof.
  unfold extract_entities_simple.
  rewrite extract_loop_spec by (cbn; lia). cbn [app length].
  rewrite length_map, length_firstn. lia.
Qed.

Lemma chunk_step_length (doc_uri : str) (chunk : Chunk) :
  length (chunk_step doc_uri [] chunk) = chunk_triple_count chunk.
Proof.
  unfold chunk_step, chunk_triple_count. rewrite fold_left_append.
  rewrite length_app.
  rewrite (flat_map_length_const _ 3).
  - cbn [app length]. lia.
  - now intros [w ty].
Qed.

Lemma flat_map_length_sum {A B : Type} (f : A -> list B) (l : list A) :
  length (flat_map f l) = list_sum (map (fun a => length (f a)) l).
Proof.
  induction l as [|a l IH]; [reflexivity|].
  cbn [flat_map map list_sum fold_right]. now rewrite length_app, IH.
Qed.

Lemma generate_rdf_graph_length (now document_id text_content : str)
    (chunks : list Chunk) (metadata : Metadata) (file_name : str) :
  length (generate_rdf_graph now document_id text_content chunks metadata
                             file_name)
  = graph_size chunks metadata.
Proof.
  rewrite generate_rdf_graph_blocks. unfold graph_size, after_keywords.
  rewrite !length_app, (flat_map_length_const _ 3) by reflexivity.
  rewrite flat_map_length_sum.
  rewrite (list_sum_map_ext _ chunk_triple_count)
    by (intros; apply chunk_step_length).
  change (length (document_triples now document_id text_content file_name))
    with 5.
  destruct (truthy (documentType metadata)), (truthy (author metadata));
    cbn [length app]; lia.
Qed.

Lemma chunk_counts_bounds (chunks : list Chunk) :
  6 * length chunks <= list_sum (map chunk_triple_count chunks)
  /\ list_sum (map chunk_triple_count chunks) <= 21 * length chunks.
Proof.
  induction chunks as [|c chunks [IH1 IH2]]; [cbn; lia|].
  cbn [map length].
  change (list_sum (chunk_triple_count c :: map chunk_triple_count chunks))
    with (chunk_triple_count c + list_sum (map chunk_triple_count chunks)).
  unfold chunk_triple_count at 1 3.
  pose proof (extract_entities_simple_length (get_str (chunk_text c))).
  lia.
Qed.

Section Generator.

Variables BUCKET_NAME ONTOLOGY_SCHEMA_VERSION RDF_FORMAT now : str.
Variable put_object : S3.PutObject -> result unit.
Variable event : Event.t.

Let run := RdfGeneratorLambda.handler BUCKET_NAME ONTOLOGY_SCHEMA_VERSION
             RDF_FORMAT now put_object event.

Lemma generator_handler_cases :
  (exists request : S3.PutObject,
     snd run = [request]
     /\ put_object request = Ok tt
     /\ S3.Bucket request = BUCKET_NAME
     /\ S3.Key request = staging_key event
     /\ RdfGeneratorLambda.serialize_rdf (event_graph now event) RDF_FORMAT
        = Ok (S3.Body request)
     /\ truthy (Event.documentId event) = true
     /\ Event.success (fst run) = Some true
     /\ Event.rdfS3Key (fst run) = Some (staging_key event)
     /\ Event.rdfBucket (fst run) = Some BUCKET_NAME
     /\ Event.tripleCount (fst run) = Some (length (event_graph now event))
     /\ Event.documentId (fst run) = Event.documentId event)
  \/ (Event.success (fst run) = Some false
      /\ Event.stage (fst run) = Some ("rdf-generation" : str)
      /\ Event.rdfS3Key (fst run) = Event.rdfS3Key event
      /\ forall request : S3.PutObject,
           In request (snd run) -> exists e, put_object request = Raise e).
Proof.
  unfold run, RdfGeneratorLambda.handler, RdfGeneratorLambda.handler_try.
  fold (event_graph now event). fold (staging_key event).
  destruct (truthy (Event.documentId event)) eqn:Hid; cbn [negb].
  2:{ right. cbn. repeat split. intros r []. }
  destruct (RdfGeneratorLambda.serialize_rdf _ _) as [content|e] eqn:Hs.
  2:{ right. cbn. repeat split. intros r []. }
  match goal with |- context [put_object ?r] => set (request := r) end.
  destruct (put_object request) as [[]|e] eqn:Hp.
  - left. exists request. cbn. repeat split; assumption.
  - right. cbn. repeat split. intros r [<-|[]]. now exists e.
Qed.

End Generator.

End GeneratorFacts.

(** ** Rows and typed rows *)

Module RowFacts.

Import RdfGenerator OntologyValidator Views PipelineViews.
Import PyStrFacts ODictFacts InstanceFacts CardinalityFacts TurtleFacts.

Lemma get_map_values {V W : Type} (f : V -> W) (k : str) (d : ODict.odict V) :
  ODict.get k (map_values f d) = option_map f (ODict.get k d).
Proof.
  induction d as [|[k0 v0] d IH]; [reflexivity|].
  cbn [map_values map fst snd ODict.get].
  destruct (str_eqb k k0); [reflexivity | exact IH].
Qed.

Lemma set_map_values {V W : Type} (f : V -> W) (k : str) (v : V)
    (d : ODict.odict V) :
  ODict.set k (f v) (map_values f d) = map_values f (ODict.set k v d).
Proof.
  induction d as [|[k0 v0] d IH]; [reflexivity|].
  cbn [map_values map fst snd ODict.set].
  destruct (str_eqb k k0); cbn [map fst snd]; [reflexivity|].
  f_equal. exact IH.
Qed.

Lemma mem_map_values {V W : Type} (f : V -> W) (k : str) (d : ODict.odict V) :
  ODict.mem k (map_values f d) = ODict.mem k d.
Proof.
  unfold ODict.mem. rewrite get_map_values. now destruct (ODict.get k d).
Qed.

Lemma getitem_mem {V : Type} (d : ODict.odict V) (k : str) (dflt : V) :
  ODict.mem k d = true -> getitem d k = Ok (ODict.get_default k dflt d).
Proof.
  unfold ODict.mem, getitem, ODict.get_default.
  now destruct (ODict.get k d).
Qed.

Lemma for_each_app {A S : Type} (body : S -> A -> result S) (l1 l2 : list A)
    (st : S) :
  for_each body (l1 ++ l2) st
  = (st' <- for_each body l1 st ;; for_each body l2 st').
Proof.
  revert st. induction l1 as [|a l1 IH]; intros st; [reflexivity|].
  cbn [app for_each]. destruct (body st a); cbn [bind]; [apply IH | reflexivity].
Qed.

Lemma for_each_ok {A S : Type} (body : S -> A -> result S) (g : S -> A -> S)
    (l : list A) (st : S) :
  (forall st a, In a l -> body st a = Ok (g st a)) ->
  for_each body l st = Ok (fold_left g l st).
Proof.
  revert st. induction l as [|a l IH]; intros st H; [reflexivity|].
  cbn [for_each fold_left]. rewrite H by now left. cbn [bind].
  apply IH. intros; apply H; now right.
Qed.

Lemma for_each_ext_in {A S : Type} (f g : S -> A -> result S) (l : list A)
    (st : S) :
  (forall st a, In a l -> f st a = g st a) ->
  for_each f l st = for_each g l st.
Proof.
  revert st. induction l as [|a l IH]; intros st H; [reflexivity|].
  cbn [for_each]. rewrite H by now left.
  destruct (g st a); cbn [bind]; [|reflexivity].
  apply IH. intros; apply H; now right.
Qed.

Lemma for_each_map {A B S : Type} (body : S -> B -> result S) (f : A -> B)
    (l : list A) (st : S) :
  for_each body (map f l) st = for_each (fun st a => body st (f a)) l st.
Proof.
  revert st. induction l as [|a l IH]; intros st; [reflexivity|].
  cbn [map for_each]. destruct (body st (f a)); cbn [bind]; [apply IH|reflexivity].
Qed.

Lemma fold_left_map {A B S : Type} (g : S -> B -> S) (f : A -> B) (l : list A)
    (st : S) :
  fold_left g (map f l) st = fold_left (fun st a => g st (f a)) l st.
Proof.
  revert st. induction l as [|a l IH]; intros st; [reflexivity|].
  cbn [map fold_left]. apply IH.
Qed.

(** Check 1 *)

Lemma defined_classes_rows (m : OntologyValidatorLambda.Model) :
  forallb (ODict.mem "class") (OntologyValidatorLambda.classes m) = true ->
  OntologyValidatorLambda.defined_classes m = Ok (defined_classes (model_of_rows m)).
Proof.
  intros H. unfold OntologyValidatorLambda.defined_classes, defined_classes, model_of_rows.
  cbn [classes]. rewrite map_map.
  rewrite (for_each_ok _ (fun (defined : list str) (c : OntologyValidatorLambda.Row) =>
                            defined ++ [ODict.get_default "class" [] c])).
  - f_equal. rewrite fold_left_snoc_map. reflexivity.
  - intros st c Hin. rewrite forallb_forall in H.
    rewrite (getitem_mem c "class" []) by now apply H. reflexivity.
Qed.

(** Check 2 *)

Lemma property_definitions_rows (m : OntologyValidatorLambda.Model) :
  forallb (ODict.mem "property") (OntologyValidatorLambda.properties m) = true ->
  OntologyValidatorLambda.property_definitions m = Ok (row_definitions (OntologyValidatorLambda.properties m) ODict.empty).
Proof.
  intros H. unfold OntologyValidatorLambda.property_definitions, row_definitions.
  apply for_each_ok. intros st p Hin. rewrite forallb_forall in H.
  rewrite (getitem_mem p "property" []) by now apply H. reflexivity.
Qed.

Lemma row_definitions_typed (rows : list OntologyValidatorLambda.Row) (init : ODict.odict OntologyValidatorLambda.Row) :
  map_values property_of_row (row_definitions rows init)
  = fold_left (fun defs p => ODict.set (prop_property p) p defs)
              (map property_of_row rows) (map_values property_of_row init).
Proof.
  unfold row_definitions. revert init.
  induction rows as [|r rows IH]; intros init; [reflexivity|].
  cbn [map fold_left]. rewrite IH. f_equal.
  symmetry. apply set_map_values.
Qed.

Lemma domain_property_rows (defs : ODict.odict OntologyValidatorLambda.Row) (uri : str)
    (data : InstanceData) (w : list Issue) (e : str * list str) :
  OntologyValidatorLambda.domain_property defs uri data w e
  = domain_property (map_values property_of_row defs) uri data w e.
Proof.
  unfold OntologyValidatorLambda.domain_property, domain_property. destruct e as [q vals].
  rewrite get_map_values. destruct (ODict.get q defs); reflexivity.
Qed.

Lemma check_property_domains_rows (m : OntologyValidatorLambda.Model)
    (instances : ODict.odict InstanceData) (w : list Issue) :
  forallb (ODict.mem "property") (OntologyValidatorLambda.properties m) = true ->
  OntologyValidatorLambda.check_property_domains m instances w
  = Ok (check_property_domains (model_of_rows m) instances w).
Proof.
  intros H. unfold OntologyValidatorLambda.check_property_domains, check_property_domains.
  rewrite property_definitions_rows by assumption. cbn [bind]. f_equal.
  unfold property_definitions, model_of_rows. cbn [properties].
  change (@ODict.empty PropertyDef)
    with (map_values property_of_row (@ODict.empty OntologyValidatorLambda.Row)).
  rewrite <- row_definitions_typed.
  apply fold_left_ext_in. intros st entry _.
  apply fold_left_ext_in. intros st' e _. apply domain_property_rows.
Qed.

(** Check 3 *)

Lemma restrictions_by_class_rows (m : OntologyValidatorLambda.Model) :
  forallb complete_restriction (OntologyValidatorLambda.restrictions m) = true ->
  OntologyValidatorLambda.restrictions_by_class m = Ok (row_groups (OntologyValidatorLambda.restrictions m) ODict.empty).
Proof.
  intros H. unfold OntologyValidatorLambda.restrictions_by_class, row_groups.
  apply for_each_ok. intros st r Hin. rewrite forallb_forall in H.
  specialize (H r Hin). unfold complete_restriction in H.
  rewrite !andb_true_iff in H. destruct H as [[[Hc _] _] _].
  rewrite (getitem_mem r "class" []) by assumption. reflexivity.
Qed.

Lemma get_default_map_values {V W : Type} (f : V -> W) (k : str) (dflt : V)
    (d : ODict.odict V) :
  ODict.get_default k (f dflt) (map_values f d)
  = f (ODict.get_default k dflt d).
Proof.
  unfold ODict.get_default. rewrite get_map_values.
  now destruct (ODict.get k d).
Qed.

Lemma group_step_map {V W : Type} (f : V -> W) (c : str) (r : V)
    (d : ODict.odict (list V)) :
  map_values (map f)
    (ODict.set c
       (ODict.get_default c []
          (if negb (ODict.mem c d) then ODict.set c [] d else d) ++ [r])
       (if negb (ODict.mem c d) then ODict.set c [] d else d))
  = ODict.set c
      (ODict.get_default c []
         (if negb (ODict.mem c (map_values (map f) d))
          then ODict.set c [] (map_values (map f) d)
          else map_values (map f) d) ++ [f r])
      (if negb (ODict.mem c (map_values (map f) d))
       then ODict.set c [] (map_values (map f) d)
       else map_values (map f) d).
Proof.
  rewrite mem_map_values.
  rewrite <- (set_map_values (map f) c).
  rewrite map_app. cbn [map].
  rewrite <- (get_default_map_values (map f) c []). cbn [map].
  destruct (negb (ODict.mem c d)); [|reflexivity].
  now rewrite <- (set_map_values (map f) c []).
Qed.

Lemma row_groups_typed (rows : list OntologyValidatorLambda.Row) (init : ODict.odict (list OntologyValidatorLambda.Row)) :
  map_values (map restriction_of_row) (row_groups rows init)
  = fold_left
      (fun by_class restriction =>
         let class_uri := restr_class restriction in
         let by_class :=
           if negb (ODict.mem class_uri by_class)
           then ODict.set class_uri [] by_class else by_class in
         ODict.set class_uri
           (ODict.get_default class_uri [] by_class ++ [restriction]) by_class)
      (map restriction_of_row rows)
      (map_values (map restriction_of_row) init).
Proof.
  unfold row_groups. revert init.
  induction rows as [|r rows IH]; intros init; [reflexivity|].
  cbn [map fold_left]. rewrite IH. f_equal.
  apply (group_step_map restriction_of_row).
Qed.

Lemma group_step_members {V : Type} (c : str) (r0 : V)
    (d : ODict.odict (list V)) (k : str) (l : list V) (r : V) :
  In (k, l)
     (ODict.set c
        (ODict.get_default c []
           (if negb (ODict.mem c d) then ODict.set c [] d else d) ++ [r0])
        (if negb (ODict.mem c d) then ODict.set c [] d else d)) ->
  In r l ->
  r = r0 \/ exists l' : list V, In (k, l') d /\ In r l'.
Proof.
  intros Hin Hr. apply In_set in Hin. destruct Hin as [[-> ->]|Hin].
  - apply in_app_or in Hr. destruct Hr as [Hr|[<-|[]]]; [|now left].
    right. destruct (negb (ODict.mem c d)).
    + rewrite get_default_set, str_eqb_refl in Hr. contradiction.
    + unfold ODict.get_default in Hr.
      destruct (ODict.get c d) as [v|] eqn:G; [|contradiction].
      apply get_In in G. now exists v.
  - right. destruct (negb (ODict.mem c d)).
    + apply In_set in Hin. destruct Hin as [[-> ->]|Hin]; [contradiction|].
      now exists l.
    + now exists l.
Qed.

Lemma row_groups_members (rows : list OntologyValidatorLambda.Row) (init : ODict.odict (list OntologyValidatorLambda.Row))
    (k : str) (l : list OntologyValidatorLambda.Row) (r : OntologyValidatorLambda.Row) :
  In (k, l) (row_groups rows init) -> In r l ->
  In r rows \/ exists l' : list OntologyValidatorLambda.Row, In (k, l') init /\ In r l'.
Proof.
  unfold row_groups. revert init.
  induction rows as [|r0 rows IH]; intros init Hin Hr.
  - right. now exists l.
  - cbn [fold_left] in Hin. destruct (IH _ Hin Hr) as [H|(l' & H1 & H2)].
    + left. now right.
    + destruct (group_step_members _ r0 init k l' r H1 H2) as [->|H].
      * left. now left.
      * now right.
Qed.

Lemma cardinality_restriction_rows (uri : str) (data : InstanceData)
    (v : list Issue) (r : OntologyValidatorLambda.Row) :
  complete_restriction r = true ->
  OntologyValidatorLambda.cardinality_restriction uri data v r
  = cardinality_restriction uri data v (restriction_of_row r).
Proof.
  unfold complete_restriction. rewrite !andb_true_iff.
  intros [[[_ Hp] Ht] Hv].
  unfold OntologyValidatorLambda.cardinality_restriction, cardinality_restriction.
  rewrite (getitem_mem r "property" []) by assumption.
  rewrite (getitem_mem r "restrictionType" []) by assumption.
  rewrite (getitem_mem r "value" []) by assumption.
  reflexivity.
Qed.

Lemma check_cardinality_rows (m : OntologyValidatorLambda.Model)
    (instances : ODict.odict InstanceData) (v : list Issue) :
  forallb complete_restriction (OntologyValidatorLambda.restrictions m) = true ->
  OntologyValidatorLambda.check_cardinality m instances v
  = check_cardinality (model_of_rows m) instances v.
Proof.
  intros H. unfold OntologyValidatorLambda.check_cardinality, check_cardinality.
  rewrite restrictions_by_class_rows by assumption. cbn [bind].
  unfold restrictions_by_class, model_of_rows. cbn [restrictions].
  change (@ODict.empty (list Restriction))
    with (map_values (map restriction_of_row) (@ODict.empty (list OntologyValidatorLambda.Row))).
  rewrite <- row_groups_typed.
  apply for_each_ext_in. intros st entry _.
  apply for_each_ext_in. intros st' c _.
  unfold OntologyValidatorLambda.cardinality_type, cardinality_type.
  rewrite get_map_values.
  destruct (ODict.get c (row_groups (OntologyValidatorLambda.restrictions m) ODict.empty))
    as [rs|] eqn:G; cbn [option_map]; [|reflexivity].
  rewrite for_each_map. apply for_each_ext_in. intros st'' r Hr.
  apply cardinality_restriction_rows.
  rewrite forallb_forall in H. apply H.
  apply get_In in G.
  destruct (row_groups_members _ _ _ _ r G Hr) as [Hin|(l' & [] & _)].
  exact Hin.
Qed.

Lemma check_class_membership_rows (m : OntologyValidatorLambda.Model)
    (instances : ODict.odict InstanceData) (w : list Issue) :
  forallb (ODict.mem "class") (OntologyValidatorLambda.classes m) = true ->
  OntologyValidatorLambda.check_class_membership m instances w
  = Ok (check_class_membership (model_of_rows m) instances w).
Proof.
  intros H. unfold OntologyValidatorLambda.check_class_membership.
  now rewrite defined_classes_rows.
Qed.

Lemma validate_rows (triples : list Tuple) (m : OntologyValidatorLambda.Model) :
  complete_rows m = true ->
  OntologyValidatorLambda.validate_against_ontology triples m
  = validate_against_ontology triples (model_of_rows m).
Proof.
  unfold complete_rows. rewrite !andb_true_iff. intros [[Hc Hp] Hr].
  unfold OntologyValidatorLambda.validate_against_ontology, validate_against_ontology.
  rewrite check_class_membership_rows by assumption. cbn [bind].
  rewrite check_property_domains_rows by assumption. cbn [bind].
  now rewrite check_cardinality_rows.
Qed.

End RowFacts.

(** ** The validator's handler *)

Module HandlerFacts.

Import RdfGenerator OntologyValidator Views PipelineViews.
Import PyStrFacts ODictFacts ValidatorFacts TurtleFacts GeneratorFacts
  RowFacts.

Lemma fetch_unavailable (EP PORT : str)
    (http : str -> str -> result OntologyValidatorLambda.Response) :
  schema_unavailable EP PORT http = true ->
  OntologyValidatorLambda.fetch_ontology_model EP PORT http = OntologyValidatorLambda.mkModel [] [] [].
Proof.
  unfold schema_unavailable, query_fails, OntologyValidatorLambda.fetch_ontology_model.
  fold (sparql_endpoint EP PORT). cbn zeta.
  destruct (OntologyValidatorLambda.execute_sparql_query http _ OntologyValidatorLambda.classes_query);
    cbn [bind orb]; [|reflexivity].
  destruct (OntologyValidatorLambda.execute_sparql_query http _ OntologyValidatorLambda.properties_query);
    cbn [bind orb]; [|reflexivity].
  destruct (OntologyValidatorLambda.execute_sparql_query http _ OntologyValidatorLambda.restrictions_query);
    cbn [bind orb]; [discriminate|reflexivity].
Qed.

Lemma handler_rows (BUCKET EP PORT : str) (get_object : str -> str -> result str)
    (http : str -> str -> result OntologyValidatorLambda.Response) (event : Event.t) :
  has_keys event = true ->
  complete_rows (OntologyValidatorLambda.fetch_ontology_model EP PORT http) = true ->
  OntologyValidatorLambda.handler BUCKET EP PORT get_object http event
  = handler (get_object (event_bucket BUCKET event)
                        (get_str (Event.rdfS3Key event)))
            (model_of_rows (OntologyValidatorLambda.fetch_ontology_model EP PORT http)).
Proof.
  unfold has_keys. rewrite andb_true_iff. intros [Hd Hk] Hc.
  unfold OntologyValidatorLambda.handler, handler. rewrite Hd, Hk. cbn [negb orb].
  fold (event_bucket BUCKET event).
  destruct (get_object _ _) as [content|e]; cbn [bind]; [|reflexivity].
  now rewrite validate_rows.
Qed.

Lemma handler_unavailable (BUCKET EP PORT : str)
    (get_object : str -> str -> result str)
    (http : str -> str -> result OntologyValidatorLambda.Response) (event : Event.t) (content : str) :
  has_keys event = true ->
  get_object (event_bucket BUCKET event) (get_str (Event.rdfS3Key event))
  = Ok content ->
  schema_unavailable EP PORT http = true ->
  OntologyValidatorLambda.handler BUCKET EP PORT get_object http event
  = Completed PASSED [] []
      [ "class_membership" : str; "property_domains_ranges" : str;
        "cardinality_constraints" : str ] true.
Proof.
  intros Hk Hg Hu.
  rewrite handler_rows; [|assumption|now rewrite fetch_unavailable].
  rewrite Hg, fetch_unavailable by assumption.
  unfold handler. cbn [bind].
  change (model_of_rows (OntologyValidatorLambda.mkModel [] [] [])) with empty_model.
  unfold validate_against_ontology, empty_model.
  rewrite check_class_membership_no_classes,
    check_property_domains_no_properties, check_cardinality_no_restrictions.
  reflexivity.
Qed.

(** *** From the generator to the validator *)

Lemma truthy_staging_key (event : Event.t) :
  truthy (Some (staging_key event)) = true.
Proof. reflexivity. Qed.

Lemma staged_graph_validated_aux
    (BUCKET_NAME ONTOLOGY_SCHEMA_VERSION RDF_FORMAT now : str)
    (put_object : S3.PutObject -> result unit) (event : Event.t)
    (BUCKET' EP PORT : str) (http : str -> str -> result OntologyValidatorLambda.Response) :
  let run := RdfGeneratorLambda.handler BUCKET_NAME ONTOLOGY_SCHEMA_VERSION
               RDF_FORMAT now put_object event in
  Event.success (fst run) = Some true ->
  complete_rows (OntologyValidatorLambda.fetch_ontology_model EP PORT http) = true ->
  exists content : str,
    RdfGeneratorLambda.serialize_rdf (event_graph now event) RDF_FORMAT
    = Ok content
    /\ OntologyValidatorLambda.handler BUCKET' EP PORT (S3.get_object (snd run)) http (fst run)
       = handler (Ok content)
                 (model_of_rows (OntologyValidatorLambda.fetch_ontology_model EP PORT http)).
Proof.
  intros run Hs Hc.
  destruct (generator_handler_cases BUCKET_NAME ONTOLOGY_SCHEMA_VERSION
              RDF_FORMAT now put_object event)
    as [(request & Hp & _ & Hb & Hk & Hser & Hid & _ & Hkey & Hbucket & _ & Hdoc)
       |(Hf & _)].
  2:{ fold run in Hf. congruence. }
  fold run in Hp, Hkey, Hbucket, Hdoc.
  exists (S3.Body request). split; [assumption|].
  rewrite handler_rows; [|unfold has_keys; rewrite Hdoc, Hid, Hkey; reflexivity
                         |assumption].
  f_equal. unfold event_bucket. rewrite Hbucket, Hkey, Hp.
  cbn [get_str]. unfold S3.get_object. cbn [rev app find].
  unfold S3.stored_at. rewrite Hb, Hk, !str_eqb_refl. reflexivity.
Qed.

(** *** Rows of a results document *)

Lemma parse_sparql_results_bindings (bs : list OntologyValidatorLambda.Binding) :
  OntologyValidatorLambda.parse_sparql_results
    (OntologyValidatorLambda.mkSparqlResults (Some (OntologyValidatorLambda.mkResultsObject (Some bs))))
  = map OntologyValidatorLambda.parse_binding bs.
Proof. unfold OntologyValidatorLambda.parse_sparql_results. now rewrite fold_left_snoc_map. Qed.

Lemma parse_binding_fold (b : OntologyValidatorLambda.Binding) (init : OntologyValidatorLambda.Row) (var : str) :
  NoDup (ODict.keys b) ->
  ODict.get var
    (fold_left
       (fun (parsed : OntologyValidatorLambda.Row) (entry : str * OntologyValidatorLambda.Term) =>
          let (v, value) := entry in
          ODict.set v (ODict.get_default "value" [] value) parsed)
       b init)
  = match ODict.get var b with
    | Some term => Some (term_value term)
    | None => ODict.get var init
    end.
Proof.
  revert init. induction b as [|[k t] b IH]; intros init Hnd; [reflexivity|].
  inversion Hnd as [|? ? Hk Hnd']; subst.
  cbn [fold_left ODict.get]. rewrite IH by assumption. rewrite get_set.
  destruct (str_eqb var k) eqn:E; [|reflexivity].
  apply str_eqb_eq in E. subst k.
  destruct (ODict.get var b) eqn:G; [|reflexivity].
  exfalso. apply Hk. apply get_In in G.
  change var with (fst (var, t0)). now apply in_map.
Qed.

Lemma parse_binding_get (b : OntologyValidatorLambda.Binding) (var : str) :
  NoDup (ODict.keys b) ->
  ODict.get var (OntologyValidatorLambda.parse_binding b)
  = option_map term_value (ODict.get var b).
Proof.
  intros H. unfold OntologyValidatorLambda.parse_binding. rewrite parse_binding_fold by assumption.
  now destruct (ODict.get var b).
Qed.

(** *** Rows without a key *)

Lemma for_each_guard {A S : Type} (good : A -> bool) (g : S -> A -> S)
    (e : exn) (body : S -> A -> result S) (l : list A) (st : S) :
  (forall st a, body st a = if good a then Ok (g st a) else Raise e) ->
  for_each body l st
  = if forallb good l then Ok (fold_left g l st) else Raise e.
Proof.
  intros H. revert st. induction l as [|a l IH]; intros st; [reflexivity|].
  cbn [for_each forallb fold_left]. rewrite H.
  destruct (good a); cbn [bind andb]; [apply IH | reflexivity].
Qed.

Lemma getitem_cases {V : Type} (d : ODict.odict V) (k : str) (dflt : V) :
  getitem d k
  = if ODict.mem k d then Ok (ODict.get_default k dflt d)
    else Raise (KeyError k).
Proof.
  unfold getitem, ODict.mem, ODict.get_default. now destruct (ODict.get k d).
Qed.

Lemma defined_classes_missing (m : OntologyValidatorLambda.Model) :
  forallb (ODict.mem "class") (OntologyValidatorLambda.classes m) = false ->
  OntologyValidatorLambda.defined_classes m = Raise (KeyError "class").
Proof.
  intros H. unfold OntologyValidatorLambda.defined_classes.
  rewrite (for_each_guard (ODict.mem "class")
             (fun (defined : list str) (c : OntologyValidatorLambda.Row) =>
                defined ++ [ODict.get_default "class" [] c])
             (KeyError "class")).
  - now rewrite H.
  - intros st c. rewrite (getitem_cases c "class" []).
    now destruct (ODict.mem "class" c).
Qed.

Lemma property_definitions_missing (m : OntologyValidatorLambda.Model) :
  forallb (ODict.mem "property") (OntologyValidatorLambda.properties m) = false ->
  OntologyValidatorLambda.property_definitions m = Raise (KeyError "property").
Proof.
  intros H. unfold OntologyValidatorLambda.property_definitions.
  rewrite (for_each_guard (ODict.mem "property")
             (fun (defs : ODict.odict OntologyValidatorLambda.Row) (p : OntologyValidatorLambda.Row) =>
                ODict.set (ODict.get_default "property" [] p) p defs)
             (KeyError "property")).
  - now rewrite H.
  - intros st p. rewrite (getitem_cases p "property" []).
    now destruct (ODict.mem "property" p).
Qed.

Lemma restrictions_by_class_missing (m : OntologyValidatorLambda.Model) :
  forallb (ODict.mem "class") (OntologyValidatorLambda.restrictions m) = false ->
  OntologyValidatorLambda.restrictions_by_class m = Raise (KeyError "class").
Proof.
  intros H. unfold OntologyValidatorLambda.restrictions_by_class.
  rewrite (for_each_guard (ODict.mem "class")
             (fun (by_class : ODict.odict (list OntologyValidatorLambda.Row)) (restriction : OntologyValidatorLambda.Row) =>
                let class_uri := ODict.get_default "class" [] restriction in
                let by_class :=
                  if negb (ODict.mem class_uri by_class)
                  then ODict.set class_uri [] by_class else by_class in
                ODict.set class_uri
                  (ODict.get_default class_uri [] by_class ++ [restriction])
                  by_class)
             (KeyError "class")).
  - now rewrite H.
  - intros st r. rewrite (getitem_cases r "class" []).
    now destruct (ODict.mem "class" r).
Qed.

Lemma validate_missing_keys (triples : list Tuple) (m : OntologyValidatorLambda.Model) :
  (forallb (ODict.mem "class") (OntologyValidatorLambda.classes m) = false ->
   OntologyValidatorLambda.validate_against_ontology triples m = Raise (KeyError "class"))
  /\ (forallb (ODict.mem "class") (OntologyValidatorLambda.classes m) = true ->
      forallb (ODict.mem "property") (OntologyValidatorLambda.properties m) = false ->
      OntologyValidatorLambda.validate_against_ontology triples m = Raise (KeyError "property"))
  /\ (forallb (ODict.mem "class") (OntologyValidatorLambda.classes m) = true ->
      forallb (ODict.mem "property") (OntologyValidatorLambda.properties m) = true ->
      forallb (ODict.mem "class") (OntologyValidatorLambda.restrictions m) = false ->
      OntologyValidatorLambda.validate_against_ontology triples m = Raise (KeyError "class")).
Proof.
  unfold OntologyValidatorLambda.validate_against_ontology. repeat split.
  - intros H. unfold OntologyValidatorLambda.check_class_membership.
    now rewrite defined_classes_missing.
  - intros Hc H. rewrite check_class_membership_rows by assumption.
    cbn [bind]. unfold OntologyValidatorLambda.check_property_domains.
    now rewrite property_definitions_missing.
  - intros Hc Hp H. rewrite check_class_membership_rows by assumption.
    cbn [bind]. rewrite check_property_domains_rows by assumption.
    cbn [bind]. unfold OntologyValidatorLambda.check_cardinality.
    now rewrite restrictions_by_class_missing.
Qed.

End HandlerFacts.

(** ** Keys and chunks *)

Module ChunkFacts.

Import PipelineViews PyStrFacts.

Lemma chunk_loop_stuck (text : str) (chunk_size overlap start : Z) :
  (start < Z.of_nat (length text))%Z ->
  (DocumentParser.chunk_end text chunk_size start < Z.of_nat (length text))%Z ->
  (DocumentParser.chunk_end text chunk_size start - overlap = start)%Z ->
  forall (fuel : nat) (chunk_id : Z) (chunks : list DocumentParser.TextChunk),
    DocumentParser.chunk_loop fuel text chunk_size overlap start chunk_id chunks = None.
Proof.
  intros Hs He Hn fuel. induction fuel as [|fuel IH]; intros chunk_id chunks;
    cbn [DocumentParser.chunk_loop].
  - apply Z.ltb_lt in Hs. now rewrite Hs.
  - pose proof Hs as Hs'. apply Z.ltb_lt in Hs'. rewrite Hs'. cbn [negb].
    apply Z.ltb_lt in He. rewrite He, Hn.
    destruct (strip _); apply IH.
Qed.

Lemma chunk_end_sentence (text : str) (chunk_size overlap : Z) :
  (chunk_size < Z.of_nat (length text))%Z ->
  (0 < overlap)%Z ->
  DocumentParser.rfind ". " text 0 chunk_size = (overlap - 1)%Z ->
  DocumentParser.chunk_end text chunk_size 0 = overlap.
Proof.
  intros Hl Ho Hr. unfold DocumentParser.chunk_end.
  rewrite Z.add_0_l, Z.min_l by lia.
  apply Z.ltb_lt in Hl. rewrite Hl. cbn [DocumentParser.sentence_boundary].
  rewrite Hr. replace (overlap - 1 =? -1)%Z with false by (symmetry; lia).
  cbn [negb]. lia.
Qed.

Lemma create_text_chunks_stuck (text : str) (chunk_size overlap : Z) :
  let cleaned := strip (DocumentParser.sub_whitespace false text) in
  (chunk_size < Z.of_nat (length cleaned))%Z ->
  (0 < overlap <= chunk_size)%Z ->
  DocumentParser.rfind ". " cleaned 0 chunk_size = (overlap - 1)%Z ->
  forall fuel : nat, DocumentParser.create_text_chunks fuel text chunk_size overlap = None.
Proof.
  intros cleaned Hl Ho Hr fuel. unfold DocumentParser.create_text_chunks. fold cleaned.
  replace (Z.of_nat (length cleaned) <=? chunk_size)%Z with false
    by (symmetry; lia).
  pose proof (chunk_end_sentence cleaned chunk_size overlap Hl
                ltac:(lia) Hr) as He.
  apply chunk_loop_stuck; rewrite ?He; lia.
Qed.

Lemma not_mem_char (c : ascii) (s : str) :
  mem_char c s = false ->
  forallb (fun x => negb (Ascii.eqb x c)) s = true.
Proof.
  unfold mem_char. induction s as [|x s IH]; cbn [existsb forallb];
    [reflexivity|].
  rewrite orb_false_iff. intros [Hx Hs].
  rewrite Ascii.eqb_sym, Hx. now rewrite IH.
Qed.

Lemma split_upload_key (document_id file_name : str) :
  mem_char "/" document_id = false ->
  split_char "/" (UploadHandler.s3_key document_id file_name)
  = ("documents" : str) :: document_id :: split_char "/" file_name.
Proof.
  intros H. unfold UploadHandler.s3_key.
  change ("documents/" ++ document_id ++ "/" ++ file_name)
    with ("documents" ++ "/"%char :: (document_id ++ "/"%char :: file_name)).
  rewrite split_char_app, split_char_app.
  rewrite (split_char_none "/" document_id) by now apply not_mem_char.
  reflexivity.
Qed.

Lemma upload_key_read_back (document_id file_name : str) :
  mem_char "/" document_id = false ->
  DocumentParser.extract_document_id (UploadHandler.s3_key document_id file_name)
  = document_id
  /\ (mem_char "/" file_name = false ->
      DocumentParser.file_name_of (UploadHandler.s3_key document_id file_name) = file_name).
Proof.
  intros H. unfold DocumentParser.extract_document_id, DocumentParser.file_name_of.
  rewrite split_upload_key by assumption. split.
  - pose proof (split_char_nonempty "/" file_name).
    destruct (split_char "/" file_name); [contradiction|reflexivity].
  - intros Hf.
    now rewrite (split_char_none "/" file_name) by now apply not_mem_char.
Qed.

(** *** Texts without a sentence ending *)

Lemma occurs_in_skipn (p s : str) (i : nat) :
  occurs_in p s = false -> startswith p (skipn i s) = false.
Proof.
  revert s. induction i as [|i IH]; intros s H.
  - destruct s; cbn [occurs_in] in H; apply orb_false_iff in H; tauto.
  - destruct s as [|c s]; [cbn [skipn]|].
    + cbn [occurs_in] in H. apply orb_false_iff in H. tauto.
    + cbn [skipn]. apply IH. cbn [occurs_in] in H.
      apply orb_false_iff in H. tauto.
Qed.

Lemma rfind_absent (p s : str) (start end_ : Z) :
  occurs_in p s = false -> DocumentParser.rfind p s start end_ = (-1)%Z.
Proof.
  intros H. unfold DocumentParser.rfind. destruct (_ <=? _)%Z; [|reflexivity].
  generalize (Z.to_nat (DocumentParser.adjust (Z.of_nat (length s)) start)) as a.
  generalize (Z.to_nat
                (DocumentParser.adjust (Z.of_nat (length s)) end_ - Z.of_nat (length p)
                 - DocumentParser.adjust (Z.of_nat (length s)) start)) as k.
  intros k a. induction k as [|k IH]; cbn [DocumentParser.rfind_down];
    rewrite occurs_in_skipn by assumption; [reflexivity | exact IH].
Qed.

Lemma occurs_in_absent_char (p s : str) (c : ascii) :
  In c p -> ~ In c s -> occurs_in p s = false.
Proof.
  intros Hp. induction s as [|x s IH]; intros Hs; cbn [occurs_in].
  - destruct p; [contradiction | reflexivity].
  - rewrite IH by (intros H; apply Hs; now right). rewrite orb_false_r.
    destruct (startswith p (x :: s)) eqn:E; [|reflexivity].
    exfalso. apply Hs. revert E Hp. clear. revert s x.
    induction p as [|y p IHp]; intros s x E Hin; [contradiction|].
    cbn [startswith] in E. apply andb_true_iff in E. destruct E as [E1 E2].
    apply Ascii.eqb_eq in E1. subst y.
    destruct Hin as [->|Hin]; [now left|].
    destruct s as [|z s]; [destruct p; [contradiction|discriminate]|].
    right. now apply (IHp s z).
Qed.

Lemma sub_whitespace_plain (in_run : bool) (text : str) :
  forallb plain (DocumentParser.sub_whitespace in_run text) = true.
Proof.
  revert in_run. induction text as [|c text IH]; intros in_run;
    cbn [DocumentParser.sub_whitespace]; [reflexivity|].
  destruct (is_space c) eqn:E.
  - destruct in_run; [apply IH|]. cbn [forallb]. now rewrite IH.
  - cbn [forallb]. unfold plain at 1. rewrite E. cbn [negb orb andb]. apply IH.
Qed.

Lemma forallb_dropwhile (f g : ascii -> bool) (s : str) :
  forallb f s = true -> forallb f (dropwhile g s) = true.
Proof.
  induction s as [|c s IH]; cbn [dropwhile forallb]; [reflexivity|].
  intros H. destruct (g c); [|exact H].
  apply andb_true_iff in H. now apply IH.
Qed.

Lemma forallb_rev {A : Type} (f : A -> bool) (l : list A) :
  forallb f (rev l) = forallb f l.
Proof.
  induction l as [|a l IH]; [reflexivity|].
  cbn [rev forallb]. rewrite forallb_app, IH. cbn [forallb].
  now rewrite andb_true_r, andb_comm.
Qed.

Lemma forallb_strip (f : ascii -> bool) (s : str) :
  forallb f s = true -> forallb f (strip s) = true.
Proof.
  intros H. unfold strip, strip_by, rstrip_by, lstrip_by.
  rewrite forallb_rev. apply forallb_dropwhile. rewrite forallb_rev.
  now apply forallb_dropwhile.
Qed.

Lemma cleaned_no_newline (text : str) :
  ~ In newline (strip (DocumentParser.sub_whitespace false text)).
Proof.
  intros Hin.
  pose proof (forallb_strip plain _ (sub_whitespace_plain false text)) as H.
  rewrite forallb_forall in H. specialize (H _ Hin). discriminate.
Qed.

Lemma chunk_end_plain (text : str) (chunk_size start : Z) :
  ~ In newline text ->
  no_sentence_end text = true ->
  DocumentParser.chunk_end text chunk_size start
  = Z.min (start + chunk_size) (Z.of_nat (length text)).
Proof.
  intros Hn H. unfold no_sentence_end in H.
  apply andb_true_iff in H. destruct H as [H1 H2].
  apply negb_true_iff in H1, H2.
  unfold DocumentParser.chunk_end. destruct (_ <? _)%Z; [|reflexivity].
  cbn [DocumentParser.sentence_boundary].
  rewrite (rfind_absent ". ") by assumption. cbn [Z.eqb negb].
  rewrite (rfind_absent ["."%char; newline])
    by (apply (occurs_in_absent_char _ _ newline); [now right; left | assumption]).
  cbn [Z.eqb negb].
  rewrite (rfind_absent "! ") by assumption. cbn [Z.eqb negb].
  rewrite (rfind_absent ["?"%char; newline])
    by (apply (occurs_in_absent_char _ _ newline); [now right; left | assumption]).
  reflexivity.
Qed.

Lemma chunk_loop_ends (text : str) (chunk_size overlap : Z) :
  ~ In newline text ->
  no_sentence_end text = true ->
  (0 <= overlap < chunk_size)%Z ->
  forall (fuel : nat) (start chunk_id : Z) (chunks : list DocumentParser.TextChunk),
    (0 <= start)%Z ->
    (Z.of_nat (length text) - start <= Z.of_nat fuel)%Z ->
    exists chunks' : list DocumentParser.TextChunk,
      DocumentParser.chunk_loop fuel text chunk_size overlap start chunk_id chunks
      = Some chunks'.
Proof.
  intros Hn Hs Ho fuel.
  induction fuel as [|fuel IH]; intros start chunk_id chunks H0 Hf;
    cbn [DocumentParser.chunk_loop].
  - replace (start <? Z.of_nat (length text))%Z with false
      by (symmetry; apply Z.ltb_ge; lia).
    now exists chunks.
  - destruct (start <? Z.of_nat (length text))%Z eqn:E; cbn [negb];
      [|now exists chunks].
    apply Z.ltb_lt in E.
    rewrite chunk_end_plain by assumption.
    destruct (strip _);
      (destruct (Z.min (start + chunk_size) (Z.of_nat (length text))
                 <? Z.of_nat (length text))%Z eqn:E2;
       [apply Z.ltb_lt in E2; apply IH; lia | apply IH; lia]).
Qed.

Lemma create_text_chunks_ends (text : str) (chunk_size overlap : Z) :
  let cleaned := strip (DocumentParser.sub_whitespace false text) in
  no_sentence_end cleaned = true ->
  (0 <= overlap < chunk_size)%Z ->
  exists chunks : list DocumentParser.TextChunk,
    DocumentParser.create_text_chunks (length cleaned) text chunk_size overlap = Some chunks.
Proof.
  intros cleaned Hs Ho. unfold DocumentParser.create_text_chunks. fold cleaned.
  destruct (_ <=? _)%Z; [eexists; reflexivity|].
  apply chunk_loop_ends; try assumption; try lia.
  apply cleaned_no_newline.
Qed.

(** *** Chunk identifiers *)

Lemma numbered_snoc (chunks : list DocumentParser.TextChunk) (text : str) (start end_ : Z) :
  numbered chunks ->
  numbered (chunks ++ [ DocumentParser.mkTextChunk (Z.of_nat (length chunks)) text start end_
                          (Z.of_nat (length text)) ]).
Proof.
  intros [Hid Hlen]. split.
  - rewrite map_app, length_app, Hid. cbn [length map DocumentParser.chunkId].
    rewrite Nat.add_1_r, seq_S, map_app. reflexivity.
  - apply Forall_app. split; [assumption|]. now constructor.
Qed.

Lemma chunk_loop_numbered (text : str) (chunk_size overlap : Z) (fuel : nat) :
  forall (start : Z) (chunks chunks' : list DocumentParser.TextChunk),
    numbered chunks ->
    DocumentParser.chunk_loop fuel text chunk_size overlap start
                 (Z.of_nat (length chunks)) chunks = Some chunks' ->
    numbered chunks'.
Proof.
  induction fuel as [|fuel IH]; intros start chunks chunks' Hn;
    cbn [DocumentParser.chunk_loop].
  - destruct (negb _); [now intros [= <-] | discriminate].
  - destruct (negb _); [now intros [= <-]|].
    destruct (strip _) as [|c s] eqn:E.
    + now apply IH.
    + replace (Z.of_nat (length chunks) + 1)%Z
        with (Z.of_nat (length (chunks ++
                [ DocumentParser.mkTextChunk (Z.of_nat (length chunks)) (c :: s) start
                    (DocumentParser.chunk_end text chunk_size start)
                    (Z.of_nat (length (c :: s))) ])))
        by (rewrite length_app; cbn [length]; lia).
      apply IH. now apply numbered_snoc.
Qed.

Lemma create_text_chunks_numbered (fuel : nat) (text : str)
    (chunk_size overlap : Z) (chunks : list DocumentParser.TextChunk) :
  DocumentParser.create_text_chunks fuel text chunk_size overlap = Some chunks ->
  numbered chunks.
Proof.
  unfold DocumentParser.create_text_chunks. destruct (_ <=? _)%Z.
  - intros [= <-]. split; [reflexivity|]. now repeat constructor.
  - apply (chunk_loop_numbered _ _ _ _ _ []). split; [reflexivity|constructor].
Qed.

End ChunkFacts.

(** * The properties of the specification *)

Import RdfGenerator OntologyValidator Views Examples.
Import BuilderFacts ValidatorFacts ExtractFacts.
Import ODictFacts InstanceFacts CardinalityFacts ReachFacts ClassFacts.
Import ParserFacts TurtleFacts SafetyFacts IdentifierFacts.


(** C1 (as stated, refuted).  The graph of the end-to-end example holds the
    text-length triple, whose object is the quoted number 21 with the
    integer datatype tag.  After the fully-qualified form has been written and
    read back, no triple has that object, also when escapes are undone on both
    sides: the triple comes back with an object that has lost the opening
    quote and kept the closing one.  And the type triple of the document
    comes back with another predicate than the builder wrote. *)
Lemma round_trip_counterexample :
  In (mkTriple (doc_uri_of "doc-1") (NAMESPACE_ONTO ++ "hasTextLength")
               (typed "21" "xsd:integer"))
     (graph_of metadata_two_keywords)
  /\ existsb (fun tr => str_eqb (unescape_literal (object_of tr))
                                (unescape_literal (typed "21" "xsd:integer")))
             (staged metadata_two_keywords) = false
  /\ In (doc_uri_of "doc-1", NAMESPACE_ONTO ++ "hasTextLength",
         "21" ++ dquote :: "^^xsd:integer")
        (staged metadata_two_keywords)
  /\ In (mkTriple (doc_uri_of "doc-1") "rdf:type" (NAMESPACE_ONTO ++ "Document"))
        (graph_of metadata_two_keywords)
  /\ existsb (fun tr => str_eqb (predicate_of tr) "rdf:type")
             (staged metadata_two_keywords) = false.
Proof.
  split; [vm_compute; tauto|]. split; [vm_compute; reflexivity|].
  split; [vm_compute; tauto|]. split; [vm_compute; tauto|].
  vm_compute; reflexivity.
Qed.

(** C1 (amended).  For every graph the builder produces from a document
    identifier without whitespace and a timestamp without line break,
    reading back its fully-qualified form gives one triple per triple of the
    graph, in the order of the graph: the image [nt_image] of the triple, that
    is its subject without outer angle brackets, its predicate as a full URI,
    and its object as written on the line, with runs of whitespace collapsed,
    trailing periods and spaces dropped and outer angle brackets and double
    quotes stripped.  When the identifier, moreover, neither begins nor ends
    with an angle bracket or a double quote, the first two triples read back
    are the type triple of the document, with the document URI, the RDF type
    URI and the class URI, and the identifier triple, whose object is the
    identifier without its quotes.  The parser undoes no escape;
    [escape_literal] itself loses nothing: its five rules have an inverse. *)
Theorem ntriples_round_trip (now document_id text_content : str)
    (chunks : list Chunk) (metadata : Metadata) (file_name : str) :
  no_space document_id = true ->
  no_newline now = true ->
  let graph :=
    generate_rdf_graph now document_id text_content chunks metadata file_name in
  parse_turtle_simple (serialize_ntriples graph) = map nt_image graph
  /\ length (parse_turtle_simple (serialize_ntriples graph)) = length graph
  /\ (bare document_id = true ->
      exists rest : list Tuple,
        parse_turtle_simple (serialize_ntriples graph)
        = (doc_uri_of document_id, RDF_TYPE, NAMESPACE_ONTO ++ "Document")
          :: (doc_uri_of document_id, NAMESPACE_ONTO ++ "hasId", document_id)
          :: rest)
  /\ (forall text : str, unescape_literal (escape_literal text) = text).
Proof.
  intros Hdoc Hnow graph.
  assert (H : parse_turtle_simple (serialize_ntriples graph)
              = map nt_image graph)
    by (apply parse_serialize_ntriples;
        now apply generate_rdf_graph_line_safe).
  split; [exact H|]. split; [now rewrite H, length_map|].
  split; [|exact unescape_escape_literal].
  intros Hbare. rewrite H. now apply document_node_read_back.
Qed.

Lemma ntriples_round_trip_witness :
  parse_turtle_simple (serialize_ntriples (graph_of metadata_two_keywords))
  = map nt_image (graph_of metadata_two_keywords)
  /\ length (parse_turtle_simple
               (serialize_ntriples (graph_of metadata_two_keywords)))
     = length (graph_of metadata_two_keywords)
  /\ (bare "doc-1" = true ->
      exists rest : list Tuple,
        parse_turtle_simple (serialize_ntriples (graph_of metadata_two_keywords))
        = (doc_uri_of "doc-1", RDF_TYPE, NAMESPACE_ONTO ++ "Document")
          :: (doc_uri_of "doc-1", NAMESPACE_ONTO ++ "hasId", "doc-1" : str)
          :: rest)
  /\ (forall text : str, unescape_literal (escape_literal text) = text).
Proof.
  apply (ntriples_round_trip now0 "doc-1" text0 [chunk0]
           metadata_two_keywords "a.txt"); reflexivity.
Defined.

(** C2 (as stated, refuted).  The keyword field ["alpha,alpha"] makes the
    builder declare the keyword node twice; staged in the fully-qualified
    form and read back, the node has the type [Keyword] and two values for
    [hasValue].  Against a schema with one cardinality-one restriction on
    [hasValue] for [Keyword], validation reports two [cardinality_violation]
    issues for that node and property, not one. *)
Lemma cardinality_one_counterexample :
  In (alpha_node, RDF_TYPE, Keyword_class) (staged metadata_repeated_keyword)
  /\ restrictions schema_exactly_one
     = [mkRestriction Keyword_class hasValue_property "cardinality" "1"]
  /\ length (values_of alpha_node hasValue_property
                       (staged metadata_repeated_keyword)) = 2
  /\ exists res : ValidationResult,
       validate_against_ontology (staged metadata_repeated_keyword)
                                 schema_exactly_one = Ok res
       /\ length (filter (issue_about "cardinality_violation" alpha_node
                                      hasValue_property)
                         (violations res)) = 2.
Proof.
  split; [vm_compute; tauto|]. split; [reflexivity|].
  split; [vm_compute; reflexivity|].
  eexists. split; [vm_compute; reflexivity|]. vm_compute; reflexivity.
Qed.

(** C2 (amended).  Provided [int] accepts the value of every
    [minCardinality] restriction listed for a class that some instance is
    declared to have, validation completes, and the number of
    [cardinality_violation] issues about an instance [s] and a property [p]
    is: none when [s] carries exactly one value for [p]; otherwise one per
    pair of a type occurrence of [s] and a cardinality-one restriction on [p]
    listed for that type.  So it is exactly one when [s] carries zero or two
    values and there is exactly one such pair. *)
Theorem cardinality_one_violations (triples : list Tuple)
    (model : OntologyModel) (s p : str) :
  reached_minimums_parse triples model = true ->
  exists res : ValidationResult,
    validate_against_ontology triples model = Ok res
    /\ let reported :=
         length (filter (issue_about "cardinality_violation" s p)
                        (violations res)) in
       let carried := length (values_of s p triples) in
       (carried = 1 -> reported = 0)
       /\ (carried <> 1 ->
           reported = cardinality_one_pairs s p triples model)
       /\ (cardinality_one_pairs s p triples model = 1 ->
           carried = 0 \/ carried = 2 -> reported = 1).
Proof.
  intros Hm.
  destruct (validate_against_ontology_reached triples model Hm)
    as (res & Hres & Hviol & _).
  exists res. split; [exact Hres|]. cbn zeta.
  rewrite Hviol, violations_about.
  destruct (length (values_of s p triples) =? 1) eqn:E.
  - apply Nat.eqb_eq in E. repeat split; intros; lia.
  - apply Nat.eqb_neq in E. repeat split; intros; lia.
Qed.

(** The keyword node of [alpha] is declared a [Keyword] once and carries
    no name: against the schema that wants exactly one name, one violation
    is reported. *)
Lemma cardinality_one_violations_witness :
  exists res : ValidationResult,
    validate_against_ontology (staged metadata_two_keywords)
                              schema_exactly_one_name = Ok res
    /\ let reported :=
         length (filter (issue_about "cardinality_violation" alpha_node
                                     hasName_property)
                        (violations res)) in
       let carried :=
         length (values_of alpha_node hasName_property
                           (staged metadata_two_keywords)) in
       (carried = 1 -> reported = 0)
       /\ (carried <> 1 ->
           reported = cardinality_one_pairs alpha_node hasName_property
                        (staged metadata_two_keywords) schema_exactly_one_name)
       /\ (cardinality_one_pairs alpha_node hasName_property
             (staged metadata_two_keywords) schema_exactly_one_name = 1 ->
           carried = 0 \/ carried = 2 -> reported = 1).
Proof.
  apply (cardinality_one_violations (staged metadata_two_keywords)
           schema_exactly_one_name alpha_node hasName_property).
  reflexivity.
Defined.

(** C3 (as stated, refuted).  The keyword node of [alpha] has the type
    [Keyword] and one value for [hasValue]; the schema declares a minimum of
    two for it.  A second [minCardinality] restriction of the schema has the
    empty string as value: [int] raises on it, validation ends with the
    exception, and no violation is returned.  The same happens with a
    minimum of 4301 digits, which [int] refuses for its length. *)
Lemma min_cardinality_counterexample :
  In (alpha_node, RDF_TYPE, Keyword_class) (staged metadata_two_keywords)
  /\ In at_least_two (restrictions schema_unreadable_minimum)
  /\ py_int (restr_value at_least_two) = Some 2%Z
  /\ length (values_of alpha_node hasValue_property
                       (staged metadata_two_keywords)) = 1
  /\ validate_against_ontology (staged metadata_two_keywords)
                               schema_unreadable_minimum
     = Raise (ValueError "invalid literal for int() with base 10: ''")
  /\ validationStatus
       (handler (Ok (serialize_ntriples (graph_of metadata_two_keywords)))
                schema_unreadable_minimum) = ERROR
  /\ validate_against_ontology (staged metadata_two_keywords)
                               schema_long_minimum
     = Raise (ValueError
                ("Exceeds the limit (4300 digits) for integer string "
                 ++ "conversion: value has 4301 digits; "
                 ++ "use sys.set_int_max_str_digits() to increase the limit")).
Proof.
  split; [vm_compute; tauto|]. split; [now left|].
  split; [reflexivity|]. split; [vm_compute; reflexivity|].
  split; [vm_compute; reflexivity|]. split; vm_compute; reflexivity.
Qed.

(** C3 (amended).  Provided [int] accepts the value of every
    [minCardinality] restriction listed for a class that some instance is
    declared to have, validation completes, and for an instance [s] with a
    declared type [c], a [minCardinality] restriction of the schema on class
    [c] and property [p] with minimum [m], and fewer than [m] values of [s]
    for [p], the violations hold a [min_cardinality_violation] about [s] and
    [p] whose [actual] is the number of values [s] carries for [p] and whose
    [min_expected] is [m]. *)
Theorem min_cardinality_violation_reported (triples : list Tuple)
    (model : OntologyModel) (s c : str) (r : Restriction) (m : Z) :
  reached_minimums_parse triples model = true ->
  In (s, RDF_TYPE, c) triples ->
  In r (restrictions model) ->
  restr_class r = c ->
  restr_restrictionType r = ("minCardinality" : str) ->
  py_int (restr_value r) = Some m ->
  (Z.of_nat (length (values_of s (restr_property r) triples)) < m)%Z ->
  exists (res : ValidationResult) (message : str),
    validate_against_ontology triples model = Ok res
    /\ In (MinCardinalityViolation s (restr_property r) m
             (length (values_of s (restr_property r) triples)) message)
          (violations res).
Proof.
  intros Hm Htype Hr Hc Hkind Hint Hfew.
  destruct (validate_against_ontology_reached triples model Hm)
    as (res & Hres & Hviol & _).
  exists res. eexists. split; [exact Hres|].
  rewrite Hviol. apply in_flat_map.
  apply types_of_In in Htype.
  exists (s, data_of (build_instances triples) s).
  split; [now apply (instance_entry triples s c)|].
  unfold instance_issues. cbn [fst snd]. apply in_flat_map.
  exists c. split.
  { destruct (build_instances_spec triples s) as [Ht _]. now rewrite Ht. }
  apply in_flat_map. exists r. split.
  { unfold restrictions_of. apply filter_In. split; [assumption|].
    now apply str_eqb_eq. }
  unfold restriction_issues, cardinality_restriction.
  rewrite Hkind. cbn [str_eqb Ascii.eqb andb].
  rewrite str_eqb_refl, Hint, prop_count_spec.
  apply Z.ltb_lt in Hfew. rewrite Hfew. cbn [app]. left. reflexivity.
Qed.

Lemma min_cardinality_violation_reported_witness :
  exists (res : ValidationResult) (message : str),
    validate_against_ontology (staged metadata_two_keywords) schema_at_least_two
    = Ok res
    /\ In (MinCardinalityViolation alpha_node (restr_property at_least_two) 2
             (length (values_of alpha_node (restr_property at_least_two)
                                (staged metadata_two_keywords))) message)
          (violations res).
Proof.
  apply (min_cardinality_violation_reported (staged metadata_two_keywords)
           schema_at_least_two alpha_node Keyword_class at_least_two 2%Z).
  - reflexivity.
  - vm_compute; tauto.
  - now left.
  - reflexivity.
  - reflexivity.
  - reflexivity.
  - vm_compute; reflexivity.
Defined.

(** C4.  Validation against the empty schema model, whatever the triples:
    it completes, with no violation and no warning (the class-membership and
    domain checks cannot fire), the status is [PASSED] and the stage reports
    success. *)
Theorem empty_schema_validation_passes (triples : list Tuple) :
  let res :=
    mkResult [] []
      [ "class_membership" : str; "property_domains_ranges" : str;
        "cardinality_constraints" : str ]
      (length (build_instances triples)) (length triples) in
  validate_against_ontology triples empty_model = Ok res
  /\ check_class_membership empty_model (build_instances triples) [] = []
  /\ check_property_domains empty_model (build_instances triples) [] = []
  /\ status_of res = PASSED
  /\ success (completed_result res) = true
  /\ (forall content : str,
        parse_turtle_simple content = triples ->
        handler (Ok content) empty_model
        = Completed PASSED [] [] (checks_performed res) true).
Proof.
  intros res.
  assert (H : validate_against_ontology triples empty_model = Ok res).
  { unfold validate_against_ontology, empty_model.
    rewrite check_cardinality_no_restrictions. cbn [bind].
    rewrite check_class_membership_no_classes,
      check_property_domains_no_properties.
    reflexivity. }
  split; [exact H|].
  split; [apply check_class_membership_no_classes|].
  split; [apply check_property_domains_no_properties|].
  split; [reflexivity|]. split; [reflexivity|].
  intros content <-. unfold handler. cbn [bind]. rewrite H. reflexivity.
Qed.

(** C5.  The outcome of a completed validation, as [handler] returns it:
    the status is [FAILED] exactly when there is a violation, [WARNING]
    exactly when there is none but there is a warning, [PASSED] exactly when
    there is neither; the success flag is true exactly when the status is not
    [FAILED], so a [WARNING] outcome reports success. *)
Theorem validation_status_outcome (res : ValidationResult) :
  let out := completed_result res in
  (validationStatus out = FAILED <-> violations res <> [])
  /\ (validationStatus out = WARNING <-> violations res = [] /\ warnings res <> [])
  /\ (validationStatus out = PASSED <-> violations res = [] /\ warnings res = [])
  /\ (success out = true <-> validationStatus out <> FAILED)
  /\ (validationStatus out = WARNING -> success out = true)
  /\ (forall (content : str) (model : OntologyModel),
        validate_against_ontology (parse_turtle_simple content) model = Ok res ->
        handler (Ok content) model = out).
Proof.
  intros out.
  assert (Hstatus : validationStatus out = status_of res) by reflexivity.
  assert (Hsuccess : success out = negb (status_eqb (status_of res) FAILED))
    by reflexivity.
  rewrite Hstatus, Hsuccess. clear Hstatus Hsuccess.
  split; [|split; [|split; [|split; [|split]]]].
  - unfold status_of.
    destruct (violations res), (warnings res); simpl; intuition congruence.
  - unfold status_of.
    destruct (violations res), (warnings res); simpl; intuition congruence.
  - unfold status_of.
    destruct (violations res), (warnings res); simpl; intuition congruence.
  - destruct (status_of res); simpl; intuition congruence.
  - now intros ->.
  - intros content model H. now apply handler_completed.
Qed.

(** C6 (as stated, refuted).  The metadata of the end-to-end example,
    [keywords = "alpha, beta"], splits into two keywords; the builder emits
    six triples for them, not [2 * 2 + 1]. *)
Lemma keyword_triple_count_counterexample :
  length (split_char "," (get_str (keywords metadata_two_keywords))) = 2
  /\ length (graph_of metadata_two_keywords)
     = length (graph_of (without_keywords metadata_two_keywords)) + 6
  /\ length (graph_of metadata_two_keywords)
     <> length (graph_of (without_keywords metadata_two_keywords)) + (2 * 2 + 1).
Proof.
  assert (E : length (graph_of metadata_two_keywords)
              = length (graph_of (without_keywords metadata_two_keywords)) + 6)
    by (vm_compute; reflexivity).
  split; [reflexivity|]. split; [exact E | rewrite E; lia].
Qed.

(** C6 (amended).  With [N] the number of tokens the keyword field splits
    into ([N = 0] when the field is absent or empty), the builder emits
    exactly [3 * N] triples for the keywords: the type, value and link triple
    of each token, token after token in the order of the split, between the
    document block and the rest of the graph. *)
Theorem keyword_triple_count (now document_id text_content : str)
    (chunks : list Chunk) (metadata : Metadata) (file_name : str) :
  let graph :=
    generate_rdf_graph now document_id text_content chunks metadata file_name in
  let base :=
    generate_rdf_graph now document_id text_content chunks
                       (without_keywords metadata) file_name in
  let tokens := keyword_tokens metadata in
  exists pre post : list Triple,
    base = pre ++ post
    /\ graph = pre ++ flat_map (keyword_triples (doc_uri_of document_id)) tokens
                 ++ post
    /\ length graph = length base + 3 * length tokens.
Proof.
  intros graph base tokens. subst graph base tokens.
  rewrite !generate_rdf_graph_blocks.
  rewrite keyword_tokens_without, after_keywords_without.
  exists (document_triples now document_id text_content file_name),
         (after_keywords document_id chunks metadata).
  repeat split.
  rewrite !length_app.
  rewrite (flat_map_length_const _ 3) by reflexivity.
  change (flat_map (keyword_triples (doc_uri_of document_id)) [])
    with (@nil Triple).
  simpl (length []). lia.
Qed.

(** C7 (as stated, refuted).  The line [<a <b c .] yields the triple
    [(a, b, c)] although neither of its first two tokens is a bracketed URI:
    only the opening bracket is tested.  And a continuation line of the
    compact form is not always dropped: when predicate and object are written
    as bracketed URIs, the line is read as a triple of its own, with the
    predicate as subject and the semicolon as object. *)
Lemma parse_unclosed_counterexample :
  parse_turtle_simple line_unclosed = [("a" : str, "b" : str, "c" : str)]
  /\ split_ws line_unclosed = ["<a" : str; "<b" : str; "c" : str; "." : str]
  /\ bracketed "<a" = false
  /\ bracketed "<b" = false
  /\ parse_turtle_simple (serialize_turtle graph_foreign_predicates)
     = [ ("http://other.example/p" : str, NAMESPACE_ENTITY ++ "x", ";" : str);
         ("http://other.example/q" : str, NAMESPACE_ENTITY ++ "y", []) ].
Proof. repeat split; vm_compute; reflexivity. Qed.

(** C7 (amended).  [parse_turtle_simple] reads its input one line at a
    time: the result is the concatenation of what each line stands for by
    itself, so nothing is carried from a line to the next.  A line that is
    blank after trimming, or begins with [#] or [@], stands for nothing.  A
    line stands for a triple only if it has at least three
    whitespace-separated tokens of which the first two begin with an opening
    angle bracket; the triple is then the two tokens without outer angle
    brackets and, as object, the remaining tokens joined by single spaces,
    without trailing periods and spaces and without outer angle brackets and
    double quotes.  Every other line stands for nothing; among them every
    property line of the compact form whose predicate was abbreviated to a
    prefix, which is every property line of a builder graph. *)
Theorem parse_turtle_simple_line_by_line :
  (forall content : str,
     parse_turtle_simple content
     = flat_map line_triples (split_char newline content))
  /\ (forall a b : str,
        parse_turtle_simple (a ++ newline :: b)
        = parse_turtle_simple a ++ parse_turtle_simple b)
  /\ (forall line : str,
        blank_or_skipped (strip line) = true -> line_triples line = [])
  /\ (forall (line : str) (t : Tuple),
        In t (line_triples line) ->
        exists (subj pred o1 : str) (os : list str),
          split_ws (strip line) = subj :: pred :: o1 :: os
          /\ startswith "<" subj = true
          /\ startswith "<" pred = true
          /\ t = ( strip_chars "<>" subj, strip_chars "<>" pred,
                   strip_chars ("<>" ++ [dquote])
                     (rstrip_chars " ." (join " " (o1 :: os))) )
          /\ line_triples line = [t])
  /\ (forall (n i : nat) (t : Triple),
        startswith "<" (format_uri (predicate t)) = false ->
        line_triples (turtle_property_line n i t) = [])
  /\ (forall (now document_id text_content : str) (chunks : list Chunk)
             (metadata : Metadata) (file_name : str) (n i : nat) (t : Triple),
        In t (generate_rdf_graph now document_id text_content chunks metadata
                                 file_name) ->
        line_triples (turtle_property_line n i t) = []).
Proof.
  split; [exact parse_turtle_simple_lines|].
  split; [exact parse_turtle_simple_app|].
  split.
  { intros line H. unfold line_triples, recognised_line. now rewrite H. }
  split.
  { intros line t. unfold line_triples, recognised_line.
    destruct (blank_or_skipped (strip line)); [contradiction|].
    destruct (split_ws (strip line)) as [|subj [|pred [|o1 os]]];
      try contradiction.
    destruct (startswith "<" subj) eqn:Es; [|contradiction].
    destruct (startswith "<" pred) eqn:Ep; [|contradiction].
    cbn [andb]. intros [<- | []].
    exists subj, pred, o1, os. repeat split; assumption. }
  split; [exact turtle_property_line_dropped|].
  intros now document_id text_content chunks metadata file_name n i t Hin.
  apply turtle_property_line_dropped.
  pose proof (generate_rdf_graph_predicates now document_id text_content
                chunks metadata file_name) as Hall.
  rewrite Forall_forall in Hall. now apply Hall.
Qed.

(** C8 (as stated, refuted).  With [keywords = "alpha,"] the split yields
    the token [alpha] and an empty token, and the builder emits the keyword
    node of the empty token: the bare entity namespace typed as [Keyword],
    with an empty value literal, linked from the document. *)
Lemma empty_keyword_token_counterexample :
  map strip (split_char "," (get_str (keywords metadata_trailing_comma)))
  = ["alpha" : str; []]
  /\ In (mkTriple NAMESPACE_ENTITY "rdf:type" (NAMESPACE_ONTO ++ "Keyword"))
        (graph_of metadata_trailing_comma)
  /\ In (mkTriple NAMESPACE_ENTITY (NAMESPACE_ONTO ++ "hasValue") (quoted []))
        (graph_of metadata_trailing_comma)
  /\ In (mkTriple (doc_uri_of "doc-1") (NAMESPACE_ONTO ++ "hasKeyword")
                  NAMESPACE_ENTITY)
        (graph_of metadata_trailing_comma).
Proof.
  split; [reflexivity|].
  vm_compute. repeat split; tauto.
Qed.

(** C8 (amended).  When the keyword field is present and not empty, it is
    split on commas and every token of the split, empty or not, is trimmed
    and gets its three triples (keyword node type, value literal,
    document-to-keyword link), next to each other in the graph. *)
Theorem keyword_triples_for_every_token (now document_id text_content : str)
    (chunks : list Chunk) (metadata : Metadata) (file_name : str)
    (keyword_field token : str) :
  keywords metadata = Some keyword_field ->
  keyword_field <> [] ->
  In token (split_char "," keyword_field) ->
  let keyword := strip token in
  let keyword_uri := NAMESPACE_ENTITY ++ quote keyword in
  exists pre post : list Triple,
    generate_rdf_graph now document_id text_content chunks metadata file_name
    = pre
      ++ [ mkTriple keyword_uri "rdf:type" (NAMESPACE_ONTO ++ "Keyword");
           mkTriple keyword_uri (NAMESPACE_ONTO ++ "hasValue")
                    (quoted (escape_literal keyword));
           mkTriple (doc_uri_of document_id) (NAMESPACE_ONTO ++ "hasKeyword")
                    keyword_uri ]
      ++ post.
Proof.
  intros Hk Hne Hin keyword keyword_uri.
  rewrite generate_rdf_graph_blocks.
  assert (Ht : keyword_tokens metadata = split_char "," keyword_field).
  { unfold keyword_tokens. rewrite Hk.
    destruct keyword_field; [congruence | reflexivity]. }
  rewrite Ht.
  destruct (in_split _ _ Hin) as (l1 & l2 & ->).
  rewrite flat_map_app. simpl flat_map.
  exists (document_triples now document_id text_content file_name
          ++ flat_map (keyword_triples (doc_uri_of document_id)) l1),
         (flat_map (keyword_triples (doc_uri_of document_id)) l2
          ++ after_keywords document_id chunks metadata).
  unfold keyword_triples at 2. fold keyword. fold keyword_uri.
  repeat rewrite <- app_assoc. reflexivity.
Qed.

Lemma keyword_triples_for_every_token_witness :
  exists pre post : list Triple,
    graph_of metadata_trailing_comma
    = pre
      ++ [ mkTriple (NAMESPACE_ENTITY ++ quote (strip []))
                    "rdf:type" (NAMESPACE_ONTO ++ "Keyword");
           mkTriple (NAMESPACE_ENTITY ++ quote (strip []))
                    (NAMESPACE_ONTO ++ "hasValue")
                    (quoted (escape_literal (strip [])));
           mkTriple (doc_uri_of "doc-1") (NAMESPACE_ONTO ++ "hasKeyword")
                    (NAMESPACE_ENTITY ++ quote (strip [])) ]
      ++ post.
Proof.
  apply (keyword_triples_for_every_token now0 "doc-1" text0 [chunk0]
           metadata_trailing_comma "a.txt" "alpha," []).
  - reflexivity.
  - discriminate.
  - simpl. right. left. reflexivity.
Defined.

(** C9.  [extract_entities_simple] returns the first five distinct words
    longer than three characters among the capitalized words of the text, in
    the order in which they are first seen, compared by exact string
    equality, each typed [Entity]; every mention is one upper-case letter
    followed by one or more lower-case letters and stands in the text as a
    whole word (no word character next to it, so the run cannot be
    extended).  On ["Hello Acme Corp today"] the mentions are [Hello],
    [Acme], [Corp]. *)
Theorem extract_entities_simple_mentions (text : str) :
  let entities := extract_entities_simple text in
  let words := findall_capitalized text in
  Occurs None text words
  /\ entities
     = map (fun w => (w, "Entity" : str))
           (firstn 5 (dedup [] (filter longer_than_3 words)))
  /\ length entities <= 5
  /\ NoDup (map fst entities)
  /\ (forall w ty : str, In (w, ty) entities ->
        ty = ("Entity" : str) /\ 3 < length w /\ is_capitalized w = true
        /\ exists pre post : str, delimited None text w pre post)
  /\ extract_entities_simple "Hello Acme Corp today"
     = [ ("Hello" : str, "Entity" : str); ("Acme" : str, "Entity" : str);
         ("Corp" : str, "Entity" : str) ].
Proof.
  intros entities words.
  assert (Hocc : Occurs None text words)
    by (apply (findall_from_sound (length text)); apply Nat.le_refl).
  assert (Hent : entities
     = map (fun w => (w, "Entity" : str))
           (firstn 5 (dedup [] (filter longer_than_3 words)))).
  { unfold entities, extract_entities_simple. fold words.
    rewrite extract_loop_spec by (simpl; lia). reflexivity. }
  split; [exact Hocc|]. split; [exact Hent|].
  rewrite Hent. repeat split.
  - rewrite length_map, length_firstn. lia.
  - rewrite map_map. cbn [fst]. rewrite map_id.
    apply firstn_NoDup, dedup_NoDup.
  - apply in_map_iff in H. destruct H as (x & [= _ <-] & _). reflexivity.
  - apply in_map_iff in H. destruct H as (x & [= <- _] & Hin).
    apply firstn_In, dedup_In in Hin. destruct Hin as [Hin _].
    apply filter_In in Hin. destruct Hin as [_ Hlong].
    now apply Nat.ltb_lt in Hlong.
  - apply in_map_iff in H. destruct H as (x & [= <- _] & Hin).
    apply firstn_In, dedup_In in Hin. destruct Hin as [Hin _].
    apply filter_In in Hin. destruct Hin as [Hin _].
    now destruct (Occurs_In _ _ _ _ Hocc Hin).
  - apply in_map_iff in H. destruct H as (x & [= <- _] & Hin).
    apply firstn_In, dedup_In in Hin. destruct Hin as [Hin _].
    apply filter_In in Hin. destruct Hin as [Hin _].
    now destruct (Occurs_In _ _ _ _ Hocc Hin).
Qed.

(** C10 (as stated, refuted).  The builder puts the document identifier
    into the document URI as it is.  With an identifier that holds spaces,
    the first line of the fully-qualified form reads as a type declaration
    of the document with a class under the prefix of the class-membership
    check; against a schema that lists another class, validation warns of an
    undefined class, and [handler] reports [WARNING]. *)
Lemma undefined_class_counterexample :
  graph_spaced
  = generate_rdf_graph now0 spaced_id text0 [chunk0] metadata_none "a.txt"
  /\ no_space spaced_id = false
  /\ classes schema_exactly_one = [mkClassDef Keyword_class None]
  /\ (exists rest : list Tuple,
        parse_turtle_simple (serialize_ntriples graph_spaced)
        = (doc_uri_of "d", RDF_TYPE,
           Report_hash_class ++ "> <" ++ RDF_TYPE ++ "> <"
           ++ NAMESPACE_ONTO ++ "Document")
          :: rest)
  /\ (exists res : ValidationResult,
        validate_against_ontology
          (parse_turtle_simple (serialize_ntriples graph_spaced))
          schema_exactly_one = Ok res
        /\ existsb (fun w => str_eqb (issue_type w) "undefined_class")
                   (warnings res) = true)
  /\ validationStatus
       (handler (Ok (serialize_ntriples graph_spaced)) schema_exactly_one)
     = WARNING.
Proof.
  split; [reflexivity|]. split; [reflexivity|]. split; [reflexivity|].
  split; [eexists; vm_compute; reflexivity|].
  split; [|vm_compute; reflexivity].
  eexists. split; vm_compute; reflexivity.
Qed.

(** C10 (amended).  Whatever the document and the schema: every type
    triple the builder emits names a class under [NAMESPACE_ONTO] (slash),
    which the prefix the class-membership check looks for (hash) does not
    match.  So whenever the type declarations the validator reads are those
    of a builder graph, the check adds no warning, and a completed validation
    holds no [undefined_class] warning, whatever classes the schema defines.
    That is the case of a builder graph staged in the fully-qualified or in
    the compact form and read back, when the document identifier has no
    whitespace and the timestamp no line break. *)
Theorem builder_types_never_undefined (now document_id text_content : str)
    (chunks : list Chunk) (metadata : Metadata) (file_name : str)
    (model : OntologyModel) :
  let graph :=
    generate_rdf_graph now document_id text_content chunks metadata file_name in
  (forall t : Triple, In t graph -> predicate t = ("rdf:type" : str) ->
     startswith NAMESPACE_ONTO (object t) = true
     /\ startswith "http://graph-rag.example.com/ontology#" (object t) = false)
  /\ (forall triples : list Tuple,
        types_come_from graph triples ->
        check_class_membership model (build_instances triples) [] = []
        /\ (forall res : ValidationResult,
              validate_against_ontology triples model = Ok res ->
              forall w : Issue, In w (warnings res) ->
                issue_type w <> ("undefined_class" : str)))
  /\ (no_space document_id = true -> no_newline now = true ->
      types_come_from graph (parse_turtle_simple (serialize_ntriples graph))
      /\ types_come_from graph (parse_turtle_simple (serialize_turtle graph)))
  /\ (no_space document_id = true -> no_newline now = true ->
      forall content : str,
        content = serialize_ntriples graph \/ content = serialize_turtle graph ->
        forall res : ValidationResult,
          validate_against_ontology (parse_turtle_simple content) model
          = Ok res ->
          forall w : Issue, In w (warnings res) ->
            issue_type w <> ("undefined_class" : str)).
Proof.
  intros graph.
  assert (Hgraph : forall t : Triple, In t graph ->
            predicate t = ("rdf:type" : str) ->
            startswith NAMESPACE_ONTO (object t) = true
            /\ startswith "http://graph-rag.example.com/ontology#" (object t)
               = false).
  { intros t Hin Hp.
    pose proof (generate_rdf_graph_typed now document_id text_content chunks
                  metadata file_name) as Hall.
    rewrite Forall_forall in Hall. destruct (Hall t Hin Hp) as (name & ->).
    apply onto_class_not_hash. }
  assert (Hread : forall triples : list Tuple,
            types_come_from graph triples ->
            check_class_membership model (build_instances triples) [] = []
            /\ (forall res : ValidationResult,
                  validate_against_ontology triples model = Ok res ->
                  forall w : Issue, In w (warnings res) ->
                    issue_type w <> ("undefined_class" : str))).
  { intros triples Hfrom.
    assert (Hcheck : check_class_membership model (build_instances triples) []
                     = []).
    { apply check_class_membership_unchanged. intros s o Hin.
      destruct (Hfrom s o Hin) as (t & Ht & Hp & <-).
      now apply Hgraph. }
    split; [exact Hcheck|].
    intros res Hres w Hw.
    rewrite (validate_against_ontology_warnings _ _ _ Hres), Hcheck in Hw.
    apply check_property_domains_kinds in Hw. destruct Hw as [[]|Hw].
    rewrite Hw. discriminate. }
  split; [exact Hgraph|]. split; [exact Hread|]. split.
  - intros Hdoc Hnow. now apply staged_types_come_from.
  - intros Hdoc Hnow content Hc.
    destruct (staged_types_come_from now document_id text_content chunks
                metadata file_name Hdoc Hnow) as [Hn Ht].
    fold graph in Hn, Ht.
    destruct Hc as [-> | ->]; [now apply (Hread _ Hn) | now apply (Hread _ Ht)].
Qed.

(** * Further properties *)

(** X1.  The compact form is not read back: for every graph the builder
    produces (document identifier without whitespace, timestamp without line
    break), [parse_turtle_simple] finds no triple in the output of
    [serialize_turtle], so that validation sees no instance, completes
    whatever the schema, and reports [PASSED]. *)
Theorem compact_form_reads_back_empty (now document_id text_content : str)
    (chunks : list Chunk) (metadata : Metadata) (file_name : str) :
  no_space document_id = true ->
  no_newline now = true ->
  let graph :=
    generate_rdf_graph now document_id text_content chunks metadata file_name in
  parse_turtle_simple (serialize_turtle graph) = []
  /\ forall model : OntologyModel,
       handler (Ok (serialize_turtle graph)) model
       = Completed PASSED [] []
           [ "class_membership" : str; "property_domains_ranges" : str;
             "cardinality_constraints" : str ] true.
Proof.
  intros Hdoc Hnow graph.
  assert (H : parse_turtle_simple (serialize_turtle graph) = [])
    by (apply parse_serialize_turtle_silent;
        now apply generate_rdf_graph_silent).
  split; [exact H|]. intros model.
  unfold handler. cbn [bind]. rewrite H. reflexivity.
Qed.

Lemma compact_form_reads_back_empty_witness :
  parse_turtle_simple (serialize_turtle (graph_of metadata_two_keywords)) = []
  /\ forall model : OntologyModel,
       handler (Ok (serialize_turtle (graph_of metadata_two_keywords))) model
       = Completed PASSED [] []
           [ "class_membership" : str; "property_domains_ranges" : str;
             "cardinality_constraints" : str ] true.
Proof.
  apply (compact_form_reads_back_empty now0 "doc-1" text0 [chunk0]
           metadata_two_keywords "a.txt"); reflexivity.
Defined.

(** X2.  [handler] reports [ERROR] for a graph it could read exactly when
    [int] refuses the value of a [minCardinality] restriction listed for a
    class that some instance of the graph is declared to have.  Then the
    error is the [ValueError] of [int] on such a value, and nothing else of
    the validation is returned; otherwise the validation completes, also
    when the schema holds values [int] refuses for classes no instance
    has. *)
Theorem handler_error_exactly (content : str) (model : OntologyModel) :
  let triples := parse_turtle_simple content in
  (reached_minimums_parse triples model = true ->
   exists res : ValidationResult,
     validate_against_ontology triples model = Ok res
     /\ handler (Ok content) model = completed_result res)
  /\ (reached_minimums_parse triples model = false ->
      exists r : Restriction,
        In r (restrictions model)
        /\ reached triples r = true
        /\ restr_restrictionType r = ("minCardinality" : str)
        /\ py_int (restr_value r) = None
        /\ handler (Ok content) model
           = Errored (ValueError (int_error (restr_value r))))
  /\ (validationStatus (handler (Ok content) model) = ERROR
      <-> reached_minimums_parse triples model = false).
Proof.
  intros triples.
  assert (Hok : reached_minimums_parse triples model = true ->
            exists res : ValidationResult,
              validate_against_ontology triples model = Ok res
              /\ handler (Ok content) model = completed_result res).
  { intros Hm.
    destruct (validate_against_ontology_reached triples model Hm)
      as (res & Hres & _).
    exists res. split; [exact Hres|]. now apply handler_completed. }
  assert (Herr : reached_minimums_parse triples model = false ->
            exists r : Restriction,
              In r (restrictions model)
              /\ reached triples r = true
              /\ restr_restrictionType r = ("minCardinality" : str)
              /\ py_int (restr_value r) = None
              /\ handler (Ok content) model
                 = Errored (ValueError (int_error (restr_value r)))).
  { intros Hm.
    destruct (validate_against_ontology_raises triples model Hm)
      as (r & Hin & Hr & Hv & Hres).
    exists r. unfold value_parses in Hv. apply orb_false_iff in Hv.
    destruct Hv as [Hkind Hint]. apply negb_false_iff, str_eqb_eq in Hkind.
    repeat split; try assumption.
    - now destruct (py_int (restr_value r)).
    - unfold handler. cbn [bind]. fold triples. now rewrite Hres. }
  split; [exact Hok|]. split; [exact Herr|].
  destruct (reached_minimums_parse triples model) eqn:Hm.
  - destruct (Hok eq_refl) as (res & _ & ->). split; [|discriminate].
    unfold completed_result, status_of. cbn [validationStatus].
    destruct (0 <? length (violations res)); [discriminate|].
    destruct (0 <? length (warnings res)); discriminate.
  - destruct (Herr eq_refl) as (r & _ & _ & _ & _ & ->). now split.
Qed.

(** X4.  [escape_literal] loses nothing: two texts have the same escaped
    form exactly when they are the same text. *)
Theorem escape_literal_injective (a b : str) :
  str_eqb (escape_literal a) (escape_literal b) = str_eqb a b.
Proof.
  destruct (str_eqb a b) eqn:E.
  - apply str_eqb_eq in E. subst. apply str_eqb_refl.
  - apply str_eqb_neq. apply str_eqb_neq in E. intros H. apply E.
    rewrite <- (unescape_escape_literal a), <- (unescape_escape_literal b).
    now rewrite H.
Qed.

Import PipelineViews PipelineExamples.
Import PrefixFacts BlockFacts WarningFacts GeneratorFacts RowFacts HandlerFacts
  ChunkFacts.

(** X5.  Abbreviating and expanding a URI are inverse on the three
    namespaces of the builder: a URI made of a namespace and a name that
    does not hold the base namespace again is abbreviated by [format_uri] to
    the prefixed name, [doc:], [entity:] or [onto:] followed by the name, and
    [format_uri_full] expands what [format_uri] returned to the same URI
    between angle brackets. *)
Theorem prefixed_names_expand_back (name : str) :
  occurs_in NAMESPACE_BASE name = false ->
  (format_uri (NAMESPACE_DOC ++ name) = "doc:" ++ name
   /\ format_uri (NAMESPACE_ENTITY ++ name) = "entity:" ++ name
   /\ format_uri (NAMESPACE_ONTO ++ name) = "onto:" ++ name)
  /\ format_uri_full (format_uri (NAMESPACE_DOC ++ name))
     = "<" ++ NAMESPACE_DOC ++ name ++ ">"
  /\ format_uri_full (format_uri (NAMESPACE_ENTITY ++ name))
     = "<" ++ NAMESPACE_ENTITY ++ name ++ ">"
  /\ format_uri_full (format_uri (NAMESPACE_ONTO ++ name))
     = "<" ++ NAMESPACE_ONTO ++ name ++ ">".
Proof.
  intros H. pose proof (format_uri_prefixed name H) as Hp.
  split; [exact Hp|]. destruct Hp as (-> & -> & ->).
  apply format_uri_full_prefixed.
Qed.

Lemma prefixed_names_expand_back_witness :
  (format_uri (NAMESPACE_DOC ++ "doc-1") = "doc:" ++ "doc-1"
   /\ format_uri (NAMESPACE_ENTITY ++ "doc-1") = "entity:" ++ "doc-1"
   /\ format_uri (NAMESPACE_ONTO ++ "doc-1") = "onto:" ++ "doc-1")
  /\ format_uri_full (format_uri (NAMESPACE_DOC ++ "doc-1"))
     = "<" ++ NAMESPACE_DOC ++ "doc-1" ++ ">"
  /\ format_uri_full (format_uri (NAMESPACE_ENTITY ++ "doc-1"))
     = "<" ++ NAMESPACE_ENTITY ++ "doc-1" ++ ">"
  /\ format_uri_full (format_uri (NAMESPACE_ONTO ++ "doc-1"))
     = "<" ++ NAMESPACE_ONTO ++ "doc-1" ++ ">".
Proof. apply (prefixed_names_expand_back "doc-1"). reflexivity. Defined.

(** X6.  The compact form is the prefix header (five [@prefix] lines and
    an empty line) followed by one block per distinct subject, in the order in which the subjects first occur; the
    block of a subject is its subject line, one property line for each of its
    triples in their order, and an empty line. *)
Theorem serialize_turtle_blocks (triples : list Triple) :
  serialize_turtle triples
  = join [newline]
      (turtle_header
       ++ flat_map (fun k => block_lines k (block_of k triples))
                   (subjects triples))
  /\ NoDup (subjects triples).
Proof.
  split.
  - unfold serialize_turtle. now rewrite turtle_lines_blocks.
  - apply dedup_NoDup.
Qed.

(** X7.  Restrictions the cardinality check does not act on never fail a
    document: when the schema holds no minimum cardinality and no exact
    cardinality with the value ['1'] (only maximum cardinality, value
    restrictions, or exact cardinalities other than one), validation
    completes without a violation and [handler] reports success. *)
Theorem unenforced_restrictions_never_fail (content : str)
    (model : OntologyModel) :
  none_enforced model = true ->
  exists res : ValidationResult,
    validate_against_ontology (parse_turtle_simple content) model = Ok res
    /\ violations res = []
    /\ handler (Ok content) model = completed_result res
    /\ success (handler (Ok content) model) = true.
Proof.
  intros H.
  destruct (none_enforced_no_violations (parse_turtle_simple content) model H)
    as (res & Hres & Hv).
  exists res. rewrite (handler_completed content model res Hres).
  repeat split; try assumption.
  unfold completed_result, status_of, success. rewrite Hv.
  cbn [length Nat.ltb Nat.leb].
  now destruct (length (warnings res)).
Qed.

Lemma unenforced_restrictions_never_fail_witness :
  exists res : ValidationResult,
    validate_against_ontology
      (parse_turtle_simple (serialize_ntriples (graph_of metadata_two_keywords)))
      schema_at_most_zero = Ok res
    /\ violations res = []
    /\ handler (Ok (serialize_ntriples (graph_of metadata_two_keywords)))
               schema_at_most_zero = completed_result res
    /\ success (handler (Ok (serialize_ntriples (graph_of metadata_two_keywords)))
                        schema_at_most_zero) = true.
Proof.
  apply (unenforced_restrictions_never_fail
           (serialize_ntriples (graph_of metadata_two_keywords))
           schema_at_most_zero).
  reflexivity.
Defined.

(** X8.  The domain check warns at most once per instance and property:
    the warnings of a completed validation hold one [domain_mismatch] issue
    about instance [s] and property [p] when [s] carries a value for [p],
    the last row the schema lists for [p] declares a domain, and [s] is not
    declared to have that type; otherwise they hold none. *)
Theorem domain_warning_count (triples : list Tuple) (model : OntologyModel)
    (res : ValidationResult) (s p : str) :
  validate_against_ontology triples model = Ok res ->
  length (filter (issue_about "domain_mismatch" s p) (warnings res))
  = if domain_mismatch s p triples model then 1 else 0.
Proof.
  intros H. rewrite (validate_against_ontology_warnings triples model res H).
  apply domain_mismatch_count_aux.
Qed.

Lemma domain_warning_count_witness :
  length (filter (issue_about "domain_mismatch" alpha_node hasValue_property)
            (warnings (returned (validate_against_ontology
                                   (staged metadata_two_keywords)
                                   schema_value_of_author))))
  = if domain_mismatch alpha_node hasValue_property
         (staged metadata_two_keywords) schema_value_of_author
    then 1 else 0.
Proof.
  apply (domain_warning_count (staged metadata_two_keywords)
           schema_value_of_author).
  vm_compute. reflexivity.
Defined.

(** X9.  The class check warns once per type declaration: the warnings of
    a completed validation hold as many [undefined_class] issues about
    instance [s] and class [c] as [s] has type declarations naming [c], when
    [c] is under the prefix [http://graph-rag.example.com/ontology#], the
    schema lists at least one class and [c] is not among them; otherwise they
    hold none. *)
Theorem undefined_class_count (triples : list Tuple) (model : OntologyModel)
    (res : ValidationResult) (s c : str) :
  validate_against_ontology triples model = Ok res ->
  length (filter (undefined_class_about s c) (warnings res))
  = if undefined_class c model
    then length (filter (fun c' => str_eqb c' c) (types_of s triples))
    else 0.
Proof.
  intros H. rewrite (validate_against_ontology_warnings triples model res H).
  apply undefined_class_count_aux.
Qed.

Lemma undefined_class_count_witness :
  length (filter (undefined_class_about
                    "http://graph-rag.example.com/document/d" Report_class)
            (warnings (returned (validate_against_ontology report_triples
                                   schema_memo))))
  = if undefined_class Report_class schema_memo
    then length (filter (fun c' => str_eqb c' Report_class)
                        (types_of "http://graph-rag.example.com/document/d"
                                  report_triples))
    else 0.
Proof.
  apply (undefined_class_count report_triples schema_memo).
  vm_compute. reflexivity.
Defined.

(** X10.  The number of triples of a graph: five for the document, three
    for each keyword token, one for a document type, three for an author,
    and for each chunk six plus three for each of its extracted entities, of
    which there are at most five. *)
Theorem triple_count_formula (now document_id text_content : str)
    (chunks : list Chunk) (metadata : Metadata) (file_name : str) :
  let graph :=
    generate_rdf_graph now document_id text_content chunks metadata file_name in
  length graph = graph_size chunks metadata
  /\ 5 + 3 * length (keyword_tokens metadata) + 6 * length chunks
     <= length graph
  /\ length graph
     <= 9 + 3 * length (keyword_tokens metadata) + 21 * length chunks.
Proof.
  intros graph. unfold graph. rewrite generate_rdf_graph_length.
  split; [reflexivity|]. unfold graph_size.
  destruct (chunk_counts_bounds chunks) as [H1 H2].
  destruct (truthy (documentType metadata)), (truthy (author metadata)); lia.
Qed.

(** X11.  [handler] of the generator reports success only for a graph it
    has stored: either exactly one request was sent to the store and
    accepted, for the configured bucket and the key
    [neptune-staging/<documentId>/data.ttl], with the serialized graph as
    body, and the result names that key and bucket and counts the triples of
    the graph; or the result reports failure at the stage [rdf-generation],
    leaves the key of the event as it was, and no request it sent was
    accepted. *)
Theorem generator_success_means_stored
    (BUCKET_NAME ONTOLOGY_SCHEMA_VERSION RDF_FORMAT now : str)
    (put_object : S3.PutObject -> result unit) (event : Event.t) :
  let run := RdfGeneratorLambda.handler BUCKET_NAME ONTOLOGY_SCHEMA_VERSION
               RDF_FORMAT now put_object event in
  (exists request : S3.PutObject,
     snd run = [request]
     /\ put_object request = Ok tt
     /\ S3.Bucket request = BUCKET_NAME
     /\ S3.Key request = staging_key event
     /\ RdfGeneratorLambda.serialize_rdf (event_graph now event) RDF_FORMAT
        = Ok (S3.Body request)
     /\ Event.success (fst run) = Some true
     /\ Event.rdfS3Key (fst run) = Some (staging_key event)
     /\ Event.rdfBucket (fst run) = Some BUCKET_NAME
     /\ Event.tripleCount (fst run) = Some (length (event_graph now event)))
  \/ (Event.success (fst run) = Some false
      /\ Event.stage (fst run) = Some ("rdf-generation" : str)
      /\ Event.rdfS3Key (fst run) = Event.rdfS3Key event
      /\ forall request : S3.PutObject,
           In request (snd run) -> exists e, put_object request = Raise e).
Proof.
  intros run.
  destruct (generator_handler_cases BUCKET_NAME ONTOLOGY_SCHEMA_VERSION
              RDF_FORMAT now put_object event)
    as [(request & H1 & H2 & H3 & H4 & H5 & _ & H6 & H7 & H8 & H9 & _)|H].
  - left. exists request. repeat split; assumption.
  - right. exact H.
Qed.

(** X12.  A format other than [turtle] and [n-triples] always fails: the
    generator sends nothing to the store and reports failure, for every
    event; when the event has a document identifier the error text is
    [Unsupported RDF format: ] followed by the format. *)
Theorem unsupported_format_stores_nothing
    (BUCKET_NAME ONTOLOGY_SCHEMA_VERSION RDF_FORMAT now : str)
    (put_object : S3.PutObject -> result unit) (event : Event.t) :
  str_eqb RDF_FORMAT "turtle" = false ->
  str_eqb RDF_FORMAT "n-triples" = false ->
  let run := RdfGeneratorLambda.handler BUCKET_NAME ONTOLOGY_SCHEMA_VERSION
               RDF_FORMAT now put_object event in
  snd run = []
  /\ Event.success (fst run) = Some false
  /\ Event.rdfS3Key (fst run) = Event.rdfS3Key event
  /\ (truthy (Event.documentId event) = true ->
      Event.error (fst run) = Some ("Unsupported RDF format: " ++ RDF_FORMAT)).
Proof.
  intros H1 H2 run. unfold run, RdfGeneratorLambda.handler,
    RdfGeneratorLambda.handler_try, RdfGeneratorLambda.serialize_rdf.
  rewrite H1, H2.
  destruct (truthy (Event.documentId event)); cbn; repeat split; discriminate.
Qed.

Lemma unsupported_format_stores_nothing_witness :
  snd (RdfGeneratorLambda.handler "bucket" "1.0" "rdf-xml" now0 put_accepted
         event0) = []
  /\ Event.success
       (fst (RdfGeneratorLambda.handler "bucket" "1.0" "rdf-xml" now0
               put_accepted event0)) = Some false
  /\ Event.rdfS3Key
       (fst (RdfGeneratorLambda.handler "bucket" "1.0" "rdf-xml" now0
               put_accepted event0)) = Event.rdfS3Key event0
  /\ (truthy (Event.documentId event0) = true ->
      Event.error
        (fst (RdfGeneratorLambda.handler "bucket" "1.0" "rdf-xml" now0
                put_accepted event0))
      = Some ("Unsupported RDF format: " ++ "rdf-xml")).
Proof.
  apply (unsupported_format_stores_nothing "bucket" "1.0" "rdf-xml" now0
           put_accepted event0); reflexivity.
Defined.

(** X13.  Validation over the rows of the query results, read with
    [row[key]], is validation over the typed rows they stand for, whenever
    every class row has the key ['class'], every property row the key
    ['property'], and every restriction row the keys ['class'],
    ['property'], ['restrictionType'] and ['value']. *)
Theorem row_validation_is_typed_validation (triples : list Tuple)
    (m : OntologyValidatorLambda.Model) :
  complete_rows m = true ->
  OntologyValidatorLambda.validate_against_ontology triples m
  = validate_against_ontology triples (model_of_rows m).
Proof. apply validate_rows. Qed.

Lemma row_validation_is_typed_validation_witness :
  OntologyValidatorLambda.validate_against_ontology
    (staged metadata_two_keywords) rows_complete
  = validate_against_ontology (staged metadata_two_keywords)
      (model_of_rows rows_complete).
Proof.
  apply (row_validation_is_typed_validation (staged metadata_two_keywords)
           rows_complete).
  reflexivity.
Defined.

(** X14.  The validator passes every readable graph when the schema cannot
    be fetched: if one of the three schema queries raises, is answered with
    a status other than 200, or with a body that is not a JSON document,
    then for an event with a document identifier and a key whose object can
    be read, [handler] returns the status [PASSED] with no violation and no
    warning, whatever the object holds. *)
Theorem unavailable_schema_passes (BUCKET_NAME NEPTUNE_ENDPOINT NEPTUNE_PORT : str)
    (get_object : str -> str -> result str)
    (http_request : str -> str -> result OntologyValidatorLambda.Response)
    (event : Event.t) (content : str) :
  has_keys event = true ->
  get_object (event_bucket BUCKET_NAME event) (get_str (Event.rdfS3Key event))
  = Ok content ->
  schema_unavailable NEPTUNE_ENDPOINT NEPTUNE_PORT http_request = true ->
  OntologyValidatorLambda.handler BUCKET_NAME NEPTUNE_ENDPOINT NEPTUNE_PORT
    get_object http_request event
  = Completed PASSED [] []
      [ "class_membership" : str; "property_domains_ranges" : str;
        "cardinality_constraints" : str ] true.
Proof. apply handler_unavailable. Qed.

Lemma unavailable_schema_passes_witness :
  OntologyValidatorLambda.handler "bucket" "neptune" "8182" get_staged
    http_unavailable event_staged
  = Completed PASSED [] []
      [ "class_membership" : str; "property_domains_ranges" : str;
        "cardinality_constraints" : str ] true.
Proof.
  apply (unavailable_schema_passes "bucket" "neptune" "8182" get_staged
           http_unavailable event_staged
           (serialize_ntriples (graph_of metadata_two_keywords)));
    reflexivity.
Defined.

(** X15.  The rows of a results document: none when the document has no
    ['results'] or the results have no ['bindings']; otherwise one row per
    binding, in order, and the row of a binding gives each variable of the
    binding the ['value'] of its term (the empty string when the term has
    none) and has no other key. *)
Theorem sparql_rows_follow_bindings :
  OntologyValidatorLambda.parse_sparql_results
    (OntologyValidatorLambda.mkSparqlResults None) = []
  /\ OntologyValidatorLambda.parse_sparql_results
       (OntologyValidatorLambda.mkSparqlResults
          (Some (OntologyValidatorLambda.mkResultsObject None))) = []
  /\ (forall bs : list OntologyValidatorLambda.Binding,
        OntologyValidatorLambda.parse_sparql_results
          (OntologyValidatorLambda.mkSparqlResults
             (Some (OntologyValidatorLambda.mkResultsObject (Some bs))))
        = map OntologyValidatorLambda.parse_binding bs)
  /\ (forall (b : OntologyValidatorLambda.Binding) (var : str),
        NoDup (ODict.keys b) ->
        ODict.get var (OntologyValidatorLambda.parse_binding b)
        = option_map term_value (ODict.get var b)).
Proof.
  repeat split.
  - apply parse_sparql_results_bindings.
  - apply parse_binding_get.
Qed.

(** X16.  What the generator stores is what the validator validates: when
    the generator reports success, the validator run on the generator's
    result, against the store as the generator left it and a schema with
    complete rows, returns the result of validating the serialized graph of
    the event against that schema. *)
Theorem staged_graph_is_validated
    (BUCKET_NAME ONTOLOGY_SCHEMA_VERSION RDF_FORMAT now : str)
    (put_object : S3.PutObject -> result unit) (event : Event.t)
    (BUCKET_NAME' NEPTUNE_ENDPOINT NEPTUNE_PORT : str)
    (http_request : str -> str -> result OntologyValidatorLambda.Response) :
  let run := RdfGeneratorLambda.handler BUCKET_NAME ONTOLOGY_SCHEMA_VERSION
               RDF_FORMAT now put_object event in
  let schema := OntologyValidatorLambda.fetch_ontology_model NEPTUNE_ENDPOINT
                  NEPTUNE_PORT http_request in
  Event.success (fst run) = Some true ->
  complete_rows schema = true ->
  exists content : str,
    RdfGeneratorLambda.serialize_rdf (event_graph now event) RDF_FORMAT
    = Ok content
    /\ OntologyValidatorLambda.handler BUCKET_NAME' NEPTUNE_ENDPOINT
         NEPTUNE_PORT (S3.get_object (snd run)) http_request (fst run)
       = handler (Ok content) (model_of_rows schema).
Proof.
  intros run schema. apply staged_graph_validated_aux.
Qed.

Lemma staged_graph_is_validated_witness :
  exists content : str,
    RdfGeneratorLambda.serialize_rdf (event_graph now0 event0) "n-triples"
    = Ok content
    /\ OntologyValidatorLambda.handler "other" "neptune" "8182"
         (S3.get_object
            (snd (RdfGeneratorLambda.handler "bucket" "1.0" "n-triples" now0
                    put_accepted event0)))
         http_rows
         (fst (RdfGeneratorLambda.handler "bucket" "1.0" "n-triples" now0
                 put_accepted event0))
       = handler (Ok content)
           (model_of_rows
              (OntologyValidatorLambda.fetch_ontology_model "neptune" "8182"
                 http_rows)).
Proof.
  apply (staged_graph_is_validated "bucket" "1.0" "n-triples" now0
           put_accepted event0 "other" "neptune" "8182" http_rows);
    vm_compute; reflexivity.
Defined.

(** X17.  A schema row without the key a check reads first makes
    validation raise [KeyError] for every graph, also for the empty one:
    a class row without ['class']; with complete class rows, a property row
    without ['property']; with both complete, a restriction row without
    ['class']. *)
Theorem rows_without_key_raise (triples : list Tuple)
    (m : OntologyValidatorLambda.Model) :
  (forallb (ODict.mem "class") (OntologyValidatorLambda.classes m) = false ->
   OntologyValidatorLambda.validate_against_ontology triples m
   = Raise (KeyError "class"))
  /\ (forallb (ODict.mem "class") (OntologyValidatorLambda.classes m) = true ->
      forallb (ODict.mem "property") (OntologyValidatorLambda.properties m)
      = false ->
      OntologyValidatorLambda.validate_against_ontology triples m
      = Raise (KeyError "property"))
  /\ (forallb (ODict.mem "class") (OntologyValidatorLambda.classes m) = true ->
      forallb (ODict.mem "property") (OntologyValidatorLambda.properties m)
      = true ->
      forallb (ODict.mem "class") (OntologyValidatorLambda.restrictions m)
      = false ->
      OntologyValidatorLambda.validate_against_ontology triples m
      = Raise (KeyError "class")).
Proof. apply validate_missing_keys. Qed.

(** X18.  The key under which an upload is stored gives back the document
    identifier: for an identifier without [/] (such as a UUID),
    [extract_document_id] of [documents/<id>/<file name>] is the identifier,
    for every file name; the last path component is the file name when the
    file name has no [/]. *)
Theorem document_id_read_back (document_id file_name : str) :
  mem_char "/" document_id = false ->
  DocumentParser.extract_document_id
    (UploadHandler.s3_key document_id file_name) = document_id
  /\ (mem_char "/" file_name = false ->
      DocumentParser.file_name_of (UploadHandler.s3_key document_id file_name)
      = file_name).
Proof. apply upload_key_read_back. Qed.

Lemma document_id_read_back_witness :
  DocumentParser.extract_document_id (UploadHandler.s3_key "doc-1" "a.txt")
  = ("doc-1" : str)
  /\ (mem_char "/" "a.txt" = false ->
      DocumentParser.file_name_of (UploadHandler.s3_key "doc-1" "a.txt")
      = ("a.txt" : str)).
Proof. apply (document_id_read_back "doc-1" "a.txt"). reflexivity. Defined.

(** X19.  [create_text_chunks] does not return when the first window ends
    its sentence just before the overlap: if the cleaned text is longer than
    [chunk_size], [0 < overlap <= chunk_size], and the last [. ] that lies
    within the first [chunk_size] characters starts at index [overlap - 1],
    the second chunk starts at 0 again and the loop never ends. *)
Theorem chunking_never_ends (text : str) (chunk_size overlap : Z) :
  (chunk_size < Z.of_nat (length (cleaned text)))%Z ->
  (0 < overlap <= chunk_size)%Z ->
  DocumentParser.rfind ". " (cleaned text) 0 chunk_size = (overlap - 1)%Z ->
  forall fuel : nat,
    DocumentParser.create_text_chunks fuel text chunk_size overlap = None.
Proof. exact (create_text_chunks_stuck text chunk_size overlap). Qed.

Lemma chunking_never_ends_witness :
  DocumentParser.create_text_chunks 4000 long_text 1000 100 = None.
Proof.
  apply (chunking_never_ends long_text 1000 100).
  - vm_compute. reflexivity.
  - lia.
  - vm_compute. reflexivity.
Defined.

(** X20.  [create_text_chunks] returns for a text without a sentence
    ending: when the cleaned text holds neither [. ] nor [! ] and
    [0 <= overlap < chunk_size], the loop ends within as many rounds as the
    cleaned text has characters. *)
Theorem chunking_ends_without_sentence_end (text : str)
    (chunk_size overlap : Z) :
  no_sentence_end (cleaned text) = true ->
  (0 <= overlap < chunk_size)%Z ->
  exists chunks : list DocumentParser.TextChunk,
    DocumentParser.create_text_chunks (length (cleaned text)) text chunk_size
      overlap = Some chunks.
Proof. exact (create_text_chunks_ends text chunk_size overlap). Qed.

Lemma chunking_ends_without_sentence_end_witness :
  exists chunks : list DocumentParser.TextChunk,
    DocumentParser.create_text_chunks (length (cleaned plain_text)) plain_text
      1000 100 = Some chunks.
Proof.
  apply (chunking_ends_without_sentence_end plain_text 1000 100).
  - vm_compute. reflexivity.
  - lia.
Defined.

(** X21.  The chunks [create_text_chunks] returns are numbered from zero in
    steps of one, and the [length] of each is the length of its text. *)
Theorem chunk_identifiers_count_from_zero (fuel : nat) (text : str)
    (chunk_size overlap : Z) (chunks : list DocumentParser.TextChunk) :
  DocumentParser.create_text_chunks fuel text chunk_size overlap = Some chunks ->
  numbered chunks.
Proof. apply create_text_chunks_numbered. Qed.

Lemma chunk_identifiers_count_from_zero_witness :
  numbered (chunks_of (DocumentParser.create_text_chunks 2500 plain_text
                         1000 100)).
Proof.
  apply (chunk_identifiers_count_from_zero 2500 plain_text 1000 100).
  vm_compute. reflexivity.
Defined.
